(** * NovaDo: the bidirectional calendar synchronisation engine

    A shallow embedding of [app/scheduler.py] (the per-user sync cycle: pull
    phase, push phase; the loop over the users; the reminder check) and of
    the parts of [app/routes/calendar.py] it relies on (timezone conversion,
    task-to-event mapping, calendar selection) or that work on the same
    store (push on request, push of all tasks, disconnecting), followed by
    the properties of the specification, each proved or refuted on the
    embedding, and by further properties of the code. *)

From Stdlib Require Import ZArith List String Ascii Bool Lia.
Import ListNotations.

Open Scope Z_scope.

(** ** Python values *)

(** A computation that returns or raises; the message is [str(e)], which the
    pull phase inspects. *)
Inductive result (A : Type) : Type :=
| Ok (a : A)
| Raise (msg : string).
Arguments Ok {A} a.
Arguments Raise {A} msg.

Definition bind {A B : Type} (r : result A) (k : A -> result B) : result B :=
  match r with
  | Ok a => k a
  | Raise m => Raise m
  end.

Notation "x <- r ;; k" := (bind r (fun x => k))
  (at level 61, r at next level, right associativity).

(** A dictionary key read with [d.get(k, default)]: the key can be missing
    (the default applies), present with [None], or present with a value. *)
Inductive field (A : Type) : Type :=
| Missing
| Null
| Val (a : A).
Arguments Missing {A}.
Arguments Null {A}.
Arguments Val {A} a.

(** [d.get(k, default)] *)
Definition get_default {A : Type} (f : field A) (default : A) : option A :=
  match f with
  | Missing => Some default
  | Null => None
  | Val a => Some a
  end.

(** [d.get(k)] *)
Definition get {A : Type} (f : field A) : option A :=
  match f with
  | Val a => Some a
  | _ => None
  end.

(** Truthiness of the values the engine tests with [if x] / [not x]. *)
Definition truthy_str (s : option string) : bool :=
  match s with
  | Some (String _ _) => true
  | _ => false
  end.

Definition truthy_bool (b : option bool) : bool :=
  match b with
  | Some true => true
  | _ => false
  end.

Definition truthy_some {A : Type} (x : option A) : bool :=
  match x with
  | Some _ => true
  | None => false
  end.

(** ** Python string methods *)

Module Str.

Definition eqb_opt (a b : option string) : bool :=
  match a, b with
  | Some x, Some y => String.eqb x y
  | None, None => true
  | _, _ => false
  end.

(** [x in l] for a list of strings *)
Definition mem (x : string) (l : list string) : bool :=
  existsb (String.eqb x) l.

(** [sub in s] *)
Fixpoint contains (sub s : string) : bool :=
  if String.prefix sub s then true
  else match s with
       | EmptyString => false
       | String _ rest => contains sub rest
       end.

(** [s.endswith(c)] for a one-character suffix *)
Fixpoint endswith_char (c : ascii) (s : string) : bool :=
  match s with
  | EmptyString => false
  | String a EmptyString => Ascii.eqb a c
  | String _ rest => endswith_char c rest
  end.

(** [c in s] *)
Fixpoint has_char (c : ascii) (s : string) : bool :=
  match s with
  | EmptyString => false
  | String a rest => Ascii.eqb a c || has_char c rest
  end.

(** [s.count(c)] *)
Fixpoint count_char (c : ascii) (s : string) : Z :=
  match s with
  | EmptyString => 0
  | String a rest => (if Ascii.eqb a c then 1 else 0) + count_char c rest
  end.

(** [s.replace(c, by)] for a one-character pattern *)
Fixpoint replace_char (c : ascii) (by_ : string) (s : string) : string :=
  match s with
  | EmptyString => EmptyString
  | String a rest =>
      if Ascii.eqb a c then String.append by_ (replace_char c by_ rest)
      else String a (replace_char c by_ rest)
  end.

(** [s.split(c)]: at least one piece, empty pieces kept *)
Fixpoint split (c : ascii) (s : string) : list string :=
  match s with
  | EmptyString => [EmptyString]
  | String a rest =>
      if Ascii.eqb a c then EmptyString :: split c rest
      else match split c rest with
           | [] => [String a EmptyString]
           | p :: ps => String a p :: ps
           end
  end.

(** [sep.join(l)] *)
Fixpoint join (sep : string) (l : list string) : string :=
  match l with
  | [] => EmptyString
  | [x] => x
  | x :: rest => String.append x (String.append sep (join sep rest))
  end.

Definition is_lower (a : ascii) : bool :=
  let n := nat_of_ascii a in (97 <=? n)%nat && (n <=? 122)%nat.
Definition is_upper (a : ascii) : bool :=
  let n := nat_of_ascii a in (65 <=? n)%nat && (n <=? 90)%nat.
Definition to_upper (a : ascii) : ascii :=
  if is_lower a then ascii_of_nat (nat_of_ascii a - 32) else a.
Definition to_lower (a : ascii) : ascii :=
  if is_upper a then ascii_of_nat (nat_of_ascii a + 32) else a.

(** [s.title()] on ASCII text: a cased character is upper-cased after an
    uncased one and lower-cased after a cased one. *)
Fixpoint title_from (prev_cased : bool) (s : string) : string :=
  match s with
  | EmptyString => EmptyString
  | String a rest =>
      let cased := is_lower a || is_upper a in
      String (if prev_cased then to_lower a else to_upper a)
             (title_from cased rest)
  end.
Definition title (s : string) : string := title_from false s.

Definition is_digit (a : ascii) : bool :=
  let n := nat_of_ascii a in (48 <=? n)%nat && (n <=? 57)%nat.
Definition digit_val (a : ascii) : Z := Z.of_nat (nat_of_ascii a) - 48.

(** The value of a non-empty run of decimal digits. *)
Fixpoint digits_from (acc : Z) (s : string) : option Z :=
  match s with
  | EmptyString => Some acc
  | String a rest =>
      if is_digit a then digits_from (acc * 10 + digit_val a) rest else None
  end.
Definition digits (s : string) : option Z :=
  match s with
  | EmptyString => None
  | _ => digits_from 0 s
  end.

(** The ASCII characters that count as white space for [int] and [strip]:
    the blank, tab to carriage return, and the four separators. *)
Definition is_space (a : ascii) : bool :=
  let n := nat_of_ascii a in
  (n =? 32)%nat || ((9 <=? n)%nat && (n <=? 13)%nat)
  || ((28 <=? n)%nat && (n <=? 31)%nat).

(** The text has ASCII characters only. *)
Fixpoint is_ascii (s : string) : bool :=
  match s with
  | EmptyString => true
  | String a rest => (nat_of_ascii a <? 128)%nat && is_ascii rest
  end.

Fixpoint lstrip (s : string) : string :=
  match s with
  | String a rest => if is_space a then lstrip rest else s
  | EmptyString => EmptyString
  end.

Fixpoint rstrip (s : string) : string :=
  match s with
  | EmptyString => EmptyString
  | String a rest =>
      match rstrip rest with
      | EmptyString => if is_space a then EmptyString else String a EmptyString
      | r => String a r
      end
  end.

(** The value of a run of decimal digits in which single underscores may
    stand between digits, as in ["1_000"]. *)
Fixpoint grouped_from (acc : Z) (after_underscore : bool) (s : string) : option Z :=
  match s with
  | EmptyString => if after_underscore then None else Some acc
  | String a rest =>
      if is_digit a then grouped_from (acc * 10 + digit_val a) false rest
      else if Ascii.eqb a "_" then
        (if after_underscore then None else grouped_from acc true rest)
      else None
  end.
Definition grouped_digits (s : string) : option Z :=
  match s with
  | String a _ => if is_digit a then grouped_from 0 false s else None
  | EmptyString => None
  end.

Fixpoint count_digits (s : string) : nat :=
  match s with
  | EmptyString => O
  | String a rest => ((if is_digit a then 1 else 0) + count_digits rest)%nat
  end.

(** [int(s)] for ASCII text: surrounding white space, an optional sign, then
    decimal digits, with single underscores allowed between digits; more
    than 4300 digits are refused (the default of [sys.int_max_str_digits]).
    (On text that is not ASCII Python also reads the decimal digits of other
    scripts; statements that depend on [int] raising are made for ASCII
    text.) *)
Definition int (s : string) : result Z :=
  let body := rstrip (lstrip s) in
  let parsed :=
    match body with
    | String "-"%char rest => option_map Z.opp (grouped_digits rest)
    | String "+"%char rest => grouped_digits rest
    | _ => grouped_digits body
    end in
  match parsed with
  | Some n =>
      if (4300 <? count_digits body)%nat
      then Raise "Exceeds the limit (4300 digits) for integer string conversion"
      else Ok n
  | None => Raise "invalid literal for int() with base 10"
  end.

(** Zero-padded decimal rendering, as [%02d] / [%04d] / [%06d]. *)
Definition digit_char (n : Z) : ascii := ascii_of_nat (Z.to_nat (n mod 10) + 48).

Fixpoint pad_digits (width : nat) (n : Z) (acc : string) : string :=
  match width with
  | O => acc
  | S w => pad_digits w (n / 10) (String (digit_char n) acc)
  end.
Definition zfill (width : nat) (n : Z) : string := pad_digits width n EmptyString.

End Str.

(** ** [datetime]

    A [datetime] object as Python holds it: the civil fields and the attached
    zone.  Only the UTC offset of the attached zone is ever read by the code
    below, so [tzinfo] is that offset in seconds ([None]: a naive value). *)

Module DT.

Record datetime : Type := mk {
  year : Z;
  month : Z;
  day : Z;
  hour : Z;
  minute : Z;
  second : Z;
  microsecond : Z;
  tzinfo : option Z
}.

Definition MINYEAR : Z := 1.
Definition MAXYEAR : Z := 9999.
Definition MAXORDINAL : Z := 3652059.

Definition is_leap (y : Z) : bool :=
  (y mod 4 =? 0) && (negb (y mod 100 =? 0) || (y mod 400 =? 0)).

Definition days_before_year (y : Z) : Z :=
  let p := y - 1 in p * 365 + p / 4 - p / 100 + p / 400.

Definition days_in_month (y m : Z) : Z :=
  if m =? 2 then (if is_leap y then 29 else 28)
  else if (m =? 4) || (m =? 6) || (m =? 9) || (m =? 11) then 30
  else 31.

(** [_DAYS_BEFORE_MONTH] of a common year *)
Definition DAYS_BEFORE_MONTH (m : Z) : Z :=
  match m with
  | 1 => 0 | 2 => 31 | 3 => 59 | 4 => 90 | 5 => 120 | 6 => 151
  | 7 => 181 | 8 => 212 | 9 => 243 | 10 => 273 | 11 => 304 | 12 => 334
  | _ => 365
  end.

Definition days_before_month (y m : Z) : Z :=
  DAYS_BEFORE_MONTH m + (if (2 <? m) && is_leap y then 1 else 0).

Definition ymd2ord (y m d : Z) : Z :=
  days_before_year y + days_before_month y m + d.

(** The month and the day of the zero-based day [n] of a year: an estimate
    of the month that is exact or one too large, then the correction. *)
Definition month_day (leapyear : bool) (n : Z) : Z * Z :=
  let m := (n + 50) / 32 in
  let preceding := DAYS_BEFORE_MONTH m + (if (2 <? m) && leapyear then 1 else 0) in
  if n <? preceding then
    let m' := m - 1 in
    let preceding' :=
      preceding - ((if m' =? 2 then 28
                    else if (m' =? 4) || (m' =? 6) || (m' =? 9) || (m' =? 11) then 30
                    else 31)
                   + (if (m' =? 2) && leapyear then 1 else 0)) in
    (m', n - preceding' + 1)
  else (m, n - preceding + 1).

(** [_ord2ymd]: the proleptic Gregorian date of an ordinal, by the 400-,
    100-, 4- and 1-year cycles. *)
Definition ord2ymd (n0 : Z) : Z * Z * Z :=
  let n := n0 - 1 in
  let n400 := n / 146097 in
  let n := n mod 146097 in
  let n100 := n / 36524 in
  let n := n mod 36524 in
  let n4 := n / 1461 in
  let n := n mod 1461 in
  let n1 := n / 365 in
  let n := n mod 365 in
  let y := n400 * 400 + 1 + n100 * 100 + n4 * 4 + n1 in
  if (n1 =? 4) || (n100 =? 4) then (y - 1, 12, 31)
  else
    let leapyear := (n1 =? 3) && (negb (n4 =? 24) || (n100 =? 3)) in
    let '(m, d) := month_day leapyear n in
    (y, m, d).

Definition valid_date (y m d : Z) : bool :=
  (MINYEAR <=? y) && (y <=? MAXYEAR) && (1 <=? m) && (m <=? 12)
  && (1 <=? d) && (d <=? days_in_month y m).

Definition valid_time (h mi s us : Z) : bool :=
  (0 <=? h) && (h <? 24) && (0 <=? mi) && (mi <? 60)
  && (0 <=? s) && (s <? 60) && (0 <=? us) && (us <? 1000000).

Definition valid (d : datetime) : bool :=
  valid_date (year d) (month d) (day d)
  && valid_time (hour d) (minute d) (second d) (microsecond d).

(** The constructor [datetime(y, m, d, h, mi, s)], which checks the ranges. *)
Definition make (y m d h mi s : Z) : result datetime :=
  if valid_date y m d && valid_time h mi s 0
  then Ok (mk y m d h mi s 0 None)
  else Raise "ValueError: field out of range".

Definition toordinal (d : datetime) : Z := ymd2ord (year d) (month d) (day d).

(** [d + timedelta(seconds=s)]: the zone is kept, the result must stay within
    years 1..9999. *)
Definition add_seconds (d : datetime) (s : Z) : result datetime :=
  let total := hour d * 3600 + minute d * 60 + second d + s in
  let days := toordinal d + total / 86400 in
  let rem := total mod 86400 in
  if (0 <? days) && (days <=? MAXORDINAL) then
    let '(y, m, dd) := ord2ymd days in
    Ok (mk y m dd (rem / 3600) ((rem mod 3600) / 60) (rem mod 60)
           (microsecond d) (tzinfo d))
  else Raise "OverflowError: date value out of range".

(** [d.replace(tzinfo=tz)] *)
Definition replace_tzinfo (tz : option Z) (d : datetime) : datetime :=
  mk (year d) (month d) (day d) (hour d) (minute d) (second d) (microsecond d) tz.

(** [d.replace(hour=0, minute=0, second=0, microsecond=0, tzinfo=None)] *)
Definition midnight (d : datetime) : datetime :=
  mk (year d) (month d) (day d) 0 0 0 0 None.

(** Order of naive values: Python compares the field tuples. *)
Definition key (d : datetime) : list Z :=
  [year d; month d; day d; hour d; minute d; second d; microsecond d].

Fixpoint lex_ltb (a b : list Z) : bool :=
  match a, b with
  | x :: a', y :: b' => (x <? y) || ((x =? y) && lex_ltb a' b')
  | [], _ :: _ => true
  | _, _ => false
  end.

Definition ltb (a b : datetime) : bool := lex_ltb (key a) (key b).
Definition gtb (a b : datetime) : bool := ltb b a.

(** [d.strftime("%H:%M")] *)
Definition strftime_HM (d : datetime) : string :=
  String.append (Str.zfill 2 (hour d)) (String ":"%char (Str.zfill 2 (minute d))).

(** [d.date().isoformat()]: the year always has four digits. *)
Definition date_isoformat (d : datetime) : string :=
  String.append (Str.zfill 4 (year d))
    (String "-"%char (String.append (Str.zfill 2 (month d))
       (String "-"%char (Str.zfill 2 (day d))))).

(** [%Y] as the C library of Linux prints it: the year without padding, so
    with fewer than four digits below 1000. *)
Definition strftime_Y (y : Z) : string :=
  if y <? 10 then Str.zfill 1 y
  else if y <? 100 then Str.zfill 2 y
  else if y <? 1000 then Str.zfill 3 y
  else Str.zfill 4 y.

(** [d.strftime("%Y-%m-%d")] *)
Definition strftime_Ymd (d : datetime) : string :=
  String.append (strftime_Y (year d))
    (String "-"%char (String.append (Str.zfill 2 (month d))
       (String "-"%char (Str.zfill 2 (day d))))).

Definition format_offset (off : Z) : string :=
  let a := Z.abs off in
  let hm := String.append (Str.zfill 2 (a / 3600))
              (String ":"%char (Str.zfill 2 ((a mod 3600) / 60))) in
  String (if off <? 0 then "-"%char else "+"%char)
    (if a mod 60 =? 0 then hm
     else String.append hm (String ":"%char (Str.zfill 2 (a mod 60)))).

(** [d.isoformat()] *)
Definition isoformat (d : datetime) : string :=
  let hms := String.append (Str.zfill 2 (hour d))
               (String ":"%char (String.append (Str.zfill 2 (minute d))
                  (String ":"%char (Str.zfill 2 (second d))))) in
  let frac := if microsecond d =? 0 then EmptyString
              else String "."%char (Str.zfill 6 (microsecond d)) in
  let off := match tzinfo d with
             | Some o => format_offset o
             | None => EmptyString
             end in
  String.append (date_isoformat d)
    (String "T"%char (String.append hms (String.append frac off))).

(** *** Parsing *)

Fixpoint take_digits (n : nat) (acc : Z) (s : string) : option (Z * string) :=
  match n with
  | O => Some (acc, s)
  | S n' =>
      match s with
      | String a rest =>
          if Str.is_digit a then take_digits n' (acc * 10 + Str.digit_val a) rest
          else None
      | EmptyString => None
      end
  end.

Definition expect (c : ascii) (s : string) : option string :=
  match s with
  | String a rest => if Ascii.eqb a c then Some rest else None
  | EmptyString => None
  end.

(** [YYYY-MM-DD] at the head of the text *)
Definition parse_date (s : string) : option (Z * Z * Z * string) :=
  match take_digits 4 0 s with
  | Some (y, s1) =>
      match expect "-" s1 with
      | Some s2 =>
          match take_digits 2 0 s2 with
          | Some (m, s3) =>
              match expect "-" s3 with
              | Some s4 =>
                  match take_digits 2 0 s4 with
                  | Some (d, s5) => Some (y, m, d, s5)
                  | None => None
                  end
              | None => None
              end
          | None => None
          end
      | None => None
      end
  | None => None
  end.

(** The fraction [.fff] or [.ffffff], to the end of the text *)
Definition parse_fraction (s : string) : option Z :=
  match take_digits 6 0 s with
  | Some (us, EmptyString) => Some us
  | _ =>
      match take_digits 3 0 s with
      | Some (ms, EmptyString) => Some (ms * 1000)
      | _ => None
      end
  end.

(** [HH[:MM[:SS[.fff[fff]]]]], the whole text *)
Definition parse_hh_mm_ss_ff (s : string) : option (Z * Z * Z * Z) :=
  match take_digits 2 0 s with
  | Some (h, EmptyString) => Some (h, 0, 0, 0)
  | Some (h, String ":" s1) =>
      match take_digits 2 0 s1 with
      | Some (mi, EmptyString) => Some (h, mi, 0, 0)
      | Some (mi, String ":" s2) =>
          match take_digits 2 0 s2 with
          | Some (sec, EmptyString) => Some (h, mi, sec, 0)
          | Some (sec, String "." s3) =>
              match parse_fraction s3 with
              | Some us => Some (h, mi, sec, us)
              | None => None
              end
          | _ => None
          end
      | _ => None
      end
  | _ => None
  end.

(** The time text up to the first sign, and the signed zone text after it. *)
Fixpoint split_tz (s : string) : string * option (Z * string) :=
  match s with
  | EmptyString => (EmptyString, None)
  | String a rest =>
      if Ascii.eqb a "+" then (EmptyString, Some (1, rest))
      else if Ascii.eqb a "-" then (EmptyString, Some (-1, rest))
      else let '(t, z) := split_tz rest in (String a t, z)
  end.

(** The zone text [HH:MM] or [HH:MM:SS]; the offset must stay below a day.
    (A zone text with a fractional second is refused here.) *)
Definition parse_offset (sign : Z) (s : string) : option Z :=
  match take_digits 2 0 s with
  | Some (h, String ":" s1) =>
      match take_digits 2 0 s1 with
      | Some (mi, EmptyString) =>
          let o := h * 3600 + mi * 60 in
          if o <? 86400 then Some (sign * o) else None
      | Some (mi, String ":" s2) =>
          match take_digits 2 0 s2 with
          | Some (sec, EmptyString) =>
              let o := h * 3600 + mi * 60 + sec in
              if o <? 86400 then Some (sign * o) else None
          | _ => None
          end
      | _ => None
      end
  | _ => None
  end.

(** [datetime.fromisoformat(s)], for the documented grammar
    [YYYY-MM-DD[*HH[:MM[:SS[.fff[fff]]]][+HH:MM[:SS]]]]. *)
Definition fromisoformat (s : string) : result datetime :=
  let bad := Raise (String.append "Invalid isoformat string: " s) in
  match parse_date s with
  | Some (y, m, d, rest) =>
      if negb (valid_date y m d) then bad
      else
        match rest with
        | EmptyString => Ok (mk y m d 0 0 0 0 None)
        | String _ timestr =>
            let '(t, z) := split_tz timestr in
            match parse_hh_mm_ss_ff t with
            | Some (h, mi, sec, us) =>
                if negb (valid_time h mi sec us) then bad
                else
                  match z with
                  | None => Ok (mk y m d h mi sec us None)
                  | Some (sign, ztext) =>
                      match parse_offset sign ztext with
                      | Some o => Ok (mk y m d h mi sec us (Some o))
                      | None => bad
                      end
                  end
            | None => bad
            end
        end
  | None => bad
  end.

(** One or two digits of a month or a day as [strptime] reads them: the
    two-digit forms first, then a single non-zero digit; a day may also be a
    blank followed by a digit. *)
Definition parse_1_or_2 (allow_blank : bool) (s : string) : option (Z * string) :=
  match s with
  | String a (String b rest) =>
      if Str.is_digit a && Str.is_digit b then
        Some (Str.digit_val a * 10 + Str.digit_val b, rest)
      else if allow_blank && Ascii.eqb a " " && Str.is_digit b then
        Some (Str.digit_val b, rest)
      else if Str.is_digit a then Some (Str.digit_val a, String b rest)
      else None
  | String a EmptyString =>
      if Str.is_digit a then Some (Str.digit_val a, EmptyString) else None
  | EmptyString => None
  end.

(** [datetime.strptime(s, "%Y-%m-%d")] *)
Definition strptime_Ymd (s : string) : result datetime :=
  let bad := Raise (String.append "time data does not match format: " s) in
  match take_digits 4 0 s with
  | Some (y, s1) =>
      match expect "-" s1 with
      | Some s2 =>
          match parse_1_or_2 false s2 with
          | Some (m, s3) =>
              match expect "-" s3 with
              | Some s4 =>
                  match parse_1_or_2 true s4 with
                  | Some (d, EmptyString) =>
                      if valid_date y m d then Ok (mk y m d 0 0 0 0 None) else bad
                  | _ => bad
                  end
              | None => bad
              end
          | None => bad
          end
      | None => bad
      end
  | None => bad
  end.

End DT.

(** ** Time zones ([pytz])

    A zone is what the code reads of a [pytz] zone object: the offset in force
    at a UTC instant (used by [fromutc]) and the offset [localize] attaches to
    a naive wall-clock time (with the default [is_dst=False]).  Offsets are in
    seconds. *)

Module Tz.

Record t : Type := mk {
  utcoffset_utc : DT.datetime -> Z;
  utcoffset_local : DT.datetime -> Z
}.

(** [pytz.UTC] *)
Definition UTC : t := mk (fun _ => 0) (fun _ => 0).

(** [tz.localize(dt)] *)
Definition localize (tz : t) (dt : DT.datetime) : result DT.datetime :=
  match DT.tzinfo dt with
  | Some _ => Raise "Not naive datetime (tzinfo is already set)"
  | None => Ok (DT.replace_tzinfo (Some (utcoffset_local tz dt)) dt)
  end.

(** [tz.fromutc(utc)] *)
Definition fromutc (tz : t) (utc : DT.datetime) : result DT.datetime :=
  let o := utcoffset_utc tz utc in
  local <- DT.add_seconds utc o ;;
  Ok (DT.replace_tzinfo (Some o) local).

(** [dt.astimezone(tz)]: through UTC.  A naive [dt] is read in the zone of
    the host, whose offset is [system_utcoffset]. *)
Definition astimezone (system_utcoffset : DT.datetime -> Z)
    (dt : DT.datetime) (tz : t) : result DT.datetime :=
  let o := match DT.tzinfo dt with
           | Some o => o
           | None => system_utcoffset dt
           end in
  utc <- DT.add_seconds (DT.replace_tzinfo None dt) (- o) ;;
  fromutc tz utc.

End Tz.

(** ** Documents *)

(** [bson.ObjectId] *)
Definition ObjectId : Type := N.

(** A reminder document.  [enabled] and [lastSent] are only tested for
    truth, so for them a missing key and [None] are one case ([None] below);
    the other keys are read with a default that is not falsy, so they keep
    the three cases apart. *)
Module Reminder.
Record t : Type := mk {
  enabled : option bool;
  minutesBefore : field Z;
  notifyDesktop : field bool;
  notifyMobile : field bool;
  lastSent : option DT.datetime
}.
(** the dictionary [{}] *)
Definition empty : t := mk None Missing Missing Missing None.

(** The reminder documents that the application writes: all four settings
    ([ReminderConfig.dict()] and the default of the task routes), or a
    reminder that is not enabled and has none of the other settings
    ([{"enabled": False}] on the tasks that the pull phase creates, [{}] read
    for a task stored without the key); the reminder check adds [lastSent]. *)
Definition written (r : t) : Prop :=
  (exists e m d n, enabled r = Some e /\ minutesBefore r = Val m
                   /\ notifyDesktop r = Val d /\ notifyMobile r = Val n)
  \/ (enabled r <> Some true /\ minutesBefore r = Missing
      /\ notifyDesktop r = Missing /\ notifyMobile r = Missing).
End Reminder.

(** A task document.  A key that the code reads with [.get(k)] is an
    [option] ([None]: missing or [None]); [googleCalendarId] is read with a
    default, so it keeps the three cases apart.  [reminder] is [None] when
    the key is missing: the task routes store a document under it and never
    [None]. *)
Module Task.
Record t : Type := mk {
  _id : ObjectId;
  title : string;
  description : string;
  user : ObjectId;
  list_ : option ObjectId;
  dueDate : option DT.datetime;
  dueTime : option string;
  priority : option string;
  status : option string;
  tags : list string;
  reminder : option Reminder.t;
  googleEventId : option string;
  googleCalendarId : field string;
  googleCalendarColor : option string;
  syncedWithGoogle : option bool;
  syncToCalendar : option bool;
  lastSyncedAt : option DT.datetime;
  createdAt : option DT.datetime;
  updatedAt : option DT.datetime
}.
End Task.

Module Preferences.
Record t : Type := mk { timezone : field string }.
(** the dictionary [{}] *)
Definition empty : t := mk Missing.
End Preferences.

Module User.
Record t : Type := mk {
  _id : ObjectId;
  email : option string;
  googleAccessToken : option string;
  googleRefreshToken : option string;
  googleTokenExpiry : option DT.datetime;
  googleSelectedCalendars : option (list string);
  lastCalendarSync : option DT.datetime;
  preferences : Preferences.t
}.
End User.

Module TaskList.
Record t : Type := mk { _id : ObjectId; user : ObjectId; name : string }.
End TaskList.

(** A remote event as the listing returns it ([None]: key missing). *)
Module Event.
Record t : Type := mk {
  id : option string;
  summary : option string;
  description : option string;
  start_dateTime : option string;
  start_date : option string;
  updated : option string;
  colorId : option string
}.
End Event.

(** The event body sent to the remote service. *)
Module Body.
Inductive when : Type :=
| Date (date : string)
| DateTime (dateTime : string) (timeZone : option string).

(** [minutes] is [None] for a JSON [null]. *)
Record override : Type := mkOverride { method : string; minutes : option Z }.

Record reminders_t : Type := mkReminders {
  useDefault : bool;
  overrides : list override
}.

Record t : Type := mk {
  summary : string;
  description : string;
  start : when;
  end_ : when;
  reminders : option reminders_t;
  colorId : string
}.
End Body.

(** The document store: three collections in insertion order, and the next
    identifier [ObjectId()] hands out. *)
Module Db.
Record t : Type := mk {
  users : list User.t;
  tasks : list Task.t;
  lists : list TaskList.t;
  next_oid : ObjectId
}.

(** [update_one({"_id": oid}, {"$set": ...})] on a collection: the first
    document with that identifier is rewritten. *)
Fixpoint update_first {A : Type} (p : A -> bool) (f : A -> A) (l : list A) : list A :=
  match l with
  | [] => []
  | x :: rest => if p x then f x :: rest else x :: update_first p f rest
  end.

(** [delete_one(filter)]: the first matching document is removed. *)
Fixpoint delete_first {A : Type} (p : A -> bool) (l : list A) : list A :=
  match l with
  | [] => []
  | x :: rest => if p x then rest else x :: delete_first p rest
  end.

Definition tasks_find (p : Task.t -> bool) (d : t) : list Task.t :=
  filter p (tasks d).

Definition tasks_find_one (p : Task.t -> bool) (d : t) : option Task.t :=
  find p (tasks d).

Definition tasks_update_one (oid : ObjectId) (f : Task.t -> Task.t) (d : t) : t :=
  mk (users d) (update_first (fun x => N.eqb (Task._id x) oid) f (tasks d))
     (lists d) (next_oid d).

Definition tasks_delete_one (oid : ObjectId) (d : t) : t :=
  mk (users d) (delete_first (fun x => N.eqb (Task._id x) oid) (tasks d))
     (lists d) (next_oid d).

(** [insert_one(doc)]: the document gets a fresh identifier and goes last. *)
Definition tasks_insert_one (doc : ObjectId -> Task.t) (d : t) : t :=
  mk (users d) (tasks d ++ [doc (next_oid d)]) (lists d) (N.succ (next_oid d)).

Definition users_update_one (oid : ObjectId) (f : User.t -> User.t) (d : t) : t :=
  mk (update_first (fun x => N.eqb (User._id x) oid) f (users d))
     (tasks d) (lists d) (next_oid d).

Definition lists_find_one (p : TaskList.t -> bool) (d : t) : option TaskList.t :=
  find p (lists d).
End Db.

(** ** [app/routes/calendar.py] *)

Definition nl : string := String (ascii_of_nat 10) EmptyString.

Definition app_all (l : list string) : string :=
  fold_right String.append EmptyString l.

Definition get_reminder (task : Task.t) : Reminder.t :=
  match Task.reminder task with
  | Some r => r
  | None => Reminder.empty
  end.

(** [user.get("googleSelectedCalendars") or ["primary"]] *)
Definition selected_or_primary (u : User.t) : list string :=
  match User.googleSelectedCalendars u with
  | Some (c :: cs) => c :: cs
  | _ => ["primary"%string]
  end.

Section Calendar.

(** [pytz.timezone(name)]; [None] stands for [UnknownTimeZoneError]. *)
Variable pytz_timezone : string -> option Tz.t.
(** The UTC offset of the host's own zone, read only when a naive value is
    converted with [astimezone]. *)
Variable system_utcoffset : DT.datetime -> Z.

(** [pytz.timezone(user_tz_str)] with the fall-back to [pytz.UTC]; a [None]
    name is an unknown zone too. *)
Definition timezone_or_UTC (user_tz_str : option string) : Tz.t :=
  match user_tz_str with
  | Some name =>
      match pytz_timezone name with
      | Some tz => tz
      | None => Tz.UTC
      end
  | None => Tz.UTC
  end.

(** The test that sends a time string to one of the two zone-aware parses. *)
Definition has_tz_marker (time_str : string) : bool :=
  Str.endswith_char "Z" time_str
  || Str.has_char "+" time_str
  || ((2 <? Str.count_char "-" time_str) && Str.has_char "T" time_str).

(** The conversion once the user's zone is resolved. *)
Definition convert_in_zone (user_tz : Tz.t) (time_str : string)
  : result (DT.datetime * string) :=
  dt_utc <-
    (if Str.endswith_char "Z" time_str then
       DT.fromisoformat (Str.replace_char "Z" "+00:00" time_str)
     else if Str.has_char "+" time_str
             || ((2 <? Str.count_char "-" time_str) && Str.has_char "T" time_str) then
       DT.fromisoformat time_str
     else
       naive_dt <- DT.fromisoformat time_str ;;
       Tz.localize user_tz naive_dt) ;;
  dt_user <- Tz.astimezone system_utcoffset dt_utc user_tz ;;
  let time_result := DT.strftime_HM dt_user in
  let date_only := DT.midnight dt_user in
  Ok (date_only, time_result).

Definition convert_event_time_to_user_tz (time_str : string)
    (user_preferences : Preferences.t) : result (DT.datetime * string) :=
  let user_tz_str := get_default (Preferences.timezone user_preferences) "UTC"%string in
  let user_tz := timezone_or_UTC user_tz_str in
  convert_in_zone user_tz time_str.

Definition priority_icons (p : string) : string :=
  if String.eqb p "low" then "🟢"%string
  else if String.eqb p "medium" then "🟡"%string
  else if String.eqb p "high" then "🔴"%string
  else EmptyString.

Definition priority_colors (p : option string) : string :=
  match p with
  | Some s =>
      if String.eqb s "high" then "11"%string
      else if String.eqb s "medium" then "5"%string
      else if String.eqb s "low" then "10"%string
      else "7"%string
  | None => "7"%string
  end.

(** The description with the NovaDo footer. *)
Definition event_description (task : Task.t) : string :=
  let d0 := Task.description task in
  let d1 := match d0 with
            | EmptyString => d0
            | _ => app_all [d0; nl; nl; "---"%string; nl]
            end in
  let d2 := app_all [d1; "📋 Created in NovaDo"%string; nl] in
  let d3 := match Task.priority task with
            | Some p =>
                if truthy_str (Some p) && negb (String.eqb p "none") then
                  app_all [d2; "Priority: "%string; priority_icons p; " "%string;
                           Str.title p; nl]
                else d2
            | None => d2
            end in
  match Task.tags task with
  | [] => d3
  | tags => app_all [d3; "Tags: "%string; Str.join ", " tags; nl]
  end.

(** [hours, minutes = map(int, due_time.split(":"))] *)
Definition parse_due_time (due_time : string) : result (Z * Z) :=
  match Str.split ":" due_time with
  | [h; m] =>
      hours <- Str.int h ;;
      minutes <- Str.int m ;;
      Ok (hours, minutes)
  | _ => Raise "ValueError: wrong number of values to unpack"
  end.

(** The reminder override of the event body. *)
Definition event_reminders (task : Task.t) : option Body.reminders_t :=
  let reminder := get_reminder task in
  if truthy_bool (Reminder.enabled reminder)
     && truthy_bool (get_default (Reminder.notifyMobile reminder) true)
  then
    let minutes_before := get_default (Reminder.minutesBefore reminder) 30 in
    Some (Body.mkReminders false [Body.mkOverride "popup" minutes_before])
  else None.

Definition build_google_calendar_event (task : Task.t)
    (user_preferences : Preferences.t) : result Body.t :=
  let user_tz_str := get_default (Preferences.timezone user_preferences) "UTC"%string in
  let summary := Task.title task in
  let description := event_description task in
  match Task.dueDate task with
  | None => Raise "Task must have a dueDate to sync to calendar"
  | Some due_date =>
      let is_all_day := negb (truthy_str (Task.dueTime task)) in
      span <-
        (match Task.dueTime task with
         | Some (String c r) =>
             let due_time := String c r in
             let user_tz := timezone_or_UTC user_tz_str in
             hm <- parse_due_time due_time ;;
             naive_dt <- DT.make (DT.year due_date) (DT.month due_date)
                           (DT.day due_date) (fst hm) (snd hm) 0 ;;
             start_dt <- Tz.localize user_tz naive_dt ;;
             end_dt <- DT.add_seconds start_dt 3600 ;;
             Ok (Body.DateTime (DT.isoformat start_dt) user_tz_str,
                 Body.DateTime (DT.isoformat end_dt) user_tz_str)
         | _ =>
             let date_str := DT.strftime_Ymd due_date in
             Ok (Body.Date date_str, Body.Date date_str)
         end) ;;
      Ok (Body.mk summary description (fst span) (snd span)
            (event_reminders task)
            (priority_colors (Task.priority task)))
  end.

(** [select_calendars]: the tasks of the deselected calendars are deleted,
    then the selection is stored.  Returns [eventsDeleted]. *)
Definition deselected_calendars (previously_selected newly_selected : list string)
  : list string :=
  filter (fun c => negb (Str.mem c newly_selected)) previously_selected.

(** [task.get("googleCalendarId") in deselected_calendars] *)
Definition in_deselected (deselected : list string) (task : Task.t) : bool :=
  match get (Task.googleCalendarId task) with
  | Some c => Str.mem c deselected
  | None => false
  end.

(** The body of the loop over the user's tasks: the count of deleted tasks
    and the store. *)
Definition delete_step (deselected : list string) (acc : Z * Db.t) (task : Task.t)
  : Z * Db.t :=
  if in_deselected deselected task
  then (fst acc + 1, Db.tasks_delete_one (Task._id task) (snd acc))
  else acc.

Definition set_selected (sel : option (list string)) (u : User.t) : User.t :=
  User.mk (User._id u) (User.email u) (User.googleAccessToken u)
    (User.googleRefreshToken u) (User.googleTokenExpiry u) sel
    (User.lastCalendarSync u) (User.preferences u).

Definition select_calendars (calendar_ids : list string) (current_user : User.t)
    (db : Db.t) : Z * Db.t :=
  let user_oid := User._id current_user in
  let previously_selected := selected_or_primary current_user in
  let newly_selected := calendar_ids in
  let deselected := deselected_calendars previously_selected newly_selected in
  let '(deleted_count, db1) :=
    match deselected with
    | [] => (0, db)
    | _ =>
        let all_tasks := Db.tasks_find (fun t => N.eqb (Task.user t) user_oid) db in
        fold_left (delete_step deselected) all_tasks (0, db)
    end in
  (deleted_count,
   Db.users_update_one user_oid (set_selected (Some newly_selected)) db1).

End Calendar.

(** ** [app/scheduler.py] *)

(** What a cycle does outside the store: the calls to the remote service and
    the summary lines it logs. *)
Inductive effect : Type :=
| EventsList (calendarId : string)
| EventsInsert (calendarId : string) (body : Body.t)
| EventsUpdate (calendarId : option string) (eventId : string) (body : Body.t)
| LogPulled (pulled_count : Z)
| LogPushError (task : ObjectId)
| LogPushed (pushed_count : Z).

Record Credentials : Type := mkCredentials {
  token : option string;
  refresh_token : option string
}.

Record Stats : Type := mkStats {
  total : Z;
  no_due_date : Z;
  completed_deleted : Z;
  sync_disabled : Z;
  already_synced : Z
}.

Definition auth_error (error_str : string) : bool :=
  Str.contains "invalid_grant" error_str
  || Str.contains "invalid_client" error_str
  || Str.contains "Token has been expired or revoked" error_str.

(** [task.get("status") in ["completed", "deleted", "skipped"]] *)
Definition terminal_status (status : option string) : bool :=
  match status with
  | Some s => Str.mem s ["completed"; "deleted"; "skipped"]%string
  | None => false
  end.

(** The selection loop of the push phase: the statistics and the tasks to
    push, in store order. *)
Fixpoint scan_tasks (all_tasks : list Task.t) (stats : Stats)
    (tasks_to_push : list Task.t) : Stats * list Task.t :=
  match all_tasks with
  | [] => (stats, tasks_to_push)
  | task :: rest =>
      if negb (truthy_some (Task.dueDate task)) then
        scan_tasks rest
          (mkStats (total stats) (no_due_date stats + 1) (completed_deleted stats)
                   (sync_disabled stats) (already_synced stats))
          tasks_to_push
      else if terminal_status (Task.status task) then
        scan_tasks rest
          (mkStats (total stats) (no_due_date stats) (completed_deleted stats + 1)
                   (sync_disabled stats) (already_synced stats))
          tasks_to_push
      else if negb (truthy_bool (Task.syncToCalendar task)) then
        scan_tasks rest
          (mkStats (total stats) (no_due_date stats) (completed_deleted stats)
                   (sync_disabled stats + 1) (already_synced stats))
          tasks_to_push
      else if negb (truthy_str (Task.googleEventId task)) then
        scan_tasks rest stats (tasks_to_push ++ [task])
      else
        let last_synced := Task.lastSyncedAt task in
        let updated_at := Task.updatedAt task in
        match updated_at, last_synced with
        | Some u, Some l =>
            if DT.gtb u l then scan_tasks rest stats (tasks_to_push ++ [task])
            else
              scan_tasks rest
                (mkStats (total stats) (no_due_date stats) (completed_deleted stats)
                         (sync_disabled stats) (already_synced stats + 1))
                tasks_to_push
        | _, _ =>
            scan_tasks rest
              (mkStats (total stats) (no_due_date stats) (completed_deleted stats)
                       (sync_disabled stats) (already_synced stats + 1))
              tasks_to_push
        end
  end.

Definition select_tasks_to_push (all_tasks : list Task.t) : Stats * list Task.t :=
  scan_tasks all_tasks (mkStats (Z.of_nat (List.length all_tasks)) 0 0 0 0) [].

(** The [$set] of a pull overwrite. *)
Definition pull_overwrite (title description : string) (due_date : DT.datetime)
    (due_time : option string) (now : DT.datetime) (t : Task.t) : Task.t :=
  Task.mk (Task._id t) title description (Task.user t) (Task.list_ t)
    (Some due_date) due_time (Task.priority t) (Task.status t) (Task.tags t)
    (Task.reminder t) (Task.googleEventId t) (Task.googleCalendarId t)
    (Task.googleCalendarColor t) (Task.syncedWithGoogle t) (Task.syncToCalendar t)
    (Some now) (Task.createdAt t) (Task.updatedAt t).

(** The [$set] after a successful push. *)
Definition push_bookkeeping (event_id calendar_id : string) (now : DT.datetime)
    (t : Task.t) : Task.t :=
  Task.mk (Task._id t) (Task.title t) (Task.description t) (Task.user t)
    (Task.list_ t) (Task.dueDate t) (Task.dueTime t) (Task.priority t)
    (Task.status t) (Task.tags t) (Task.reminder t) (Some event_id)
    (Val calendar_id) (Task.googleCalendarColor t) (Some true)
    (Task.syncToCalendar t) (Some now) (Task.createdAt t) (Task.updatedAt t).

(** The [$set] that clears the tokens when no credentials can be had. *)
Definition clear_tokens (u : User.t) : User.t :=
  User.mk (User._id u) (User.email u) None None None
    (User.googleSelectedCalendars u) (User.lastCalendarSync u) (User.preferences u).

(** The [$set] of the pull phase on a revoked token. *)
Definition clear_credentials (u : User.t) : User.t :=
  User.mk (User._id u) (User.email u) None None None None
    (User.lastCalendarSync u) (User.preferences u).

Definition set_lastCalendarSync (now : DT.datetime) (u : User.t) : User.t :=
  User.mk (User._id u) (User.email u) (User.googleAccessToken u)
    (User.googleRefreshToken u) (User.googleTokenExpiry u)
    (User.googleSelectedCalendars u) (Some now) (User.preferences u).

Definition set_tokens (creds : Credentials) (u : User.t) : User.t :=
  User.mk (User._id u) (User.email u) (token creds) (refresh_token creds)
    (User.googleTokenExpiry u) (User.googleSelectedCalendars u)
    (User.lastCalendarSync u) (User.preferences u).

Section Scheduler.

Variable pytz_timezone : string -> option Tz.t.
Variable system_utcoffset : DT.datetime -> Z.

(** The credential service: whether the credentials built from a user record
    count as expired, and what [creds.refresh(...)] yields (the new access
    token and refresh token) or raises. *)
Variable creds_expired : User.t -> bool.
Variable creds_refresh : User.t -> result (string * option string).

(** The remote calendar service, in some state [Remote]: listing reads it,
    inserting and updating may change it; each call returns or raises. *)
Variable Remote : Type.
Variable events_list : Remote -> string -> string -> string -> result (list Event.t).
Variable events_insert : Remote -> string -> Body.t -> result Event.t * Remote.
Variable events_update :
  Remote -> option string -> string -> Body.t -> result Event.t * Remote.

(** The clock: the value of the [n]-th call of [datetime.utcnow()]. *)
Variable utcnow_at : nat -> DT.datetime.

Record World : Type := mkWorld {
  db : Db.t;
  remote : Remote;
  clock : nat;
  trace : list effect
}.

Definition with_db (d : Db.t) (w : World) : World :=
  mkWorld d (remote w) (clock w) (trace w).
Definition with_remote (r : Remote) (w : World) : World :=
  mkWorld (db w) r (clock w) (trace w).
Definition emit (e : effect) (w : World) : World :=
  mkWorld (db w) (remote w) (clock w) (trace w ++ [e]).

(** [datetime.utcnow()] *)
Definition utcnow (w : World) : DT.datetime * World :=
  (utcnow_at (clock w), mkWorld (db w) (remote w) (S (clock w)) (trace w)).

(** [get_credentials_from_user] of [routes/calendar.py].  The write of the
    refreshed tokens is applied at once. *)
Definition get_credentials_from_user (user : User.t) (d : Db.t)
  : option Credentials * Db.t :=
  if negb (truthy_str (User.googleAccessToken user)) then (None, d)
  else
    let creds := mkCredentials (User.googleAccessToken user)
                               (User.googleRefreshToken user) in
    if creds_expired user && truthy_str (refresh_token creds) then
      match creds_refresh user with
      | Ok (tok, rtok) =>
          let creds' := mkCredentials (Some tok) rtok in
          (Some creds', Db.users_update_one (User._id user) (set_tokens creds') d)
      | Raise _ => (None, d)
      end
    else (Some creds, d).

(** *** Pull phase *)

(** The start of an event, converted: [None] when the event has neither
    [dateTime] nor [date]. *)
Definition event_start (event : Event.t) (user_preferences : Preferences.t)
  : result (option (DT.datetime * option string)) :=
  match Event.start_dateTime event with
  | Some (String c r) =>
      dt <- convert_event_time_to_user_tz pytz_timezone system_utcoffset
              (String c r) user_preferences ;;
      Ok (Some (fst dt, Some (snd dt)))
  | _ =>
      match Event.start_date event with
      | Some (String c r) =>
          due_date <- DT.strptime_Ymd (String c r) ;;
          Ok (Some (due_date, None))
      | _ => Ok None
      end
  end.

(** The last-modified time of an event as a naive UTC value. *)
Definition event_updated_naive (event : Event.t) : result (option DT.datetime) :=
  match Event.updated event with
  | Some (String c r) =>
      dt <- DT.fromisoformat (Str.replace_char "Z" "+00:00" (String c r)) ;;
      Ok (Some (DT.replace_tzinfo None dt))
  | _ => Ok None
  end.

Definition summary_or_untitled (event : Event.t) : string :=
  match Event.summary event with
  | Some s => s
  | None => "Untitled"%string
  end.

Definition description_or_empty (event : Event.t) : string :=
  match Event.description event with
  | Some s => s
  | None => EmptyString
  end.

(** The body of the loop over the events of one calendar.  The result carries
    the increment of [pulled_count]; an exception leaves the world as it
    was before the event. *)
Definition pull_event (user : User.t) (calendar_id : string) (event : Event.t)
    (w : World) : result (World * Z) :=
  let user_oid := User._id user in
  let user_preferences := User.preferences user in
  match Event.id event with
  | Some (String c r) =>
      let event_id := String c r in
      let existing_task :=
        Db.tasks_find_one
          (fun t => N.eqb (Task.user t) user_oid
                    && Str.eqb_opt (Task.googleEventId t) (Some event_id))
          (db w) in
      start <- event_start event user_preferences ;;
      match start with
      | None => Ok (w, 0)
      | Some (due_date, due_time) =>
          event_updated <- event_updated_naive event ;;
          match existing_task with
          | Some existing =>
              let task_updated := Task.updatedAt existing in
              match event_updated, task_updated with
              | Some eu, Some tu =>
                  if DT.gtb eu tu then
                    let '(now, w1) := utcnow w in
                    Ok (with_db
                          (Db.tasks_update_one (Task._id existing)
                             (pull_overwrite (summary_or_untitled event)
                                (description_or_empty event) due_date due_time now)
                             (db w1))
                          w1,
                        1)
                  else Ok (w, 0)
              | _, _ => Ok (w, 0)
              end
          | None =>
              let inbox_list :=
                Db.lists_find_one
                  (fun l => N.eqb (TaskList.user l) user_oid
                            && String.eqb (TaskList.name l) "Inbox")
                  (db w) in
              let list_id := option_map TaskList._id inbox_list in
              let '(t_synced, w1) := utcnow w in
              let '(t_created, w2) := utcnow w1 in
              let '(t_updated, w3) := utcnow w2 in
              let new_task (oid : ObjectId) :=
                Task.mk oid (summary_or_untitled event) (description_or_empty event)
                  user_oid list_id (Some due_date) due_time (Some "none"%string)
                  (Some "scheduled"%string) ["google-calendar"%string]
                  (Some (Reminder.mk (Some false) Missing Missing Missing None))
                  (Some event_id) (Val calendar_id) (Event.colorId event)
                  (Some true) (Some true) (Some t_synced) (Some t_created)
                  (Some t_updated) in
              Ok (with_db (Db.tasks_insert_one new_task (db w3)) w3, 1)
          end
      end
  | _ => Ok (w, 0)
  end.

(** The loop over the events of one calendar: it stops at the first
    exception, which the caller handles. *)
Fixpoint pull_events (user : User.t) (calendar_id : string) (events : list Event.t)
    (w : World) (pulled_count : Z) : World * Z * option string :=
  match events with
  | [] => (w, pulled_count, None)
  | event :: rest =>
      match pull_event user calendar_id event w with
      | Ok (w', k) => pull_events user calendar_id rest w' (pulled_count + k)
      | Raise msg => (w, pulled_count, Some msg)
      end
  end.

(** The [try] block for one calendar. *)
Definition pull_calendar (user : User.t) (time_min time_max calendar_id : string)
    (w : World) (pulled_count : Z) : World * Z * option string :=
  let w1 := emit (EventsList calendar_id) w in
  match events_list (remote w) calendar_id time_min time_max with
  | Ok events => pull_events user calendar_id events w1 pulled_count
  | Raise msg => (w1, pulled_count, Some msg)
  end.

(** The loop over the selected calendars; the flag tells that the function
    returned from the revoked-token branch. *)
Fixpoint pull_calendars (user : User.t) (time_min time_max : string)
    (selected_calendars : list string) (w : World) (pulled_count : Z)
  : World * Z * bool :=
  match selected_calendars with
  | [] => (w, pulled_count, false)
  | calendar_id :: rest =>
      let '(w1, pulled_count1, err) :=
        pull_calendar user time_min time_max calendar_id w pulled_count in
      match err with
      | Some error_str =>
          if auth_error error_str then
            (with_db (Db.users_update_one (User._id user) clear_credentials (db w1)) w1,
             pulled_count1, true)
          else pull_calendars user time_min time_max rest w1 pulled_count1
      | None => pull_calendars user time_min time_max rest w1 pulled_count1
      end
  end.

Definition Z_suffix (s : string) : string := String.append s "Z".

(** The listing window: [time_min] from the watermark less an hour, or a day
    back from now; [time_max] ninety days ahead. *)
Definition pull_window (user : User.t) (w : World) : World * result (string * string) :=
  let last_sync := User.lastCalendarSync user in
  let '(lower, w1) :=
    match last_sync with
    | Some ls => (DT.add_seconds ls (- 3600), w)
    | None => let '(now, w') := utcnow w in (DT.add_seconds now (- 86400), w')
    end in
  match lower with
  | Raise msg => (w1, Raise msg)
  | Ok lo =>
      let time_min := Z_suffix (DT.isoformat lo) in
      let '(now, w2) := utcnow w1 in
      match DT.add_seconds now (90 * 86400) with
      | Raise msg => (w2, Raise msg)
      | Ok hi => (w2, Ok (time_min, Z_suffix (DT.isoformat hi)))
      end
  end.

Definition _pull_from_google (user : User.t) (selected_calendars : list string)
    (w : World) : World * result Z :=
  match pull_window user w with
  | (w2, Raise msg) => (w2, Raise msg)
  | (w2, Ok (time_min, time_max)) =>
      let '(w3, pulled_count, returned) :=
        pull_calendars user time_min time_max selected_calendars w2 0 in
      if returned then (w3, Ok pulled_count)
      else
        let w4 := if 0 <? pulled_count then emit (LogPulled pulled_count) w3
                  else w3 in
        let '(now, w5) := utcnow w4 in
        (with_db (Db.users_update_one (User._id user)
                    (set_lastCalendarSync now) (db w5)) w5,
         Ok pulled_count)
  end.

(** *** Push phase *)

(** The [try] block for one task to push; [true] when [pushed_count] is
    incremented. *)
Definition push_task (user_preferences : Preferences.t) (calendar_id : string)
    (task : Task.t) (w : World) : World * bool :=
  let failed (w' : World) := (emit (LogPushError (Task._id task)) w', false) in
  match build_google_calendar_event pytz_timezone task user_preferences with
  | Raise _ => failed w
  | Ok event_body =>
      let '(response, w1) :=
        match Task.googleEventId task with
        | Some (String c r) =>
            let target := get_default (Task.googleCalendarId task) calendar_id in
            let '(resp, rem) :=
              events_update (remote w) target (String c r) event_body in
            (resp, with_remote rem (emit (EventsUpdate target (String c r) event_body) w))
        | _ =>
            let '(resp, rem) := events_insert (remote w) calendar_id event_body in
            (resp, with_remote rem (emit (EventsInsert calendar_id event_body) w))
        end in
      match response with
      | Raise _ => failed w1
      | Ok event =>
          match Event.id event with
          | None => failed w1
          | Some new_id =>
              let '(now, w2) := utcnow w1 in
              (with_db (Db.tasks_update_one (Task._id task)
                          (push_bookkeeping new_id calendar_id now) (db w2)) w2,
               true)
          end
      end
  end.

Fixpoint push_loop (user_preferences : Preferences.t) (calendar_id : string)
    (tasks_to_push : list Task.t) (w : World) (pushed_count : Z) : World * Z :=
  match tasks_to_push with
  | [] => (w, pushed_count)
  | task :: rest =>
      let '(w1, ok) := push_task user_preferences calendar_id task w in
      push_loop user_preferences calendar_id rest w1
        (if ok then pushed_count + 1 else pushed_count)
  end.

Definition _push_to_google (user : User.t) (user_preferences : Preferences.t)
    (calendar_id : string) (w : World) : World * Z :=
  let user_oid := User._id user in
  let all_tasks := Db.tasks_find (fun t => N.eqb (Task.user t) user_oid) (db w) in
  let '(stats, tasks_to_push) := select_tasks_to_push all_tasks in
  let '(w1, pushed_count) := push_loop user_preferences calendar_id tasks_to_push w 0 in
  (if 0 <? pushed_count then emit (LogPushed pushed_count) w1 else w1, pushed_count).

(** *** The per-user cycle *)

(** The pull phase then the push phase, with the two counters. *)
Definition sync_phases (user : User.t) (w : World) : World * result (Z * Z) :=
  let user_preferences := User.preferences user in
  let selected_calendars := selected_or_primary user in
  match _pull_from_google user selected_calendars w with
  | (w1, Raise msg) => (w1, Raise msg)
  | (w1, Ok pulled_count) =>
      let '(w2, pushed_count) :=
        _push_to_google user user_preferences
          (hd "primary"%string selected_calendars) w1 in
      (w2, Ok (pulled_count, pushed_count))
  end.

Definition _sync_user_calendar (user : User.t) (w : World) : World * bool :=
  let '(creds, d1) := get_credentials_from_user user (db w) in
  let w1 := with_db d1 w in
  match creds with
  | None =>
      if truthy_str (User.googleAccessToken user) then
        (with_db (Db.users_update_one (User._id user) clear_tokens (db w1)) w1, false)
      else (w1, false)
  | Some _ =>
      match sync_phases user w1 with
      | (w2, Ok _) => (w2, true)
      | (w2, Raise _) => (w2, false)
      end
  end.

End Scheduler.

Arguments mkWorld {Remote} db remote clock trace.
Arguments db {Remote} w.
Arguments remote {Remote} w.
Arguments clock {Remote} w.
Arguments trace {Remote} w.
Arguments with_db {Remote} d w.
Arguments with_remote {Remote} r w.
Arguments emit {Remote} e w.
Arguments utcnow {Remote} utcnow_at w.

(** ** The statements of the specification, in its own words *)

Module Spec.

(** "a reminders override is attached only when [reminder.enabled] and
    [reminder.notifyMobile] are both true" *)
Definition reminder_attached (task : Task.t) : bool :=
  truthy_bool (Reminder.enabled (get_reminder task))
  && truthy_bool (get (Reminder.notifyMobile (get_reminder task))).

(** "syncToCalendar is true, dueDate is present, status is not one of
    completed/deleted/skipped, and either googleEventId is absent or
    updatedAt is strictly later than lastSyncedAt", where "a linked task
    whose lastSyncedAt is absent still counts as needing a push" *)
Definition needs_push (task : Task.t) : bool :=
  truthy_bool (Task.syncToCalendar task)
  && truthy_some (Task.dueDate task)
  && negb (terminal_status (Task.status task))
  && (negb (truthy_str (Task.googleEventId task))
      || match Task.lastSyncedAt task with
         | None => true
         | Some l =>
             match Task.updatedAt task with
             | Some u => DT.gtb u l
             | None => false
             end
         end).

End Spec.

(** ** What the code decides *)

(** The condition under which the selection loop keeps a task. *)
Definition push_candidate (task : Task.t) : bool :=
  truthy_some (Task.dueDate task)
  && negb (terminal_status (Task.status task))
  && truthy_bool (Task.syncToCalendar task)
  && (negb (truthy_str (Task.googleEventId task))
      || match Task.updatedAt task, Task.lastSyncedAt task with
         | Some u, Some l => DT.gtb u l
         | _, _ => false
         end).

(** The stored document with a given identifier. *)
Definition task_by_id (oid : ObjectId) (d : Db.t) : option Task.t :=
  find (fun x => N.eqb (Task._id x) oid) (Db.tasks d).

Definition user_by_id (oid : ObjectId) (d : Db.t) : option User.t :=
  find (fun x => N.eqb (User._id x) oid) (Db.users d).

Definition is_push_call (e : effect) : bool :=
  match e with
  | EventsInsert _ _ | EventsUpdate _ _ _ => true
  | _ => false
  end.

Section Derived.

Variable pytz_timezone : string -> option Tz.t.
Variable Remote : Type.
Variable events_insert : Remote -> string -> Body.t -> result Event.t * Remote.
Variable events_update :
  Remote -> option string -> string -> Body.t -> result Event.t * Remote.
Variable utcnow_at : nat -> DT.datetime.

(** The remote call the push loop makes for a task: an update of the linked
    event, an insert for an unlinked task, none when the body cannot be
    built. *)
Definition push_call (user_preferences : Preferences.t) (calendar_id : string)
    (task : Task.t) : list effect :=
  match build_google_calendar_event pytz_timezone task user_preferences with
  | Raise _ => []
  | Ok body =>
      match Task.googleEventId task with
      | Some (String c r) =>
          [EventsUpdate (get_default (Task.googleCalendarId task) calendar_id)
             (String c r) body]
      | _ => [EventsInsert calendar_id body]
      end
  end.

(** The tasks of a list are pushed one after the other, each with success. *)
Fixpoint all_succeed (user_preferences : Preferences.t) (calendar_id : string)
    (l : list Task.t) (w : World Remote) : bool :=
  match l with
  | [] => true
  | task :: rest =>
      let '(w1, ok) :=
        push_task pytz_timezone Remote events_insert events_update utcnow_at
          user_preferences calendar_id task w in
      ok && all_succeed user_preferences calendar_id rest w1
  end.

(** *** A store at rest

    The notions used to speak of two runs in a row. *)

(** No task of the user is waiting for a push. *)
Definition settled (uid : ObjectId) (d : Db.t) : Prop :=
  forall t, In t (Db.tasks d) -> Task.user t = uid -> push_candidate t = false.

(** Identifiers are unique and below the next one [ObjectId()] hands out. *)
Definition well_keyed (d : Db.t) : Prop :=
  NoDup (map Task._id (Db.tasks d))
  /\ forall t, In t (Db.tasks d) -> (Task._id t < Db.next_oid d)%N.

(** The clock does not run backwards. *)
Definition monotone_clock : Prop :=
  forall m n, (m <= n)%nat -> DT.gtb (utcnow_at m) (utcnow_at n) = false.

(** No task bears an [updatedAt] later than the clock shows, now or later. *)
Definition not_ahead (w : World Remote) : Prop :=
  forall t u n,
    In t (Db.tasks (db w)) -> Task.updatedAt t = Some u -> (clock w <= n)%nat ->
    DT.gtb u (utcnow_at n) = false.

(** The service answers an insert, and an update of an event with an
    identifier, with an event whose identifier is not the empty string. *)
Definition answers_with_id : Prop :=
  (forall r cal body e r',
      events_insert r cal body = (Ok e, r') -> Event.id e <> Some EmptyString)
  /\ (forall r cal eid body e r',
        eid <> EmptyString ->
        events_update r cal eid body = (Ok e, r') -> Event.id e <> Some EmptyString).

(** Unique identifiers and no task ahead of the clock. *)
Definition orderly (w : World Remote) : Prop :=
  well_keyed (db w) /\ not_ahead w.

(** The world of a user during the pull phase of a run that follows a
    settled one: the tasks that the earlier run left are in place, by
    identifier, and none of those of the user waits for a push; after them
    come the tasks created since, all of the user; and no insert or update
    call was made since. *)
Definition quiet (uid : ObjectId) (ids : list ObjectId) (calls : list effect)
    (w : World Remote) : Prop :=
  orderly w
  /\ filter is_push_call (trace w) = calls
  /\ exists old created,
       Db.tasks (db w) = old ++ created
       /\ map Task._id old = ids
       /\ (forall t, In t old -> Task.user t = uid -> push_candidate t = false)
       /\ (forall t, In t created -> Task.user t = uid).

(** A task as the pull phase creates it for an event of a calendar, when the
    first of its three readings of the clock is the [k]-th. *)
Definition created_from (uid : ObjectId) (calendar_id : string) (event : Event.t)
    (k : nat) (t : Task.t) : Prop :=
  exists event_id,
    Event.id event = Some event_id /\ event_id <> EmptyString
    /\ Task.user t = uid
    /\ Task.title t = summary_or_untitled event
    /\ Task.googleEventId t = Some event_id
    /\ Task.googleCalendarId t = Val calendar_id
    /\ Task.syncToCalendar t = Some true
    /\ Task.status t = Some "scheduled"%string
    /\ Task.dueDate t <> None
    /\ Task.lastSyncedAt t = Some (utcnow_at k)
    /\ Task.createdAt t = Some (utcnow_at (S k))
    /\ Task.updatedAt t = Some (utcnow_at (S (S k))).

(** What one event of the pull phase does to the world: nothing, an
    overwrite of the matched task, or the creation of a task. *)
Inductive pull_step (uid : ObjectId) (event : Event.t) (w w' : World Remote) : Prop :=
| pull_nothing : w' = w -> pull_step uid event w w'
| pull_overwrites (existing : Task.t) (title description : string)
    (due_date : DT.datetime) (due_time : option string) :
    In existing (Db.tasks (db w)) ->
    Task.user existing = uid ->
    truthy_str (Task.googleEventId existing) = true ->
    w' = with_db (Db.tasks_update_one (Task._id existing)
                    (pull_overwrite title description due_date due_time
                       (utcnow_at (clock w))) (db w))
           (mkWorld (db w) (remote w) (S (clock w)) (trace w)) ->
    pull_step uid event w w'
| pull_creates (event_id : string) (doc : ObjectId -> Task.t) :
    Event.id event = Some event_id ->
    event_id <> EmptyString ->
    (forall t, In t (Db.tasks (db w)) -> Task.user t = uid ->
               Task.googleEventId t <> Some event_id) ->
    (forall oid, Task._id (doc oid) = oid) ->
    (forall oid, Task.user (doc oid) = uid) ->
    (forall oid, exists k, (clock w <= k < clock w')%nat
                           /\ Task.updatedAt (doc oid) = Some (utcnow_at k)) ->
    w' = mkWorld (Db.tasks_insert_one doc (db w)) (remote w) (S (S (S (clock w))))
           (trace w) ->
    pull_step uid event w w'.

End Derived.

(** ** Sample data *)

Module Sample.

Definition at_ (y m d h mi s : Z) : DT.datetime := DT.mk y m d h mi s 0 None.

(** America/Denver as in force during 2026: UTC-7, and UTC-6 from
    2026-03-08 09:00 UTC to 2026-11-01 08:00 UTC. *)
Definition denver : Tz.t :=
  Tz.mk
    (fun utc =>
       if DT.ltb utc (at_ 2026 3 8 9 0 0) then -25200
       else if DT.ltb utc (at_ 2026 11 1 8 0 0) then -21600
       else -25200)
    (fun local =>
       if DT.ltb local (at_ 2026 3 8 3 0 0) then -25200
       else if DT.ltb local (at_ 2026 11 1 1 0 0) then -21600
       else -25200).

Definition pytz_timezone (name : string) : option Tz.t :=
  if String.eqb name "America/Denver" then Some denver
  else if String.eqb name "UTC" then Some Tz.UTC
  else None.

Definition system_utcoffset (_ : DT.datetime) : Z := 0.

(** A clock that advances by one microsecond per reading. *)
Definition utcnow_at (n : nat) : DT.datetime :=
  DT.mk 2026 1 10 12 0 0 (Z.of_nat n) None.

Definition prefs_denver : Preferences.t := Preferences.mk (Val "America/Denver"%string).
Definition prefs_unknown : Preferences.t := Preferences.mk (Val "Mars/Olympus"%string).

Definition uid : ObjectId := 1%N.

(** A task of the sample user, due on 2026-01-20, with sync enabled. *)
Definition task (oid : ObjectId) (event_id : option string) (calendar : field string)
    (last_synced updated : option DT.datetime) : Task.t :=
  Task.mk oid "Write report" "" uid None (Some (at_ 2026 1 20 0 0 0)) None
    (Some "none"%string) (Some "scheduled"%string) []
    (Some (Reminder.mk (Some false) (Val 30) (Val true) (Val true) None))
    event_id calendar None (Some true) (Some true) last_synced
    (Some (at_ 2026 1 1 8 0 0)) updated.

(** A task with its reminder enabled, ten minutes ahead. *)
Definition task_with_reminder : Task.t :=
  Task.mk 7%N "Call" "" uid None (Some (at_ 2026 1 20 0 0 0)) None
    (Some "none"%string) (Some "scheduled"%string) []
    (Some (Reminder.mk (Some true) (Val 10) (Val true) (Val true) None))
    None Null None (Some false) (Some true) None
    (Some (at_ 2026 1 1 8 0 0)) (Some (at_ 2026 1 1 8 0 0)).

(** A linked task that was never stamped with [lastSyncedAt]. *)
Definition task_linked_unstamped : Task.t :=
  task 8%N (Some "ev8"%string) (Val "primary"%string) None (Some (at_ 2026 1 5 9 0 0)).

(** The remote service of the samples keeps no state.  A listing returns the
    given events; an insert answers with a new event; an update answers with
    the updated event. *)
Definition Remote : Type := unit.

Definition events_list (events : list Event.t)
  : Remote -> string -> string -> string -> result (list Event.t) :=
  fun _ _ _ _ => Ok events.

(** A listing refused with the revocation signature. *)
Definition events_list_revoked
  : Remote -> string -> string -> string -> result (list Event.t) :=
  fun _ _ _ _ => Raise "invalid_grant: Token has been expired or revoked.".

(** A listing that fails on the calendar "work" only. *)
Definition events_list_work_down
  : Remote -> string -> string -> string -> result (list Event.t) :=
  fun _ calendar_id _ _ =>
    if String.eqb calendar_id "work" then Raise "HttpError 500: backend error"
    else Ok [].

(** An insert that the service refuses for the title "Refused". *)
Definition events_insert : Remote -> string -> Body.t -> result Event.t * Remote :=
  fun r _ body =>
    if String.eqb (Body.summary body) "Refused"
    then (Raise "HttpError 403: forbidden", r)
    else (Ok (Event.mk (Some "created"%string) (Some (Body.summary body))
                (Some (Body.description body)) None None None None), r).

Definition events_update
  : Remote -> option string -> string -> Body.t -> result Event.t * Remote :=
  fun r _ event_id body =>
    (Ok (Event.mk (Some event_id) (Some (Body.summary body))
           (Some (Body.description body)) None None None None), r).

Definition creds_fresh (_ : User.t) : bool := false.
Definition creds_stale (_ : User.t) : bool := true.
Definition creds_refresh_fails (_ : User.t) : result (string * option string) :=
  Raise "invalid_grant: Bad Request".

(** The sample user, connected, with the given selection and watermark. *)
Definition user (selected : option (list string)) (last_sync : option DT.datetime)
  : User.t :=
  User.mk uid (Some "ana@example.org"%string) (Some "access-token"%string)
    (Some "refresh-token"%string) None selected last_sync prefs_denver.

Definition world (u : User.t) (tasks : list Task.t) : World Remote :=
  mkWorld (Db.mk [u] tasks [] 100%N) tt 0 [].

(** An all-day remote event with a given identifier and last-modified time. *)
Definition event (event_id updated : string) : Event.t :=
  Event.mk (Some event_id) (Some "Write report"%string) None None
    (Some "2026-01-20"%string) (Some updated) None.

(** A task linked to "ev1", last edited on 2026-01-05 at 09:00 and last
    synchronised the day before. *)
Definition task_edited : Task.t :=
  task 8%N (Some "ev1"%string) (Val "primary"%string)
    (Some (at_ 2026 1 4 9 0 0)) (Some (at_ 2026 1 5 9 0 0)).

(** A task linked to "ev1" and in sync since 2026-01-05 at 09:00. *)
Definition task_in_sync : Task.t :=
  task 8%N (Some "ev1"%string) (Val "primary"%string)
    (Some (at_ 2026 1 5 9 0 0)) (Some (at_ 2026 1 5 9 0 0)).

(** A task linked to an event of the calendar "work". *)
Definition task_on_work : Task.t :=
  task 9%N (Some "ev9"%string) (Val "work"%string)
    (Some (at_ 2026 1 4 9 0 0)) (Some (at_ 2026 1 5 9 0 0)).

(** Unlinked tasks with a given identifier and title. *)
Definition task_new (oid : ObjectId) (title : string) : Task.t :=
  Task.mk oid title "" uid None (Some (at_ 2026 1 20 0 0 0)) None
    (Some "none"%string) (Some "scheduled"%string) []
    (Some (Reminder.mk (Some false) (Val 30) (Val true) (Val true) None))
    None Null None (Some false) (Some true) None
    (Some (at_ 2026 1 1 8 0 0)) (Some (at_ 2026 1 1 8 0 0)).

(** The event body of a task under the Denver preferences. *)
Definition body_of (t : Task.t) : Body.t :=
  match build_google_calendar_event pytz_timezone t prefs_denver with
  | Ok body => body
  | Raise _ => Body.mk "" "" (Body.Date "") (Body.Date "") None ""
  end.

(** The cycle and its phases in the sample setting, for a given listing and
    credential service. *)
Definition cycle (listing : Remote -> string -> string -> string -> result (list Event.t))
    (expired : User.t -> bool) : User.t -> World Remote -> World Remote * bool :=
  _sync_user_calendar pytz_timezone system_utcoffset expired creds_refresh_fails
    Remote listing events_insert events_update utcnow_at.

Definition pull (listing : Remote -> string -> string -> string -> result (list Event.t))
  : User.t -> list string -> World Remote -> World Remote * result Z :=
  _pull_from_google pytz_timezone system_utcoffset Remote listing utcnow_at.

Definition push : User.t -> Preferences.t -> string -> World Remote -> World Remote * Z :=
  _push_to_google pytz_timezone Remote events_insert events_update utcnow_at.

(** The user as stored after a run, for the next run. *)
Definition stored_user (w : World Remote) (fallback : User.t) : User.t :=
  match user_by_id uid (db w) with
  | Some u => u
  | None => fallback
  end.

Definition remote_newer : Event.t := event "ev1" "2026-01-06T10:00:00.000Z".
Definition remote_equal : Event.t := event "ev1" "2026-01-05T09:00:00.000Z".

(** *** Scenarios *)

Definition ana : User.t := user None None.

(** A linked task that was never stamped, alone in the store. *)
Definition unstamped_world : World Remote := world ana [task_linked_unstamped].

(** A locally edited task whose event bears the same time as the edit. *)
Definition tie_listing := events_list [remote_equal].
Definition tie_world : World Remote := world ana [task_edited].
Definition tie_after : World Remote := fst (cycle tie_listing creds_fresh ana tie_world).
Definition tie_after_2 : World Remote :=
  fst (cycle tie_listing creds_fresh (stored_user tie_after ana) tie_after).

(** A task in sync whose event was changed remotely; two runs in a row. *)
Definition newer_listing := events_list [remote_newer].
Definition newer_world : World Remote := world ana [task_in_sync].
Definition newer_after_1 : World Remote :=
  fst (cycle newer_listing creds_fresh ana newer_world).
Definition newer_after_2 : World Remote :=
  fst (cycle newer_listing creds_fresh (stored_user newer_after_1 ana) newer_after_1).

(** A user whose token cannot be refreshed any more. *)
Definition bob : User.t := user (Some ["work"%string]) (Some (at_ 2026 1 9 8 0 0)).
Definition bob_world : World Remote := world bob [].
Definition bob_after : World Remote :=
  fst (cycle (events_list []) creds_stale bob bob_world).

(** A pull refused with the revocation signature. *)
Definition revoked_world : World Remote := world ana [].
Definition revoked_after : World Remote :=
  fst (pull events_list_revoked ana ["primary"%string] revoked_world).

(** A pull over two calendars, the first of which fails. *)
Definition carla : User.t := user (Some ["work"; "primary"]%string) None.
Definition carla_world : World Remote := world carla [].

(** Three unlinked tasks, the second of which the service refuses. *)
Definition batch_before : list Task.t := [task_new 11%N "Plan"].
Definition batch_failing : Task.t := task_new 12%N "Refused".
Definition batch_after : list Task.t := [task_new 13%N "Ship"].
Definition batch_world : World Remote :=
  world ana (batch_before ++ batch_failing :: batch_after).

(** The same store through two runs in a row, nothing listed remotely. *)
Definition batch_after_1 : World Remote :=
  fst (cycle (events_list []) creds_fresh ana batch_world).
Definition batch_after_2 : World Remote :=
  fst (cycle (events_list []) creds_fresh (stored_user batch_after_1 ana) batch_after_1).

(** A linked task edited through the task routes of a server two hours east
    of UTC: they stamp [updatedAt] with the local time, 14:00, while the
    clock of the scheduler reads 12:00.  Two runs in a row. *)
Definition task_ahead : Task.t :=
  task 8%N (Some "ev1"%string) (Val "primary"%string)
    (Some (at_ 2026 1 4 9 0 0)) (Some (at_ 2026 1 10 14 0 0)).
Definition ahead_world : World Remote := world ana [task_ahead].
Definition ahead_after_1 : World Remote :=
  fst (cycle (events_list []) creds_fresh ana ahead_world).
Definition ahead_after_2 : World Remote :=
  fst (cycle (events_list []) creds_fresh (stored_user ahead_after_1 ana) ahead_after_1).

(** A service that lists by the window it is asked for: an event that starts
    two microseconds after the end of the window of a first run at reading 1
    of the clock.  Two runs in a row on an empty store. *)
Definition edge_event : Event.t :=
  Event.mk (Some "ev5"%string) (Some "Review"%string) None
    (Some "2026-04-10T12:00:00.000002Z"%string) None
    (Some "2026-01-02T08:00:00.000Z"%string) None.
Definition edge_listing
  : Remote -> string -> string -> string -> result (list Event.t) :=
  fun _ _ _ time_max =>
    if String.ltb "2026-04-10T12:00:00.000002Z" time_max then Ok [edge_event]
    else Ok [].
Definition edge_world : World Remote := world ana [].
Definition edge_after_1 : World Remote :=
  fst (cycle edge_listing creds_fresh ana edge_world).
Definition edge_after_2 : World Remote :=
  fst (cycle edge_listing creds_fresh (stored_user edge_after_1 ana) edge_after_1).

(** Tasks mirrored from the calendars "A" and "B", and a local task. *)
Definition dana : User.t := user (Some ["A"; "B"]%string) None.
Definition task_a : Task.t := task 21%N (Some "a1"%string) (Val "A"%string) None None.
Definition task_b : Task.t := task 22%N (Some "b1"%string) (Val "B"%string) None None.
Definition task_b' : Task.t := task 23%N (Some "b2"%string) (Val "B"%string) None None.
Definition task_local : Task.t := task_new 24%N "Local".
Definition dana_db : Db.t :=
  Db.mk [dana] [task_a; task_b; task_local; task_b'] [] 100%N.

(** A task recorded on "work", pushed while the push phase targets
    "primary". *)
Definition work_world : World Remote := world ana [task_on_work].

End Sample.

(** ** Counting what a run logs *)

Definition is_push_error (e : effect) : bool :=
  match e with
  | LogPushError _ => true
  | _ => false
  end.

(** The tasks of the store that belong to other users. *)
Definition tasks_of_others (uid : ObjectId) (d : Db.t) : list Task.t :=
  filter (fun t => negb (N.eqb (Task.user t) uid)) (Db.tasks d).

(** ** [app/scheduler.py]: the reminder check *)

(** A document of the [push_subscriptions] collection ([None]: key
    missing). *)
Module Subscription.
Record t : Type := mk {
  endpoint : option string;
  keys : option (list (string * string))
}.
End Subscription.

(** The notification payload.  [tag] stands for the text "task-reminder-"
    followed by the identifier, [taskId] for the identifier as text. *)
Module Payload.
Record t : Type := mk {
  title : string;
  body : string;
  icon : string;
  badge : string;
  tag : ObjectId;
  taskId : ObjectId;
  type_ : string;
  requireInteraction : bool;
  actions : list (string * string)
}.
End Payload.

(** [str(n)] for an integer *)
Fixpoint decimal (fuel : nat) (n : Z) (acc : string) : string :=
  match fuel with
  | O => acc
  | S fuel' =>
      let acc' := String (Str.digit_char n) acc in
      if n <? 10 then acc' else decimal fuel' (n / 10) acc'
  end.

Definition str_of_int (n : Z) : string :=
  if n <? 0 then String "-"%char (decimal (S (Z.to_nat (Z.log2 (- n)))) (- n) EmptyString)
  else decimal (S (Z.to_nat (Z.log2 n))) n EmptyString.

(** [timedelta(minutes=m)], in seconds; a [timedelta] spans at most
    999999999 days either way. *)
Definition timedelta_minutes (m : Z) : result Z :=
  let seconds := m * 60 in
  if Z.abs (seconds / 86400) <=? 999999999 then Ok seconds
  else Raise "OverflowError: days; must have magnitude <= 999999999".

(** The position of a value on the time line, in microseconds. *)
Definition microseconds_of (d : DT.datetime) : Z :=
  (DT.toordinal d * 86400 + DT.hour d * 3600 + DT.minute d * 60 + DT.second d)
  * 1000000 + DT.microsecond d.

(** [(now - d)] in microseconds, for a reading [now] of [datetime.utcnow()],
    which is naive. *)
Definition since (now d : DT.datetime) : result Z :=
  match DT.tzinfo d with
  | None => Ok (microseconds_of now - microseconds_of d)
  | Some _ => Raise "can't subtract offset-naive and offset-aware datetimes"
  end.

(** [a <= b] where one side is naive by construction: the other side must
    be naive too. *)
Definition naive_le (a b : DT.datetime) : result bool :=
  match DT.tzinfo a, DT.tzinfo b with
  | None, None => Ok (negb (DT.ltb b a))
  | _, _ => Raise "can't compare offset-naive and offset-aware datetimes"
  end.

(** [d.replace(hour=h, minute=m)] *)
Definition replace_hour_minute (d : DT.datetime) (h m : Z) : result DT.datetime :=
  if (0 <=? h) && (h <? 24) && (0 <=? m) && (m <? 60)
  then Ok (DT.mk (DT.year d) (DT.month d) (DT.day d) h m (DT.second d)
             (DT.microsecond d) (DT.tzinfo d))
  else Raise "ValueError: hour or minute out of range".

(** The due moment of a task: its [dueDate], at the [dueTime] when that
    reads as hours and minutes (otherwise the [try] falls through). *)
Definition task_due (due_date : DT.datetime) (due_time : option string) : DT.datetime :=
  match due_time with
  | Some (String c r) =>
      match (hm <- parse_due_time (String c r) ;;
             replace_hour_minute due_date (fst hm) (snd hm)) with
      | Ok d => d
      | Raise _ => due_date
      end
  | _ => due_date
  end.

(** [timedelta(minutes=minutes_before)] for what
    [reminder.get("minutesBefore", 30)] gives. *)
Definition lead_time (minutes_before : option Z) : result Z :=
  match minutes_before with
  | Some m => timedelta_minutes m
  | None => Raise "TypeError: unsupported type for timedelta minutes component: NoneType"
  end.

(** The body of the loop of [_check_reminders] for one task: whether the
    task is appended to [tasks_to_notify]; an exception leaves the loop. *)
Definition reminder_due (now one_minute_from_now : DT.datetime) (task : Task.t)
  : result bool :=
  let reminder := get_reminder task in
  if negb (truthy_bool (Reminder.enabled reminder)) then Ok false
  else if negb (truthy_bool (get_default (Reminder.notifyDesktop reminder) true))
  then Ok false
  else
    sent_lately <-
      (match Reminder.lastSent reminder with
       | Some last_sent =>
           elapsed <- since now last_sent ;;
           Ok (elapsed <? 300 * 1000000)
       | None => Ok false
       end) ;;
    if sent_lately then Ok false
    else
      match Task.dueDate task with
      | None => Ok false
      | Some due_date =>
          let due := task_due due_date (Task.dueTime task) in
          let minutes_before := get_default (Reminder.minutesBefore reminder) 30 in
          delta <- lead_time minutes_before ;;
          reminder_time <- DT.add_seconds due (- delta) ;;
          lower <- naive_le now reminder_time ;;
          if lower then naive_le reminder_time one_minute_from_now else Ok false
      end.

Fixpoint scan_reminders (now one_minute_from_now : DT.datetime)
    (all_tasks tasks_to_notify : list Task.t) : result (list Task.t) :=
  match all_tasks with
  | [] => Ok tasks_to_notify
  | task :: rest =>
      due <- reminder_due now one_minute_from_now task ;;
      scan_reminders now one_minute_from_now rest
        (if due then tasks_to_notify ++ [task] else tasks_to_notify)
  end.

(** The [$set] of ["reminder.lastSent"]. *)
Definition set_lastSent (now : DT.datetime) (t : Task.t) : Task.t :=
  let r := get_reminder t in
  Task.mk (Task._id t) (Task.title t) (Task.description t) (Task.user t)
    (Task.list_ t) (Task.dueDate t) (Task.dueTime t) (Task.priority t)
    (Task.status t) (Task.tags t)
    (Some (Reminder.mk (Reminder.enabled r) (Reminder.minutesBefore r)
             (Reminder.notifyDesktop r) (Reminder.notifyMobile r) (Some now)))
    (Task.googleEventId t) (Task.googleCalendarId t) (Task.googleCalendarColor t)
    (Task.syncedWithGoogle t) (Task.syncToCalendar t) (Task.lastSyncedAt t)
    (Task.createdAt t) (Task.updatedAt t).

(** A task with the stamp of its reminder left out. *)
Definition without_lastSent (t : Task.t) : Task.t :=
  let r := get_reminder t in
  Task.mk (Task._id t) (Task.title t) (Task.description t) (Task.user t)
    (Task.list_ t) (Task.dueDate t) (Task.dueTime t) (Task.priority t)
    (Task.status t) (Task.tags t)
    (Some (Reminder.mk (Reminder.enabled r) (Reminder.minutesBefore r)
             (Reminder.notifyDesktop r) (Reminder.notifyMobile r) None))
    (Task.googleEventId t) (Task.googleCalendarId t) (Task.googleCalendarColor t)
    (Task.syncedWithGoogle t) (Task.syncToCalendar t) (Task.lastSyncedAt t)
    (Task.createdAt t) (Task.updatedAt t).

Definition reminder_payload (task : Task.t) : Payload.t :=
  let reminder := get_reminder task in
  let minutes_before := get_default (Reminder.minutesBefore reminder) 30 in
  Payload.mk "⏰ Task Reminder"
    (app_all [String (ascii_of_nat 34) EmptyString; Task.title task;
              String (ascii_of_nat 34) EmptyString; " is due in "%string;
              match minutes_before with
              | Some m => str_of_int m
              | None => "None"%string
              end; " minutes"%string])
    "/favicon.ico" "/favicon.ico" (Task._id task) (Task._id task)
    "task_reminder" true
    [("complete", "✓ Done"); ("snooze", "⏰ Snooze"); ("open", "Open")]%string.

Section Reminders.

(** The environment: [VAPID_PRIVATE_KEY] and [VAPID_EMAIL], whether
    [pywebpush] can be imported, and the call [webpush(...)], which returns
    or raises. *)
Variable vapid_private_key : string.
Variable vapid_email : string.
Variable pywebpush_installed : bool.
Variable webpush :
  string -> list (string * string) -> Payload.t -> string -> string -> result unit.

(** [db.push_subscriptions.find_one({"userId": user_id})]; the collection is
    only read here. *)
Variable find_subscription : ObjectId -> option Subscription.t.

Variable utcnow_at : nat -> DT.datetime.

(** The store, the clock, and the calls of [webpush] made so far. *)
Record Desk : Type := mkDesk {
  store : Db.t;
  reading : nat;
  pushes : list (Subscription.t * Payload.t)
}.

Definition _send_push_notification (subscription : Subscription.t)
    (payload : Payload.t) (d : Desk) : Desk * result unit :=
  match vapid_private_key with
  | EmptyString => (d, Ok tt)
  | _ =>
      if negb pywebpush_installed then (d, Ok tt)
      else
        match Subscription.endpoint subscription with
        | None => (d, Raise "'endpoint'")
        | Some endpoint =>
            match Subscription.keys subscription with
            | None => (d, Raise "'keys'")
            | Some keys =>
                (mkDesk (store d) (reading d) (pushes d ++ [(subscription, payload)]),
                 webpush endpoint keys payload vapid_private_key vapid_email)
            end
        end
  end.

Definition _send_reminder (task : Task.t) (d : Desk) : Desk :=
  let user_id := Task.user task in
  match find_subscription user_id with
  | None => d
  | Some subscription =>
      let payload := reminder_payload task in
      match _send_push_notification subscription payload d with
      | (d1, Ok _) =>
          let now := utcnow_at (reading d1) in
          mkDesk (Db.tasks_update_one (Task._id task) (set_lastSent now) (store d1))
            (S (reading d1)) (pushes d1)
      | (d1, Raise _) => d1
      end
  end.

Definition _check_reminders (d : Desk) : Desk * result unit :=
  let now := utcnow_at (reading d) in
  let d1 := mkDesk (store d) (S (reading d)) (pushes d) in
  match DT.add_seconds now 60 with
  | Raise msg => (d1, Raise msg)
  | Ok one_minute_from_now =>
      let all_tasks := Db.tasks_find (fun _ => true) (store d1) in
      match scan_reminders now one_minute_from_now all_tasks [] with
      | Raise msg => (d1, Raise msg)
      | Ok tasks_to_notify =>
          (fold_left (fun acc task => _send_reminder task acc) tasks_to_notify d1,
           Ok tt)
      end
  end.

End Reminders.


(** ** [app/routes/calendar.py]: the manual requests *)

(** What a route gives back: the value it returns, or the [HTTPException] it
    raises. *)
Inductive response (A : Type) : Type :=
| Returns (a : A)
| HTTPException (status_code : Z) (detail : string).
Arguments Returns {A} a.
Arguments HTTPException {A} status_code detail.

(** The [$set] after a push on request: unlike the scheduler it moves
    [updatedAt] too, with a reading of the clock taken after the one of
    [lastSyncedAt]. *)
Definition manual_bookkeeping (event_id calendar_id : string)
    (synced_at updated_at : DT.datetime) (t : Task.t) : Task.t :=
  Task.mk (Task._id t) (Task.title t) (Task.description t) (Task.user t)
    (Task.list_ t) (Task.dueDate t) (Task.dueTime t) (Task.priority t)
    (Task.status t) (Task.tags t) (Task.reminder t) (Some event_id)
    (Val calendar_id) (Task.googleCalendarColor t) (Some true)
    (Task.syncToCalendar t) (Some synced_at) (Task.createdAt t) (Some updated_at).

(** The test of [push_all_tasks_to_calendar] for a task to be pushed. *)
Definition push_all_eligible (t : Task.t) : bool :=
  truthy_some (Task.dueDate t)
  && negb (truthy_str (Task.googleEventId t))
  && negb (terminal_status (Task.status t)).

(** The [$set] of [disconnect_google], on the keys of the user record. *)
Definition clear_connection (u : User.t) : User.t :=
  User.mk (User._id u) (User.email u) None None (User.googleTokenExpiry u)
    None None (User.preferences u).

(** [disconnect_google]: the linked tasks of the user are deleted one by
    one, then the connection is cleared.  Returns [eventsDeleted]. *)
Definition disconnect_google (current_user : User.t) (d : Db.t) : Z * Db.t :=
  let user_oid := User._id current_user in
  let all_tasks := Db.tasks_find (fun t => N.eqb (Task.user t) user_oid) d in
  let synced_tasks := filter (fun t => truthy_str (Task.googleEventId t)) all_tasks in
  let '(deleted_count, d1) :=
    fold_left (fun acc task => (fst acc + 1, Db.tasks_delete_one (Task._id task) (snd acc)))
      synced_tasks (0, d) in
  (deleted_count, Db.users_update_one user_oid clear_connection d1).

Section Requests.

Variable pytz_timezone : string -> option Tz.t.
Variable system_utcoffset : DT.datetime -> Z.
Variable creds_expired : User.t -> bool.
Variable creds_refresh : User.t -> result (string * option string).
Variable Remote : Type.
Variable events_list : Remote -> string -> string -> string -> result (list Event.t).
Variable events_insert : Remote -> string -> Body.t -> result Event.t * Remote.
Variable events_update :
  Remote -> option string -> string -> Body.t -> result Event.t * Remote.
Variable utcnow_at : nat -> DT.datetime.

(** [push_task_to_calendar]; [task_id] is [None] for a text that is no
    [ObjectId].  The value returned is the [eventId] of the answer. *)
Definition push_task_to_calendar (task_id : option ObjectId) (calendar_id : string)
    (current_user : User.t) (w : World Remote) : World Remote * response string :=
  let '(creds, d1) :=
    get_credentials_from_user creds_expired creds_refresh current_user (db w) in
  let w1 := with_db d1 w in
  match creds with
  | None => (w1, HTTPException 400 "Google Calendar not connected")
  | Some _ =>
      let user_oid := User._id current_user in
      match task_id with
      | None => (w1, HTTPException 400 "Invalid task ID")
      | Some task_oid =>
          match Db.tasks_find_one
                  (fun t => N.eqb (Task._id t) task_oid && N.eqb (Task.user t) user_oid)
                  (db w1) with
          | None => (w1, HTTPException 404 "Task not found")
          | Some task =>
              if negb (truthy_some (Task.dueDate task)) then
                (w1, HTTPException 400 "Task must have a due date to sync to calendar")
              else
                let failed (w' : World Remote) (msg : string) :=
                  (w', HTTPException 500
                         (String.append "Failed to push to calendar: " msg)) in
                let user_preferences := User.preferences current_user in
                match build_google_calendar_event pytz_timezone task user_preferences with
                | Raise msg => failed w1 msg
                | Ok event_body =>
                    let '(answer, w2) :=
                      match Task.googleEventId task with
                      | Some (String c r) =>
                          let '(resp, rem) :=
                            events_update (remote w1) (Some calendar_id) (String c r)
                              event_body in
                          (resp, with_remote rem
                                   (emit (EventsUpdate (Some calendar_id) (String c r)
                                            event_body) w1))
                      | _ =>
                          let '(resp, rem) :=
                            events_insert (remote w1) calendar_id event_body in
                          (resp, with_remote rem
                                   (emit (EventsInsert calendar_id event_body) w1))
                      end in
                    match answer with
                    | Raise msg => failed w2 msg
                    | Ok event =>
                        match Event.id event with
                        | None => failed w2 "'id'"%string
                        | Some new_id =>
                            let '(t_synced, w3) := utcnow utcnow_at w2 in
                            let '(t_updated, w4) := utcnow utcnow_at w3 in
                            (with_db
                               (Db.tasks_update_one task_oid
                                  (manual_bookkeeping new_id calendar_id t_synced
                                     t_updated) (db w4)) w4,
                             Returns new_id)
                        end
                    end
                end
          end
      end
  end.

(** The [try] block of [push_all_tasks_to_calendar] for one task. *)
Definition push_all_task (user_preferences : Preferences.t) (calendar_id : string)
    (task : Task.t) (w : World Remote) : World Remote * result unit :=
  match build_google_calendar_event pytz_timezone task user_preferences with
  | Raise msg => (w, Raise msg)
  | Ok event_body =>
      let '(resp, rem) := events_insert (remote w) calendar_id event_body in
      let w1 := with_remote rem (emit (EventsInsert calendar_id event_body) w) in
      match resp with
      | Raise msg => (w1, Raise msg)
      | Ok event =>
          match Event.id event with
          | None => (w1, Raise "'id'")
          | Some new_id =>
              let '(now, w2) := utcnow utcnow_at w1 in
              (with_db (Db.tasks_update_one (Task._id task)
                          (push_bookkeeping new_id calendar_id now) (db w2)) w2,
               Ok tt)
          end
      end
  end.

(** The loop over the eligible tasks, with [pushed_count] and [errors]
    (task, title, message). *)
Fixpoint push_all_loop (user_preferences : Preferences.t) (calendar_id : string)
    (eligible_tasks : list Task.t) (w : World Remote) (pushed_count : Z)
    (errors : list (ObjectId * string * string))
  : World Remote * Z * list (ObjectId * string * string) :=
  match eligible_tasks with
  | [] => (w, pushed_count, errors)
  | task :: rest =>
      match push_all_task user_preferences calendar_id task w with
      | (w1, Ok _) =>
          push_all_loop user_preferences calendar_id rest w1 (pushed_count + 1) errors
      | (w1, Raise msg) =>
          push_all_loop user_preferences calendar_id rest w1 pushed_count
            (errors ++ [(Task._id task, Task.title task, msg)])
      end
  end.

(** [push_all_tasks_to_calendar]: returns [pushedCount] and [errors]
    ([None] when there is none). *)
Definition push_all_tasks_to_calendar (calendar_id : string) (current_user : User.t)
    (w : World Remote)
  : World Remote * response (Z * option (list (ObjectId * string * string))) :=
  let '(creds, d1) :=
    get_credentials_from_user creds_expired creds_refresh current_user (db w) in
  let w1 := with_db d1 w in
  match creds with
  | None => (w1, HTTPException 400 "Google Calendar not connected")
  | Some _ =>
      let user_oid := User._id current_user in
      let all_tasks := Db.tasks_find (fun t => N.eqb (Task.user t) user_oid) (db w1) in
      let eligible_tasks := filter push_all_eligible all_tasks in
      let user_preferences := User.preferences current_user in
      let '(w2, pushed_count, errors) :=
        push_all_loop user_preferences calendar_id eligible_tasks w1 0 [] in
      (w2, Returns (pushed_count,
                    match errors with
                    | [] => None
                    | _ => Some errors
                    end))
  end.

(** *** The loop over the users of [app/scheduler.py] *)

Fixpoint sync_users (users : list User.t) (w : World Remote) (synced_count : Z)
  : World Remote * Z :=
  match users with
  | [] => (w, synced_count)
  | user :: rest =>
      let '(w1, result) :=
        _sync_user_calendar pytz_timezone system_utcoffset creds_expired creds_refresh
          Remote events_list events_insert events_update utcnow_at user w in
      sync_users rest w1 (if result then synced_count + 1 else synced_count)
  end.

(** [_bidirectional_sync_all_users]: the users are read once, before the
    loop; the result is [synced_count] and the new [last_sync_time], or
    [None] when no user is connected. *)
Definition _bidirectional_sync_all_users (w : World Remote)
  : World Remote * option (Z * DT.datetime) :=
  let all_users := Db.users (db w) in
  let users := filter (fun u => truthy_str (User.googleAccessToken u)) all_users in
  match users with
  | [] => (w, None)
  | _ =>
      let '(w1, synced_count) := sync_users users w 0 in
      let '(now, w2) := utcnow utcnow_at w1 in
      (w2, Some (synced_count, now))
  end.

(** [trigger_sync_now], with the [running] flag of the scheduler. *)
Definition trigger_sync_now (running : bool) (user : option User.t) (w : World Remote)
  : World Remote * bool :=
  if negb running then (w, false)
  else
    match user with
    | Some u =>
        _sync_user_calendar pytz_timezone system_utcoffset creds_expired creds_refresh
          Remote events_list events_insert events_update utcnow_at u w
    | None => (fst (_bidirectional_sync_all_users w), true)
    end.

End Requests.

(** ** Texts of dates and times *)

(** The characters that the texts of dates and times use besides the
    digits. *)
Definition is_mark (c : ascii) : Prop :=
  c = "Z"%char \/ c = "+"%char \/ c = "-"%char \/ c = "T"%char
  \/ c = ":"%char \/ c = "."%char \/ c = " "%char.

(** The text of the time of day in [isoformat], and of the fraction. *)
Definition time_text (h mi s : Z) (tail : string) : string :=
  Str.pad_digits 2 h
    (String ":" (Str.pad_digits 2 mi (String ":" (Str.pad_digits 2 s tail)))).

Definition fraction_text (us : Z) : string :=
  if us =? 0 then EmptyString else String "."%char (Str.zfill 6 us).

Definition offset_text (tz : option Z) : string :=
  match tz with
  | Some o => DT.format_offset o
  | None => EmptyString
  end.

(** ** Further sample data *)

Module Cases.

(** A second user, not connected, with a task of her own. *)
Definition eve_id : ObjectId := 2%N.

Definition eve : User.t :=
  User.mk eve_id (Some "eve@example.org"%string) None None None None None
    Sample.prefs_denver.

Definition eve_task : Task.t :=
  Task.mk 31%N "Dentist" "" eve_id None (Some (Sample.at_ 2026 1 21 0 0 0)) None
    (Some "none"%string) (Some "scheduled"%string) [] None
    (Some "ev1"%string) (Val "primary"%string) None (Some true) (Some true)
    (Some (Sample.at_ 2026 1 4 9 0 0)) (Some (Sample.at_ 2026 1 1 8 0 0))
    (Some (Sample.at_ 2026 1 5 9 0 0)).

(** The two users in one store: the connected one with an edited task, the
    other with hers. *)
Definition shared_world : World Sample.Remote :=
  mkWorld (Db.mk [Sample.ana; eve] [Sample.task_edited; eve_task] [] 100%N) tt 0 [].

(** Two unlinked tasks that the service accepts. *)
Definition plain_world : World Sample.Remote :=
  Sample.world Sample.ana (Sample.batch_before ++ Sample.batch_after).

(** The task that the pull phase creates for the event "ev1" in an empty
    store, at the readings 2, 3 and 4 of the clock. *)
Definition task_pulled : Task.t :=
  Task.mk 100%N "Write report" "" Sample.uid None (Some (Sample.at_ 2026 1 20 0 0 0))
    None (Some "none"%string) (Some "scheduled"%string) ["google-calendar"%string]
    (Some (Reminder.mk (Some false) Missing Missing Missing None))
    (Some "ev1"%string) (Val "primary"%string) None (Some true) (Some true)
    (Some (Sample.utcnow_at 2)) (Some (Sample.utcnow_at 3)) (Some (Sample.utcnow_at 4)).

(** A task due on 2026-01-20 at 14:30. *)
Definition task_timed : Task.t :=
  Task.mk 41%N "Review" "" Sample.uid None (Some (Sample.at_ 2026 1 20 0 0 0))
    (Some "14:30"%string) (Some "none"%string) (Some "scheduled"%string) [] None
    None Null None (Some false) (Some true) None
    (Some (Sample.at_ 2026 1 1 8 0 0)) (Some (Sample.at_ 2026 1 1 8 0 0)).

(** The same with a due time that is no time of day. *)
Definition task_mistimed : Task.t :=
  Task.mk 42%N "Review" "" Sample.uid None (Some (Sample.at_ 2026 1 20 0 0 0))
    (Some "25:00"%string) (Some "none"%string) (Some "scheduled"%string) [] None
    None Null None (Some false) (Some true) None
    (Some (Sample.at_ 2026 1 1 8 0 0)) (Some (Sample.at_ 2026 1 1 8 0 0)).

(** A task due on 2026-01-10 at 12:30 with its reminder enabled, a given
    number of minutes ahead. *)
Definition task_reminding (oid : ObjectId) (minutes : Z) : Task.t :=
  Task.mk oid "Stand-up" "" Sample.uid None (Some (Sample.at_ 2026 1 10 0 0 0))
    (Some "12:30"%string) (Some "none"%string) (Some "scheduled"%string) []
    (Some (Reminder.mk (Some true) (Val minutes) (Val true) (Val true) None))
    None Null None (Some false) (Some true) None
    (Some (Sample.at_ 2026 1 1 8 0 0)) (Some (Sample.at_ 2026 1 1 8 0 0)).

Definition subscription : Subscription.t :=
  Subscription.mk (Some "https://push.example.org/send/abc"%string)
    (Some [("p256dh", "BNc"); ("auth", "tBH")]%string).

Definition subscribed (_ : ObjectId) : option Subscription.t := Some subscription.
Definition unsubscribed (_ : ObjectId) : option Subscription.t := None.

Definition webpush_ok
  : string -> list (string * string) -> Payload.t -> string -> string -> result unit :=
  fun _ _ _ _ _ => Ok tt.

Definition desk (tasks : list Task.t) : Desk :=
  mkDesk (Db.mk [Sample.ana] tasks [] 100%N) 0 [].

(** The reminder check and the sending of one reminder, with a key and the
    library in place. *)
Definition check_reminders : Desk -> Desk * result unit :=
  _check_reminders "vapid-key" "mailto:admin@novado.app" true webpush_ok subscribed
    Sample.utcnow_at.

Definition send_reminder : Task.t -> Desk -> Desk :=
  _send_reminder "vapid-key" "mailto:admin@novado.app" true webpush_ok subscribed
    Sample.utcnow_at.

(** The requests in the sample setting. *)
Definition manual_push
  : option ObjectId -> string -> User.t -> World Sample.Remote ->
    World Sample.Remote * response string :=
  push_task_to_calendar Sample.pytz_timezone Sample.creds_fresh
    Sample.creds_refresh_fails Sample.Remote Sample.events_insert
    Sample.events_update Sample.utcnow_at.

Definition push_all
  : string -> User.t -> World Sample.Remote ->
    World Sample.Remote * response (Z * option (list (ObjectId * string * string))) :=
  push_all_tasks_to_calendar Sample.pytz_timezone Sample.creds_fresh
    Sample.creds_refresh_fails Sample.Remote Sample.events_insert Sample.utcnow_at.

Definition sync_all
  : World Sample.Remote -> World Sample.Remote * option (Z * DT.datetime) :=
  _bidirectional_sync_all_users Sample.pytz_timezone Sample.system_utcoffset
    Sample.creds_fresh Sample.creds_refresh_fails Sample.Remote Sample.tie_listing
    Sample.events_insert Sample.events_update Sample.utcnow_at.

End Cases.

(** * Properties *)

(** ** Event mapping: reminders *)

Section MapperProperties.

Variable pytz_timezone : string -> option Tz.t.

Lemma build_reminders (task : Task.t) (prefs : Preferences.t) (body : Body.t) :
  build_google_calendar_event pytz_timezone task prefs = Ok body ->
  Body.reminders body = event_reminders task.
Proof.
  unfold build_google_calendar_event.
  destruct (Task.dueDate task) as [due|]; [|discriminate].
  match goal with |- context [bind ?r _] => destruct r as [span|m] end;
    cbn [bind]; [|discriminate].
  intros H; inversion H; reflexivity.
Qed.

(** The reminders field on any reminder document: it is there exactly when
    [enabled] is true and [notifyMobile] is true or missing (a missing key
    reads as true, [None] does not); the minutes are those of the document,
    30 when the key is missing, and a stored [None] goes out as it is. *)
Lemma event_reminders_spelled (task : Task.t) :
  (event_reminders task <> None <->
     Reminder.enabled (get_reminder task) = Some true
     /\ (Reminder.notifyMobile (get_reminder task) = Val true
         \/ Reminder.notifyMobile (get_reminder task) = Missing))
  /\ (forall r, event_reminders task = Some r ->
        r = Body.mkReminders false
              [Body.mkOverride "popup"
                 (get_default (Reminder.minutesBefore (get_reminder task)) 30)]).
Proof.
  unfold event_reminders.
  destruct (Reminder.enabled (get_reminder task)) as [[|]|];
    destruct (Reminder.notifyMobile (get_reminder task)) as [| |[|]];
    cbn [get_default truthy_bool andb]; split;
    try (split; [intros H; exfalso; apply H; reflexivity
                | intros [H1 [H2|H2]]; congruence]);
    try (split; [intros _; split; [reflexivity|auto] | intros _; discriminate]);
    intros r Hr; congruence.
Qed.


End MapperProperties.

(** ** The store *)

Lemma find_update_first {A : Type} (p : A -> bool) (f : A -> A) (l : list A) :
  (forall x, p (f x) = p x) ->
  find p (Db.update_first p f l) = option_map f (find p l).
Proof.
  intros Hp. induction l as [|x l IH]; cbn; [reflexivity|].
  destruct (p x) eqn:E; cbn.
  - rewrite Hp, E. reflexivity.
  - rewrite E. exact IH.
Qed.

Lemma update_first_length {A : Type} (p : A -> bool) (f : A -> A) (l : list A) :
  List.length (Db.update_first p f l) = List.length l.
Proof.
  induction l as [|x l IH]; cbn; [reflexivity|].
  destruct (p x); cbn; congruence.
Qed.

Lemma task_by_id_update (oid : ObjectId) (f : Task.t -> Task.t) (d : Db.t) :
  (forall x, Task._id (f x) = Task._id x) ->
  task_by_id oid (Db.tasks_update_one oid f d) = option_map f (task_by_id oid d).
Proof.
  intros Hf. unfold task_by_id, Db.tasks_update_one; cbn.
  apply find_update_first. intros x. rewrite Hf. reflexivity.
Qed.

Lemma user_by_id_update (oid : ObjectId) (f : User.t -> User.t) (d : Db.t) :
  (forall x, User._id (f x) = User._id x) ->
  user_by_id oid (Db.users_update_one oid f d) = option_map f (user_by_id oid d).
Proof.
  intros Hf. unfold user_by_id, Db.users_update_one; cbn.
  apply find_update_first. intros x. rewrite Hf. reflexivity.
Qed.

Lemma update_first_none {A : Type} (p : A -> bool) (f : A -> A) (l : list A) :
  (forall x, In x l -> p x = false) -> Db.update_first p f l = l.
Proof.
  induction l as [|x l IH]; intros H; cbn; [reflexivity|].
  rewrite (H x (or_introl eq_refl)). f_equal. apply IH. intros y Hy. apply H. now right.
Qed.

Lemma map_if_none {A : Type} (p : A -> bool) (f : A -> A) (l : list A) :
  (forall x, In x l -> p x = false) -> map (fun y => if p y then f y else y) l = l.
Proof.
  induction l as [|x l IH]; intros H; cbn; [reflexivity|].
  rewrite (H x (or_introl eq_refl)). f_equal. apply IH. intros y Hy. apply H. now right.
Qed.

Lemma tasks_nodup_tail (oid : ObjectId) (x : Task.t) (l : list Task.t) :
  NoDup (map Task._id (x :: l)) -> Task._id x = oid ->
  forall y, In y l -> N.eqb (Task._id y) oid = false.
Proof.
  intros Hnd Hx y Hy. apply N.eqb_neq. intros Heq.
  inversion Hnd as [|? ? Hnotin _]; subst. apply Hnotin.
  rewrite <- Heq. apply in_map. exact Hy.
Qed.

(** With unique identifiers, [update_one] by identifier rewrites exactly the
    document that bears the identifier. *)
Lemma update_first_by_id (oid : ObjectId) (f : Task.t -> Task.t) (l : list Task.t) :
  NoDup (map Task._id l) ->
  Db.update_first (fun x => N.eqb (Task._id x) oid) f l
  = map (fun y => if N.eqb (Task._id y) oid then f y else y) l.
Proof.
  induction l as [|x l IH]; intros Hnd; cbn; [reflexivity|].
  destruct (N.eqb (Task._id x) oid) eqn:E.
  - f_equal. symmetry. apply map_if_none.
    apply (tasks_nodup_tail oid x l Hnd). apply N.eqb_eq. exact E.
  - f_equal. apply IH. inversion Hnd; assumption.
Qed.

Lemma find_by_id_of_In (x : Task.t) (l : list Task.t) :
  NoDup (map Task._id l) -> In x l ->
  find (fun y => N.eqb (Task._id y) (Task._id x)) l = Some x.
Proof.
  induction l as [|y l IH]; intros Hnd Hin; [contradiction|].
  cbn. destruct Hin as [->|Hin].
  - rewrite N.eqb_refl. reflexivity.
  - destruct (N.eqb (Task._id y) (Task._id x)) eqn:E.
    + apply N.eqb_eq in E.
      pose proof (tasks_nodup_tail (Task._id y) y l Hnd eq_refl x Hin) as H.
      rewrite <- E, N.eqb_refl in H. discriminate.
    + apply IH; [inversion Hnd; assumption|exact Hin].
Qed.

Lemma task_by_id_of_In (x : Task.t) (d : Db.t) :
  NoDup (map Task._id (Db.tasks d)) -> In x (Db.tasks d) ->
  task_by_id (Task._id x) d = Some x.
Proof. apply find_by_id_of_In. Qed.

Lemma nodup_id_inj (l : list Task.t) (x y : Task.t) :
  NoDup (map Task._id l) -> In x l -> In y l -> Task._id x = Task._id y -> x = y.
Proof.
  intros Hnd Hx Hy E.
  pose proof (find_by_id_of_In x l Hnd Hx) as H1.
  pose proof (find_by_id_of_In y l Hnd Hy) as H2.
  rewrite E in H1. rewrite H1 in H2. inversion H2. reflexivity.
Qed.

Lemma filter_filter_and {A : Type} (f g : A -> bool) (l : list A) :
  filter f (filter g l) = filter (fun x => g x && f x) l.
Proof.
  induction l as [|x l IH]; cbn; [reflexivity|].
  destruct (g x); cbn; [destruct (f x)|]; rewrite IH; reflexivity.
Qed.

(** With unique identifiers, [delete_one] by identifier removes exactly the
    document that bears the identifier. *)
Lemma delete_first_by_id (oid : ObjectId) (l : list Task.t) :
  NoDup (map Task._id l) ->
  Db.delete_first (fun x => N.eqb (Task._id x) oid) l
  = filter (fun y => negb (N.eqb (Task._id y) oid)) l.
Proof.
  induction l as [|x l IH]; intros Hnd; cbn; [reflexivity|].
  destruct (N.eqb (Task._id x) oid) eqn:E; cbn.
  - symmetry. apply N.eqb_eq in E.
    pose proof (tasks_nodup_tail oid x l Hnd E) as H.
    clear -H. induction l as [|y l IH]; cbn; [reflexivity|].
    rewrite (H y (or_introl eq_refl)). cbn. f_equal. apply IH.
    intros z Hz. apply H. now right.
  - f_equal. apply IH. inversion Hnd; assumption.
Qed.

Lemma nodup_ids_filter (p : Task.t -> bool) (l : list Task.t) :
  NoDup (map Task._id l) -> NoDup (map Task._id (filter p l)).
Proof.
  induction l as [|x l IH]; intros Hnd; cbn; [constructor|].
  inversion Hnd as [|? ? Hnotin Hrest]; subst.
  destruct (p x); cbn; [constructor|]; auto.
  intros Hin. apply Hnotin. apply in_map_iff in Hin.
  destruct Hin as (y & Hy & Hyin). apply in_map_iff. exists y.
  split; [exact Hy|]. apply filter_In in Hyin. apply Hyin.
Qed.

Lemma lex_ltb_irrefl (a : list Z) : DT.lex_ltb a a = false.
Proof.
  induction a as [|x a IH]; cbn; [reflexivity|].
  rewrite Z.ltb_irrefl, Z.eqb_refl, IH. reflexivity.
Qed.

Lemma gtb_irrefl (d : DT.datetime) : DT.gtb d d = false.
Proof. apply lex_ltb_irrefl. Qed.

Section SchedulerProperties.

Variable pytz_timezone : string -> option Tz.t.
Variable system_utcoffset : DT.datetime -> Z.
Variable creds_expired : User.t -> bool.
Variable creds_refresh : User.t -> result (string * option string).
Variable Remote : Type.
Variable events_list : Remote -> string -> string -> string -> result (list Event.t).
Variable events_insert : Remote -> string -> Body.t -> result Event.t * Remote.
Variable events_update :
  Remote -> option string -> string -> Body.t -> result Event.t * Remote.
Variable utcnow_at : nat -> DT.datetime.

Local Abbreviation build := (build_google_calendar_event pytz_timezone).
Local Abbreviation credentials := (get_credentials_from_user creds_expired creds_refresh).
Local Abbreviation pull_event_ := (pull_event pytz_timezone system_utcoffset Remote utcnow_at).
Local Abbreviation pull_events_ := (pull_events pytz_timezone system_utcoffset Remote utcnow_at).
Local Abbreviation pull_calendar_ :=
  (pull_calendar pytz_timezone system_utcoffset Remote events_list utcnow_at).
Local Abbreviation pull_calendars_ :=
  (pull_calendars pytz_timezone system_utcoffset Remote events_list utcnow_at).
Local Abbreviation pull_window_ := (pull_window Remote utcnow_at).
Local Abbreviation pull := (_pull_from_google pytz_timezone system_utcoffset Remote events_list utcnow_at).
Local Abbreviation push_task_ :=
  (push_task pytz_timezone Remote events_insert events_update utcnow_at).
Local Abbreviation push_loop_ :=
  (push_loop pytz_timezone Remote events_insert events_update utcnow_at).
Local Abbreviation push :=
  (_push_to_google pytz_timezone Remote events_insert events_update utcnow_at).
Local Abbreviation phases :=
  (sync_phases pytz_timezone system_utcoffset Remote events_list events_insert
     events_update utcnow_at).
Local Abbreviation cycle :=
  (_sync_user_calendar pytz_timezone system_utcoffset creds_expired creds_refresh
     Remote events_list events_insert events_update utcnow_at).

(** *** Credentials that cannot be had *)

Lemma credentials_none (user : User.t) (d : Db.t) :
  fst (credentials user d) = None -> snd (credentials user d) = d.
Proof.
  unfold get_credentials_from_user.
  destruct (negb (truthy_str (User.googleAccessToken user))); [reflexivity|].
  destruct (creds_expired user && _); [|discriminate].
  destruct (creds_refresh user) as [[tok rtok]|m]; [discriminate|reflexivity].
Qed.

(** C4 (amended).  When no credentials can be had although an access token
    is stored, the cycle clears the stored access token, refresh token and
    token expiry, and nothing else: the calendar selection and the
    [lastCalendarSync] watermark stay, no task is touched, no call is made,
    and the result is [False]. *)
Theorem C4_tokens_cleared (user : User.t) (w : World Remote) :
  fst (credentials user (db w)) = None ->
  truthy_str (User.googleAccessToken user) = true ->
  let w' := fst (cycle user w) in
  snd (cycle user w) = false
  /\ Db.tasks (db w') = Db.tasks (db w)
  /\ trace w' = trace w
  /\ remote w' = remote w
  /\ forall u, user_by_id (User._id user) (db w) = Some u ->
       exists u', user_by_id (User._id user) (db w') = Some u'
         /\ User.googleAccessToken u' = None
         /\ User.googleRefreshToken u' = None
         /\ User.googleTokenExpiry u' = None
         /\ User.googleSelectedCalendars u' = User.googleSelectedCalendars u
         /\ User.lastCalendarSync u' = User.lastCalendarSync u.
Proof.
  intros Hnone Htok.
  pose proof (credentials_none user (db w) Hnone) as Hdb.
  unfold _sync_user_calendar.
  destruct (credentials user (db w)) as [creds d1] eqn:E.
  cbn in Hnone, Hdb. subst creds d1. rewrite Htok.
  cbn [fst snd with_db db trace remote].
  repeat split; try reflexivity.
  intros u Hu. exists (clear_tokens u).
  rewrite user_by_id_update by reflexivity.
  rewrite Hu. cbn. repeat split; reflexivity.
Qed.

(** *** The selection loop of the push phase *)

Lemma scan_tasks_filter (l : list Task.t) (stats : Stats) (acc : list Task.t) :
  snd (scan_tasks l stats acc) = acc ++ filter push_candidate l.
Proof.
  revert stats acc. induction l as [|t l IH]; intros stats acc; cbn [scan_tasks filter].
  - rewrite app_nil_r. reflexivity.
  - unfold push_candidate at 1.
    destruct (truthy_some (Task.dueDate t)); cbn [negb andb]; [|apply IH].
    destruct (terminal_status (Task.status t)); cbn [negb andb]; [apply IH|].
    destruct (truthy_bool (Task.syncToCalendar t)); cbn [negb andb]; [|apply IH].
    destruct (truthy_str (Task.googleEventId t)); cbn [negb orb].
    + destruct (Task.updatedAt t) as [u|], (Task.lastSyncedAt t) as [ls|];
        try apply IH.
      destruct (DT.gtb u ls); [|apply IH].
      rewrite IH, <- app_assoc. reflexivity.
    + rewrite IH, <- app_assoc. reflexivity.
Qed.

Lemma select_tasks_to_push_filter (l : list Task.t) :
  snd (select_tasks_to_push l) = filter push_candidate l.
Proof. unfold select_tasks_to_push. apply scan_tasks_filter. Qed.

Lemma push_candidate_spelled (t : Task.t) :
  push_candidate t = true <->
  Task.syncToCalendar t = Some true
  /\ Task.dueDate t <> None
  /\ terminal_status (Task.status t) = false
  /\ (truthy_str (Task.googleEventId t) = false
      \/ exists u l, Task.updatedAt t = Some u /\ Task.lastSyncedAt t = Some l
                     /\ DT.gtb u l = true).
Proof.
  unfold push_candidate.
  destruct (Task.dueDate t) as [d|]; cbn [truthy_some andb].
  2:{ split; [discriminate|]. intros (_ & H & _). congruence. }
  destruct (terminal_status (Task.status t)); cbn [negb andb].
  1:{ split; [discriminate|]. intros (_ & _ & H & _). discriminate. }
  destruct (Task.syncToCalendar t) as [[|]|]; cbn [truthy_bool andb].
  2,3: split; [discriminate|]; intros (H & _); discriminate.
  destruct (truthy_str (Task.googleEventId t)); cbn [negb orb].
  - destruct (Task.updatedAt t) as [u|], (Task.lastSyncedAt t) as [ls|].
    + split.
      * intros H. repeat split; try congruence. right. exists u, ls. auto.
      * intros (_ & _ & _ & [H | (u' & l' & Hu & Hl & Hg)]); [discriminate|].
        congruence.
    + split; [discriminate|].
      intros (_ & _ & _ & [H | (u' & l' & Hu & Hl & Hg)]); discriminate.
    + split; [discriminate|].
      intros (_ & _ & _ & [H | (u' & l' & Hu & Hl & Hg)]); discriminate.
    + split; [discriminate|].
      intros (_ & _ & _ & [H | (u' & l' & Hu & Hl & Hg)]); discriminate.
  - split; [|reflexivity]. intros _. repeat split; try congruence. left. reflexivity.
Qed.

(** *** One task of the push loop *)

Lemma filter_push_call_app (a b : list effect) :
  filter is_push_call (a ++ b) = filter is_push_call a ++ filter is_push_call b.
Proof. apply filter_app. Qed.

Lemma push_task_calls (prefs : Preferences.t) (cal : string) (t : Task.t)
    (w : World Remote) :
  filter is_push_call (trace (fst (push_task_ prefs cal t w)))
  = filter is_push_call (trace w) ++ push_call pytz_timezone prefs cal t.
Proof.
  unfold push_task, push_call.
  destruct (build t prefs) as [body|m]; cbn [fst trace emit].
  - destruct (Task.googleEventId t) as [[|c r]|].
    + destruct (events_insert (remote w) cal body) as [[ev|m] rem];
        [destruct (Event.id ev)|]; cbn;
        repeat rewrite filter_push_call_app; cbn; rewrite ?app_nil_r; reflexivity.
    + destruct (events_update (remote w) _ (String c r) body) as [[ev|m] rem];
        [destruct (Event.id ev)|]; cbn;
        repeat rewrite filter_push_call_app; cbn; rewrite ?app_nil_r; reflexivity.
    + destruct (events_insert (remote w) cal body) as [[ev|m] rem];
        [destruct (Event.id ev)|]; cbn;
        repeat rewrite filter_push_call_app; cbn; rewrite ?app_nil_r; reflexivity.
  - rewrite filter_push_call_app. cbn. reflexivity.
Qed.

Lemma push_loop_calls (prefs : Preferences.t) (cal : string) (l : list Task.t)
    (w : World Remote) (c : Z) :
  filter is_push_call (trace (fst (push_loop_ prefs cal l w c)))
  = filter is_push_call (trace w) ++ flat_map (push_call pytz_timezone prefs cal) l.
Proof.
  revert w c. induction l as [|t l IH]; intros w c; cbn [push_loop flat_map].
  - rewrite app_nil_r. reflexivity.
  - destruct (push_task_ prefs cal t w) as [w1 ok] eqn:E.
    rewrite IH. pose proof (push_task_calls prefs cal t w) as H.
    rewrite E in H. cbn [fst] in H. rewrite H, app_assoc. reflexivity.
Qed.

Lemma push_phase_calls (user : User.t) (prefs : Preferences.t) (cal : string)
    (w : World Remote) :
  filter is_push_call (trace (fst (push user prefs cal w)))
  = filter is_push_call (trace w)
    ++ flat_map (push_call pytz_timezone prefs cal)
         (filter push_candidate
            (Db.tasks_find (fun t => N.eqb (Task.user t) (User._id user)) (db w))).
Proof.
  unfold _push_to_google.
  pose proof (select_tasks_to_push_filter
                (Db.tasks_find (fun t => N.eqb (Task.user t) (User._id user)) (db w)))
    as Hsel.
  destruct (select_tasks_to_push _) as [stats todo]. cbn [snd] in Hsel. subst todo.
  pose proof (push_loop_calls prefs cal
                (filter push_candidate
                   (Db.tasks_find (fun t => N.eqb (Task.user t) (User._id user)) (db w)))
                w 0) as H.
  destruct (push_loop_ prefs cal _ w 0) as [w1 n].
  cbn [fst] in *. destruct (0 <? n); [|exact H].
  cbn [emit trace]. rewrite filter_push_call_app, H. cbn. apply app_nil_r.
Qed.

Lemma push_loop_app (prefs : Preferences.t) (cal : string) (l1 l2 : list Task.t)
    (w : World Remote) (c : Z) :
  push_loop_ prefs cal (l1 ++ l2) w c
  = push_loop_ prefs cal l2 (fst (push_loop_ prefs cal l1 w c))
      (snd (push_loop_ prefs cal l1 w c)).
Proof.
  revert w c. induction l1 as [|t l1 IH]; intros w c; cbn [push_loop app].
  - reflexivity.
  - destruct (push_task_ prefs cal t w) as [w1 ok]. apply IH.
Qed.

Lemma push_loop_all_succeed (prefs : Preferences.t) (cal : string) (l : list Task.t)
    (w : World Remote) (c : Z) :
  all_succeed pytz_timezone Remote events_insert events_update utcnow_at prefs cal l w
    = true ->
  snd (push_loop_ prefs cal l w c) = c + Z.of_nat (List.length l).
Proof.
  revert w c. induction l as [|t l IH]; intros w c; cbn [push_loop all_succeed List.length].
  - intros _. cbn. lia.
  - destruct (push_task_ prefs cal t w) as [w1 ok].
    intros H. apply andb_true_iff in H. destruct H as [-> H].
    rewrite IH by exact H. lia.
Qed.

Lemma push_task_trace_incl (prefs : Preferences.t) (cal : string) (t : Task.t)
    (w : World Remote) (e : effect) :
  In e (trace w) -> In e (trace (fst (push_task_ prefs cal t w))).
Proof.
  intros H. unfold push_task.
  destruct (build t prefs) as [body|m]; cbn [fst trace emit].
  - destruct (Task.googleEventId t) as [[|c r]|];
      match goal with
      | |- context [events_insert ?a ?b ?c] =>
          destruct (events_insert a b c) as [[ev|m] rem]
      | |- context [events_update ?a ?b ?c ?d] =>
          destruct (events_update a b c d) as [[ev|m] rem]
      end;
      try destruct (Event.id ev); cbn; repeat (apply in_or_app; left); exact H.
  - apply in_or_app. left. exact H.
Qed.

Lemma push_loop_trace_incl (prefs : Preferences.t) (cal : string) (l : list Task.t)
    (w : World Remote) (c : Z) (e : effect) :
  In e (trace w) -> In e (trace (fst (push_loop_ prefs cal l w c))).
Proof.
  revert w c. induction l as [|t l IH]; intros w c H; cbn [push_loop]; [exact H|].
  destruct (push_task_ prefs cal t w) as [w1 ok] eqn:E.
  apply IH. pose proof (push_task_trace_incl prefs cal t w e H) as H'.
  rewrite E in H'. exact H'.
Qed.

Lemma push_task_failure_logged (prefs : Preferences.t) (cal : string) (t : Task.t)
    (w : World Remote) :
  snd (push_task_ prefs cal t w) = false ->
  In (LogPushError (Task._id t)) (trace (fst (push_task_ prefs cal t w))).
Proof.
  unfold push_task.
  destruct (build t prefs) as [body|m]; cbn [fst snd trace emit].
  - destruct (Task.googleEventId t) as [[|c r]|];
      match goal with
      | |- context [events_insert ?a ?b ?c] =>
          destruct (events_insert a b c) as [[ev|m] rem]
      | |- context [events_update ?a ?b ?c ?d] =>
          destruct (events_update a b c d) as [[ev|m] rem]
      end;
      try destruct (Event.id ev); cbn; try discriminate;
      intros _; apply in_or_app; right; left; reflexivity.
  - intros _. apply in_or_app. right. left. reflexivity.
Qed.

(** C1 (amended).  In the push phase a task of the user is selected for a
    push exactly when [syncToCalendar] is true, [dueDate] is present, the
    status is not completed/deleted/skipped, and either [googleEventId] is
    absent (or empty) or [updatedAt] and [lastSyncedAt] are both present with
    [updatedAt] strictly later; a linked task without [lastSyncedAt] is not
    selected.  The remote inserts and updates of the phase are, in order, one
    for each selected task whose event body can be built. *)
Theorem C1_push_eligibility (user : User.t) (prefs : Preferences.t) (cal : string)
    (w : World Remote) :
  let mine := Db.tasks_find (fun t => N.eqb (Task.user t) (User._id user)) (db w) in
  (forall t,
      In t (snd (select_tasks_to_push mine)) <->
      In t (Db.tasks (db w)) /\ Task.user t = User._id user
      /\ Task.syncToCalendar t = Some true
      /\ Task.dueDate t <> None
      /\ terminal_status (Task.status t) = false
      /\ (truthy_str (Task.googleEventId t) = false
          \/ exists u l, Task.updatedAt t = Some u /\ Task.lastSyncedAt t = Some l
                         /\ DT.gtb u l = true))
  /\ filter is_push_call (trace (fst (push user prefs cal w)))
     = filter is_push_call (trace w)
       ++ flat_map (push_call pytz_timezone prefs cal) (snd (select_tasks_to_push mine)).
Proof.
  intros mine. split.
  - intros t. rewrite select_tasks_to_push_filter, filter_In.
    unfold mine, Db.tasks_find. rewrite filter_In, N.eqb_eq, push_candidate_spelled.
    split.
    + intros [[H1 H2] (H3 & H4 & H5 & H6)]. repeat split; assumption.
    + intros (H1 & H2 & H3 & H4 & H5 & H6). repeat split; assumption.
  - unfold _push_to_google. fold mine.
    destruct (select_tasks_to_push mine) as [stats todo]. cbn [snd].
    destruct (push_loop_ prefs cal todo w 0) as [w1 n] eqn:E.
    pose proof (push_loop_calls prefs cal todo w 0) as H. rewrite E in H.
    cbn [fst] in *. destruct (0 <? n); [|exact H].
    cbn [emit trace]. rewrite filter_push_call_app, H. cbn. apply app_nil_r.
Qed.

(** C7.  Each candidate of the push loop is handled on its own: when the
    candidates before [k] and after [k] are pushed with success and [k]
    fails (its body cannot be built, the remote call raises, or the
    bookkeeping fails), the loop goes on with the candidates after [k] from
    the state the failure left, the failure is logged, nothing escapes the
    loop, and the count is the number of candidates less one. *)
Theorem C7_push_isolation (prefs : Preferences.t) (cal : string)
    (before after : list Task.t) (k : Task.t) (w : World Remote) :
  let succeed := all_succeed pytz_timezone Remote events_insert events_update
                   utcnow_at prefs cal in
  let w1 := fst (push_loop_ prefs cal before w 0) in
  let w2 := fst (push_task_ prefs cal k w1) in
  let final := push_loop_ prefs cal (before ++ k :: after) w 0 in
  succeed before w = true ->
  snd (push_task_ prefs cal k w1) = false ->
  succeed after w2 = true ->
  final = push_loop_ prefs cal after w2 (Z.of_nat (List.length before))
  /\ snd final = Z.of_nat (List.length (before ++ k :: after)) - 1
  /\ In (LogPushError (Task._id k)) (trace (fst final))
  /\ filter is_push_call (trace (fst final))
     = filter is_push_call (trace w)
       ++ flat_map (push_call pytz_timezone prefs cal) (before ++ k :: after).
Proof.
  intros succeed w1 w2 final Hb Hk Ha.
  assert (Hfinal : final = push_loop_ prefs cal after w2 (Z.of_nat (List.length before))).
  { unfold final. rewrite push_loop_app. fold w1.
    rewrite (push_loop_all_succeed prefs cal before w 0 Hb).
    cbn [push_loop]. fold w1.
    destruct (push_task_ prefs cal k w1) as [w2' ok] eqn:E.
    cbn [snd] in Hk. subst ok. unfold w2. cbn [fst]. reflexivity. }
  split; [exact Hfinal|]. split; [|split].
  - rewrite Hfinal, (push_loop_all_succeed prefs cal after w2 _ Ha).
    rewrite length_app. cbn [List.length]. lia.
  - rewrite Hfinal. apply push_loop_trace_incl.
    unfold w2. apply push_task_failure_logged. exact Hk.
  - unfold final. apply push_loop_calls.
Qed.

(** C10.  For a linked candidate the remote update is addressed to the
    calendar recorded on the task, whatever the target of the push phase;
    when the update succeeds the stored [googleCalendarId] becomes the
    target of the push phase, so it differs from the recorded calendar - the
    one the event was updated in - whenever the two differ. *)
Theorem C10_recorded_calendar_overwritten (prefs : Preferences.t) (cal : string)
    (task : Task.t) (w : World Remote) (eid recorded : string) (body : Body.t) :
  Task.googleEventId task = Some eid ->
  eid <> EmptyString ->
  Task.googleCalendarId task = Val recorded ->
  task_by_id (Task._id task) (db w) = Some task ->
  build task prefs = Ok body ->
  let w' := fst (push_task_ prefs cal task w) in
  filter is_push_call (trace w')
    = filter is_push_call (trace w) ++ [EventsUpdate (Some recorded) eid body]
  /\ (forall event rem new_id,
        events_update (remote w) (Some recorded) eid body = (Ok event, rem) ->
        Event.id event = Some new_id ->
        snd (push_task_ prefs cal task w) = true
        /\ exists t', task_by_id (Task._id task) (db w') = Some t'
             /\ Task.googleEventId t' = Some new_id
             /\ Task.googleCalendarId t' = Val cal
             /\ (recorded <> cal -> Task.googleCalendarId t' <> Val recorded)).
Proof.
  intros Heid Hne Hrec Hstored Hbody w'.
  destruct eid as [|c r]; [congruence|].
  split.
  - unfold w'. rewrite push_task_calls. unfold push_call.
    rewrite Hbody, Heid, Hrec. reflexivity.
  - intros event rem new_id Hupd Hid.
    unfold w', push_task. rewrite Hbody, Heid, Hrec. cbn [get_default].
    rewrite Hupd, Hid. cbn [fst snd utcnow with_db with_remote emit db].
    split; [reflexivity|].
    rewrite task_by_id_update by reflexivity.
    rewrite Hstored. cbn [option_map].
    eexists. split; [reflexivity|]. cbn.
    repeat split; try reflexivity. intros Hd H. inversion H. congruence.
Qed.

(** *** The pull phase and the user record *)

Lemma pull_event_frame (user : User.t) (cal : string) (event : Event.t)
    (w w' : World Remote) (k : Z) :
  pull_event_ user cal event w = Ok (w', k) ->
  Db.users (db w') = Db.users (db w) /\ remote w' = remote w /\ trace w' = trace w
  /\ (clock w <= clock w')%nat.
Proof.
  unfold pull_event.
  destruct (Event.id event) as [[|c r]|];
    try (intros H; inversion H; subst; repeat split; reflexivity).
  destruct (event_start _ _ event _) as [[[due_date due_time]|]|m]; cbn [bind];
    try discriminate;
    try (intros H; inversion H; subst; repeat split; reflexivity).
  destruct (event_updated_naive event) as [eu|m]; cbn [bind]; try discriminate.
  destruct (Db.tasks_find_one _ (db w)) as [existing|].
  - destruct eu as [eu|], (Task.updatedAt existing) as [tu|];
      try (intros H; inversion H; subst; repeat split; reflexivity).
    destruct (DT.gtb eu tu);
      intros H; inversion H; subst; cbn; repeat split; try reflexivity; lia.
  - intros H; inversion H; subst; cbn; repeat split; try reflexivity; lia.
Qed.

Lemma pull_events_frame (user : User.t) (cal : string) (events : list Event.t)
    (w : World Remote) (c : Z) :
  let w' := fst (fst (pull_events_ user cal events w c)) in
  Db.users (db w') = Db.users (db w) /\ remote w' = remote w /\ trace w' = trace w
  /\ (clock w <= clock w')%nat.
Proof.
  revert w c. induction events as [|e events IH]; intros w c; cbn [pull_events].
  - cbn. repeat split; reflexivity || lia.
  - destruct (pull_event_ user cal e w) as [[w1 k]|m] eqn:E.
    + destruct (pull_event_frame _ _ _ _ _ _ E) as (H1 & H2 & H3 & H4).
      destruct (IH w1 (c + k)) as (I1 & I2 & I3 & I4). cbn zeta in *.
      repeat split; try congruence. lia.
    + cbn. repeat split; reflexivity || lia.
Qed.

Lemma pull_calendar_frame (user : User.t) (tmin tmax cal : string)
    (w : World Remote) (c : Z) :
  let w' := fst (fst (pull_calendar_ user tmin tmax cal w c)) in
  Db.users (db w') = Db.users (db w) /\ remote w' = remote w
  /\ trace w' = trace w ++ [EventsList cal].
Proof.
  unfold pull_calendar.
  destruct (events_list (remote w) cal tmin tmax) as [events|m].
  - destruct (pull_events_frame user cal events (emit (EventsList cal) w) c)
      as (H1 & H2 & H3 & _). cbn zeta in *. rewrite H1, H2, H3. cbn. auto.
  - cbn. auto.
Qed.

Lemma pull_calendars_users (user : User.t) (tmin tmax : string) (cals : list string)
    (w : World Remote) (c : Z) :
  let '(w', _, returned) := pull_calendars_ user tmin tmax cals w c in
  Db.users (db w')
  = if returned
    then Db.update_first (fun x => N.eqb (User._id x) (User._id user))
           clear_credentials (Db.users (db w))
    else Db.users (db w).
Proof.
  revert w c. induction cals as [|cal cals IH]; intros w c; cbn [pull_calendars].
  - reflexivity.
  - pose proof (pull_calendar_frame user tmin tmax cal w c) as H.
    destruct (pull_calendar_ user tmin tmax cal w c) as [[w1 c1] err].
    cbn [fst] in H. destruct H as (H1 & _).
    destruct err as [msg|].
    + destruct (auth_error msg).
      * cbn. rewrite H1. reflexivity.
      * specialize (IH w1 c1).
        destruct (pull_calendars_ user tmin tmax cals w1 c1) as [[w' c'] ret].
        rewrite IH, H1. reflexivity.
    + specialize (IH w1 c1).
      destruct (pull_calendars_ user tmin tmax cals w1 c1) as [[w' c'] ret].
      rewrite IH, H1. reflexivity.
Qed.

Lemma pull_window_db (user : User.t) (w : World Remote) :
  db (fst (pull_window_ user w)) = db w.
Proof.
  unfold pull_window.
  destruct (User.lastCalendarSync user) as [ls|]; cbn.
  - destruct (DT.add_seconds ls (-3600)); cbn; [|reflexivity].
    destruct (DT.add_seconds _ _); reflexivity.
  - destruct (DT.add_seconds _ (-86400)); cbn; [|reflexivity].
    destruct (DT.add_seconds _ _); reflexivity.
Qed.

(** The error that ends the block of one calendar comes from the listing or
    from one of the listed events. *)
Lemma pull_events_error (user : User.t) (cal : string) (events : list Event.t)
    (w : World Remote) (c : Z) (msg : string) :
  snd (pull_events_ user cal events w c) = Some msg ->
  exists e w0, In e events /\ pull_event_ user cal e w0 = Raise msg.
Proof.
  revert w c. induction events as [|e events IH]; intros w c; cbn [pull_events].
  - discriminate.
  - destruct (pull_event_ user cal e w) as [[w1 k]|m] eqn:E.
    + intros H. destruct (IH _ _ H) as (e' & w0 & Hin & Hr).
      exists e', w0. split; [right; exact Hin|exact Hr].
    + intros [= ->]. exists e, w. split; [left; reflexivity|exact E].
Qed.

Lemma pull_calendar_error (user : User.t) (tmin tmax cal : string)
    (w : World Remote) (c : Z) (msg : string) :
  snd (pull_calendar_ user tmin tmax cal w c) = Some msg ->
  events_list (remote w) cal tmin tmax = Raise msg
  \/ exists events e w0,
       events_list (remote w) cal tmin tmax = Ok events
       /\ In e events /\ pull_event_ user cal e w0 = Raise msg.
Proof.
  unfold pull_calendar.
  destruct (events_list (remote w) cal tmin tmax) as [events|m].
  - intros H. right. destruct (pull_events_error _ _ _ _ _ _ H) as (e & w0 & Hin & Hr).
    exists events, e, w0. repeat split; assumption.
  - intros [= ->]. left. reflexivity.
Qed.

(** A listing refused with the revocation signature ends the loop, at that
    calendar or before. *)
Lemma pull_calendars_revoked (user : User.t) (tmin tmax : string) (cals : list string)
    (w : World Remote) (c : Z) (cal msg : string) :
  In cal cals ->
  events_list (remote w) cal tmin tmax = Raise msg ->
  auth_error msg = true ->
  snd (pull_calendars_ user tmin tmax cals w c) = true.
Proof.
  revert w c. induction cals as [|c0 cals IH]; intros w c Hin Hl Ha; [destruct Hin|].
  cbn [pull_calendars].
  pose proof (pull_calendar_frame user tmin tmax c0 w c) as Hf.
  destruct (pull_calendar_ user tmin tmax c0 w c) as [[w1 c1] err] eqn:E.
  cbn [fst] in Hf. destruct Hf as (_ & Hrem & _).
  destruct err as [m|].
  - destruct (auth_error m) eqn:Em; [reflexivity|].
    destruct Hin as [->|Hin].
    + unfold pull_calendar in E. rewrite Hl in E. injection E as _ _ <-. congruence.
    + apply IH; [exact Hin|rewrite Hrem; exact Hl|exact Ha].
  - destruct Hin as [->|Hin].
    + unfold pull_calendar in E. rewrite Hl in E. discriminate.
    + apply IH; [exact Hin|rewrite Hrem; exact Hl|exact Ha].
Qed.

(** Without an error that bears the revocation signature the loop runs to
    its end. *)
Lemma pull_calendars_spared (user : User.t) (tmin tmax : string) (cals : list string)
    (w : World Remote) (c : Z) :
  (forall cal msg, In cal cals ->
     events_list (remote w) cal tmin tmax = Raise msg -> auth_error msg = false) ->
  (forall cal events e w0 msg, In cal cals ->
     events_list (remote w) cal tmin tmax = Ok events -> In e events ->
     pull_event_ user cal e w0 = Raise msg -> auth_error msg = false) ->
  snd (pull_calendars_ user tmin tmax cals w c) = false.
Proof.
  revert w c. induction cals as [|c0 cals IH]; intros w c Hlist Hev; [reflexivity|].
  cbn [pull_calendars].
  pose proof (pull_calendar_frame user tmin tmax c0 w c) as Hf.
  pose proof (pull_calendar_error user tmin tmax c0 w c) as Herr.
  destruct (pull_calendar_ user tmin tmax c0 w c) as [[w1 c1] err].
  cbn [fst snd] in Hf, Herr. destruct Hf as (_ & Hrem & _).
  assert (Hnext : snd (pull_calendars_ user tmin tmax cals w1 c1) = false).
  { apply IH.
    - intros cal msg Hin. rewrite Hrem. apply Hlist. right. exact Hin.
    - intros cal events e w0 msg Hin. rewrite Hrem. apply Hev. right. exact Hin. }
  destruct err as [m|]; [|exact Hnext].
  assert (Hm : auth_error m = false).
  { destruct (Herr m eq_refl) as [Hl|(events & e & w0 & Hl & Hin & Hr)].
    - apply (Hlist c0 m (or_introl eq_refl) Hl).
    - apply (Hev c0 events e w0 m (or_introl eq_refl) Hl Hin Hr). }
  rewrite Hm. exact Hnext.
Qed.

Lemma pull_window_remote (user : User.t) (w : World Remote) :
  remote (fst (pull_window_ user w)) = remote w.
Proof.
  unfold pull_window.
  destruct (User.lastCalendarSync user) as [ls|]; cbn.
  - destruct (DT.add_seconds ls (-3600)); cbn; [|reflexivity].
    destruct (DT.add_seconds _ _); reflexivity.
  - destruct (DT.add_seconds _ (-86400)); cbn; [|reflexivity].
    destruct (DT.add_seconds _ _); reflexivity.
Qed.

(** C5 (amended).  When the loop over the selected calendars runs to its
    end - also when listings failed with an error that does not bear the
    revocation signature, in which case the loop goes on with the next
    calendar - the stored [lastCalendarSync] is set to the time then read.
    When a revocation-signature error ends the loop, the tokens, the expiry
    and the calendar selection are cleared and [lastCalendarSync] is left as
    it was.  The loop ends in that way ([returned]) as soon as the listing of
    a selected calendar is refused with the revocation signature - the
    calendars after it are not listed - and it runs to its end when no
    listing and no listed event raises an error with that signature. *)
Theorem C5_watermark (user : User.t) (cals : list string) (w w2 w3 : World Remote)
    (tmin tmax : string) (cnt : Z) (returned : bool) :
  pull_window_ user w = (w2, Ok (tmin, tmax)) ->
  pull_calendars_ user tmin tmax cals w2 0 = (w3, cnt, returned) ->
  let w' := fst (pull user cals w) in
  snd (pull user cals w) = Ok cnt
  /\ (returned = false ->
      forall u, user_by_id (User._id user) (db w) = Some u ->
        exists u', user_by_id (User._id user) (db w') = Some u'
          /\ User.lastCalendarSync u' = Some (utcnow_at (clock w3))
          /\ User.googleAccessToken u' = User.googleAccessToken u
          /\ User.googleSelectedCalendars u' = User.googleSelectedCalendars u)
  /\ (returned = true ->
      forall u, user_by_id (User._id user) (db w) = Some u ->
        exists u', user_by_id (User._id user) (db w') = Some u'
          /\ User.lastCalendarSync u' = User.lastCalendarSync u
          /\ User.googleAccessToken u' = None
          /\ User.googleRefreshToken u' = None
          /\ User.googleTokenExpiry u' = None
          /\ User.googleSelectedCalendars u' = None)
  /\ (forall cal rest w0 c msg,
        events_list (remote w0) cal tmin tmax = Raise msg ->
        auth_error msg = false ->
        pull_calendars_ user tmin tmax (cal :: rest) w0 c
        = pull_calendars_ user tmin tmax rest (emit (EventsList cal) w0) c)
  /\ (forall cal rest w0 c msg,
        events_list (remote w0) cal tmin tmax = Raise msg ->
        auth_error msg = true ->
        pull_calendars_ user tmin tmax (cal :: rest) w0 c
        = (with_db (Db.users_update_one (User._id user) clear_credentials (db w0))
             (emit (EventsList cal) w0), c, true))
  /\ (forall cal msg,
        In cal cals ->
        events_list (remote w) cal tmin tmax = Raise msg ->
        auth_error msg = true ->
        returned = true)
  /\ ((forall cal msg, In cal cals ->
         events_list (remote w) cal tmin tmax = Raise msg -> auth_error msg = false) ->
      (forall cal events e w0 msg, In cal cals ->
         events_list (remote w) cal tmin tmax = Ok events -> In e events ->
         pull_event_ user cal e w0 = Raise msg -> auth_error msg = false) ->
      returned = false).
Proof.
  intros Hwin Hloop w'.
  pose proof (pull_window_remote user w) as Hrem. rewrite Hwin in Hrem. cbn [fst] in Hrem.
  pose proof (pull_window_db user w) as Hdb. rewrite Hwin in Hdb. cbn [fst] in Hdb.
  pose proof (pull_calendars_users user tmin tmax cals w2 0) as Hu.
  rewrite Hloop in Hu.
  assert (Hfind : forall f, (forall x, User._id (f x) = User._id x) ->
            find (fun x => N.eqb (User._id x) (User._id user))
              (Db.update_first (fun x => N.eqb (User._id x) (User._id user)) f
                 (Db.users (db w)))
            = option_map f (user_by_id (User._id user) (db w))).
  { intros f Hf. apply find_update_first. intros x. rewrite Hf. reflexivity. }
  unfold w', _pull_from_google. rewrite Hwin, Hloop.
  split; [destruct returned; [reflexivity|]|split; [|split; [|split; [|split; [|split]]]]].
  - destruct (0 <? cnt); reflexivity.
  - intros -> u Hfound. rewrite Hdb in Hu.
    exists (set_lastCalendarSync (utcnow_at (clock w3)) u).
    split; [|cbn; repeat split; reflexivity].
    unfold user_by_id at 1.
    destruct (0 <? cnt); cbn [fst utcnow with_db db emit Db.users_update_one Db.users clock];
      rewrite Hu, Hfind by reflexivity; rewrite Hfound; reflexivity.
  - intros -> u Hfound. rewrite Hdb in Hu.
    exists (clear_credentials u).
    split; [|cbn; repeat split; reflexivity].
    unfold user_by_id at 1. cbn [fst]. rewrite Hu, Hfind by reflexivity.
    rewrite Hfound. reflexivity.
  - intros cal rest w0 c msg Hl Ha. cbn [pull_calendars]. unfold pull_calendar.
    rewrite Hl, Ha. reflexivity.
  - intros cal rest w0 c msg Hl Ha. cbn [pull_calendars]. unfold pull_calendar.
    rewrite Hl, Ha. reflexivity.
  - intros cal msg Hin Hl Ha.
    pose proof (pull_calendars_revoked user tmin tmax cals w2 0 cal msg Hin) as H.
    rewrite Hloop, Hrem in H. apply H; assumption.
  - intros Hlist Hev.
    pose proof (pull_calendars_spared user tmin tmax cals w2 0) as H.
    rewrite Hloop, Hrem in H. apply H; assumption.
Qed.

(** *** The conflict rule of the pull phase *)

(** C2 (amended).  For a remote event with an identifier and a start that
    converts, matching a stored task of the user by [googleEventId], with
    both timestamps present: when the event's last-modified time is strictly
    later than the task's [updatedAt], the pull phase overwrites title,
    description, [dueDate] and [dueTime] of that task from the event and sets
    [lastSyncedAt] to now, leaving every other field and every other task as
    they were; when it is not later - in particular when the two are equal -
    the pull phase leaves the world as it was.  (The push phase decides by
    [updatedAt] against [lastSyncedAt] alone, see C1.) *)
Theorem C2_pull_conflict (user : User.t) (cal : string) (event : Event.t)
    (w : World Remote) (existing : Task.t) (eid : string)
    (due_date : DT.datetime) (due_time : option string) (eu tu : DT.datetime) :
  Event.id event = Some eid ->
  eid <> EmptyString ->
  Db.tasks_find_one
    (fun t => N.eqb (Task.user t) (User._id user)
              && Str.eqb_opt (Task.googleEventId t) (Some eid)) (db w)
    = Some existing ->
  NoDup (map Task._id (Db.tasks (db w))) ->
  event_start pytz_timezone system_utcoffset event (User.preferences user)
    = Ok (Some (due_date, due_time)) ->
  event_updated_naive event = Ok (Some eu) ->
  Task.updatedAt existing = Some tu ->
  let now := utcnow_at (clock w) in
  let overwritten :=
    pull_overwrite (summary_or_untitled event) (description_or_empty event)
      due_date due_time now existing in
  (DT.gtb eu tu = true ->
     exists w',
       pull_event_ user cal event w = Ok (w', 1)
       /\ Db.tasks (db w')
          = map (fun t => if N.eqb (Task._id t) (Task._id existing)
                          then overwritten else t) (Db.tasks (db w))
       /\ Task.title overwritten = summary_or_untitled event
       /\ Task.description overwritten = description_or_empty event
       /\ Task.dueDate overwritten = Some due_date
       /\ Task.dueTime overwritten = due_time
       /\ Task.lastSyncedAt overwritten = Some now
       /\ Task.updatedAt overwritten = Some tu
       /\ Task.googleEventId overwritten = Task.googleEventId existing
       /\ Task.googleCalendarId overwritten = Task.googleCalendarId existing)
  /\ (DT.gtb eu tu = false -> pull_event_ user cal event w = Ok (w, 0))
  /\ (eu = tu -> pull_event_ user cal event w = Ok (w, 0)).
Proof.
  intros Hid Hne Hfound Hnd Hstart Hupd Htu now overwritten.
  destruct eid as [|c r]; [congruence|].
  assert (Hin : In existing (Db.tasks (db w))).
  { apply find_some in Hfound. apply Hfound. }
  assert (Hno : DT.gtb eu tu = false -> pull_event_ user cal event w = Ok (w, 0)).
  { intros Hg. unfold pull_event. rewrite Hid, Hstart. cbn [bind].
    rewrite Hupd. cbn [bind]. rewrite Hfound, Htu, Hg. reflexivity. }
  split; [|split; [exact Hno|]].
  - intros Hg. eexists. split.
    + unfold pull_event. rewrite Hid, Hstart. cbn [bind].
      rewrite Hupd. cbn [bind]. rewrite Hfound, Htu, Hg. cbn [utcnow]. reflexivity.
    + split.
      * cbn [with_db db Db.tasks_update_one Db.tasks].
        rewrite update_first_by_id by exact Hnd.
        apply map_ext_in. intros t Ht.
        destruct (N.eqb (Task._id t) (Task._id existing)) eqn:E; [|reflexivity].
        apply N.eqb_eq in E.
        pose proof (task_by_id_of_In t (db w) Hnd Ht) as H1.
        pose proof (task_by_id_of_In existing (db w) Hnd Hin) as H2.
        rewrite E in H1. rewrite H1 in H2. inversion H2. reflexivity.
      * cbn. rewrite Htu. repeat split; reflexivity.
  - intros ->. apply Hno. apply gtb_irrefl.
Qed.

End SchedulerProperties.
(** ** Calendar selection *)

Lemma mem_In (x : string) (l : list string) : Str.mem x l = true <-> In x l.
Proof.
  unfold Str.mem. rewrite existsb_exists. split.
  - intros (y & Hy & E). apply String.eqb_eq in E. subst. exact Hy.
  - intros H. exists x. split; [exact H|apply String.eqb_refl].
Qed.

Lemma fold_delete (deselected : list string) (l : list Task.t) (n : Z) (d : Db.t) :
  NoDup (map Task._id (Db.tasks d)) ->
  let r := fold_left (delete_step deselected) l (n, d) in
  Db.tasks (snd r)
  = filter (fun t => negb (existsb (fun x => N.eqb (Task._id x) (Task._id t))
                             (filter (in_deselected deselected) l)))
      (Db.tasks d)
  /\ fst r = n + Z.of_nat (List.length (filter (in_deselected deselected) l))
  /\ Db.users (snd r) = Db.users d.
Proof.
  revert n d. induction l as [|x l IH]; intros n d Hnd; cbn [fold_left filter].
  - cbn. split; [|split; [lia|reflexivity]].
    symmetry. clear. induction (Db.tasks d) as [|y t IH]; cbn; congruence.
  - cbn zeta. destruct (in_deselected deselected x) eqn:E.
    + assert (Hs : delete_step deselected (n, d) x
                   = (n + 1, Db.tasks_delete_one (Task._id x) d)).
      { unfold delete_step. rewrite E. reflexivity. }
      rewrite Hs.
      assert (Hnd' : NoDup (map Task._id (Db.tasks (Db.tasks_delete_one (Task._id x) d)))).
      { cbn. rewrite delete_first_by_id by exact Hnd. apply nodup_ids_filter, Hnd. }
      destruct (IH (n + 1) (Db.tasks_delete_one (Task._id x) d) Hnd') as (H1 & H2 & H3).
      cbn zeta in *. rewrite H1, H2, H3. split; [|split].
      * cbn [Db.tasks_delete_one Db.tasks].
        rewrite delete_first_by_id by exact Hnd. rewrite filter_filter_and.
        apply filter_ext. intros t. cbn [existsb].
        rewrite negb_orb, (N.eqb_sym (Task._id x)). reflexivity.
      * cbn [List.length]. lia.
      * reflexivity.
    + assert (Hs : delete_step deselected (n, d) x = (n, d)).
      { unfold delete_step. rewrite E. reflexivity. }
      rewrite Hs. apply IH. exact Hnd.
Qed.

(** C8.  A change of the calendar selection deletes exactly the tasks of
    the user whose [googleCalendarId] is among the deselected calendars -
    those previously selected and not newly selected - and leaves every other
    task as it was, in place; the new selection is stored. *)
Theorem C8_deselection_cleanup (calendar_ids : list string) (current_user : User.t)
    (d : Db.t) :
  NoDup (map Task._id (Db.tasks d)) ->
  let deselected :=
    deselected_calendars (selected_or_primary current_user) calendar_ids in
  let doomed (t : Task.t) :=
    N.eqb (Task.user t) (User._id current_user) && in_deselected deselected t in
  let result := select_calendars calendar_ids current_user d in
  (forall c, In c deselected <->
             In c (selected_or_primary current_user) /\ ~ In c calendar_ids)
  /\ (forall t, doomed t = true <->
                Task.user t = User._id current_user
                /\ exists c, Task.googleCalendarId t = Val c /\ In c deselected)
  /\ Db.tasks (snd result) = filter (fun t => negb (doomed t)) (Db.tasks d)
  /\ fst result = Z.of_nat (List.length (filter doomed (Db.tasks d)))
  /\ (forall u, user_by_id (User._id current_user) d = Some u ->
        exists u', user_by_id (User._id current_user) (snd result) = Some u'
          /\ User.googleSelectedCalendars u' = Some calendar_ids).
Proof.
  intros Hnd deselected doomed result.
  assert (Hdes : forall c, In c deselected <->
             In c (selected_or_primary current_user) /\ ~ In c calendar_ids).
  { intros c. unfold deselected, deselected_calendars. rewrite filter_In.
    rewrite negb_true_iff, <- not_true_iff_false, mem_In. tauto. }
  assert (Hdoomed : forall t, doomed t = true <->
                Task.user t = User._id current_user
                /\ exists c, Task.googleCalendarId t = Val c /\ In c deselected).
  { intros t. unfold doomed, in_deselected. rewrite andb_true_iff, N.eqb_eq.
    destruct (Task.googleCalendarId t) as [| |c]; cbn [get].
    - split; [intros [_ H]; discriminate|intros [_ (c & H & _)]; discriminate].
    - split; [intros [_ H]; discriminate|intros [_ (c & H & _)]; discriminate].
    - rewrite mem_In. split.
      + intros [H1 H2]. split; [exact H1|]. exists c. auto.
      + intros [H1 (c' & H2 & H3)]. inversion H2; subst. auto. }
  split; [exact Hdes|]. split; [exact Hdoomed|].
  set (mine := Db.tasks_find (fun t => N.eqb (Task.user t) (User._id current_user)) d).
  pose proof (fold_delete deselected mine 0 d Hnd) as Hfold. cbn zeta in Hfold.
  assert (Hex : forall t, In t (Db.tasks d) ->
            existsb (fun x => N.eqb (Task._id x) (Task._id t))
              (filter (in_deselected deselected) mine) = doomed t).
  { intros t Ht. apply eq_true_iff_eq. rewrite existsb_exists. split.
    - intros (x & Hx & E). apply N.eqb_eq in E.
      apply filter_In in Hx. destruct Hx as [Hx Hxd].
      unfold mine, Db.tasks_find in Hx. apply filter_In in Hx. destruct Hx as [Hx Hxu].
      rewrite (nodup_id_inj _ x t Hnd Hx Ht E) in *.
      unfold doomed. rewrite Hxu, Hxd. reflexivity.
    - intros H. unfold doomed in H. apply andb_true_iff in H. destruct H as [Hu Hd].
      exists t. split; [|apply N.eqb_refl].
      apply filter_In. split; [|exact Hd].
      unfold mine, Db.tasks_find. apply filter_In. auto. }
  assert (Hlen : List.length (filter (in_deselected deselected) mine)
                 = List.length (filter doomed (Db.tasks d))).
  { unfold mine, Db.tasks_find. rewrite filter_filter_and. reflexivity. }
  assert (Hres : result
            = (fst (fold_left (delete_step deselected) mine (0, d)),
               Db.users_update_one (User._id current_user)
                 (set_selected (Some calendar_ids))
                 (snd (fold_left (delete_step deselected) mine (0, d))))).
  { unfold result, select_calendars. fold deselected. fold mine.
    destruct deselected as [|c0 cs] eqn:Ed.
    - assert (Hnone : forall l acc,
                fold_left (delete_step []) l acc = acc).
      { induction l as [|x l IH]; intros acc; cbn [fold_left]; [reflexivity|].
        assert (Hs : delete_step [] acc x = acc).
        { unfold delete_step, in_deselected.
          destruct (get (Task.googleCalendarId x)); reflexivity. }
        rewrite Hs. apply IH. }
      rewrite Hnone. reflexivity.
    - destruct (fold_left (delete_step (c0 :: cs)) mine (0, d)). reflexivity. }
  destruct Hfold as (H1 & H2 & H3).
  rewrite Hres. cbn [fst snd]. split; [|split].
  - cbn [Db.users_update_one Db.tasks]. rewrite H1.
    apply filter_ext_in. intros t Ht. rewrite (Hex t Ht). reflexivity.
  - rewrite H2, Hlen. lia.
  - intros u Hu. exists (set_selected (Some calendar_ids) u).
    split; [|reflexivity].
    unfold user_by_id. cbn [Db.users_update_one Db.users]. rewrite H3.
    rewrite find_update_first by reflexivity.
    unfold user_by_id in Hu. rewrite Hu. reflexivity.
Qed.

(** ** Calendar arithmetic *)

Ltac zdiv := Z.to_euclidean_division_equations; lia.

(** Evaluation of the tests on literals, leaving the arithmetic alone. *)
Ltac tests :=
  cbn [DT.DAYS_BEFORE_MONTH Z.eqb Z.ltb Z.compare Pos.compare Pos.compare_cont
       Pos.eqb andb orb negb].

Lemma days_before_year_cycles (a b c e : Z) :
  0 <= a -> 0 <= b < 4 -> 0 <= c < 25 -> 0 <= e < 4 ->
  DT.days_before_year (400*a + 100*b + 4*c + e + 1)
  = 146097*a + 36524*b + 1461*c + 365*e.
Proof. intros Ha Hb Hc He. unfold DT.days_before_year. cbv zeta. zdiv. Qed.

Lemma year_cycles (y : Z) : 1 <= y ->
  exists a b c e, 0 <= a /\ 0 <= b < 4 /\ 0 <= c < 25 /\ 0 <= e < 4 /\
   y = 400*a + 100*b + 4*c + e + 1.
Proof.
  intros Hy.
  exists ((y-1)/400), (((y-1) mod 400)/100), (((y-1) mod 100)/4), ((y-1) mod 4).
  repeat split; zdiv.
Qed.

Lemma is_leap_decomp (a b c e : Z) :
  0 <= b < 4 -> 0 <= c < 25 -> 0 <= e < 4 ->
  DT.is_leap (400*a + 100*b + 4*c + e + 1)
  = (e =? 3) && (negb (c =? 24) || (b =? 3)).
Proof.
  intros Hb Hc He. unfold DT.is_leap.
  destruct (Z.eqb_spec e 3), (Z.eqb_spec c 24), (Z.eqb_spec b 3);
    repeat match goal with
           | |- context [?x =? 0] => destruct (Z.eqb_spec x 0)
           end; cbn; try reflexivity; exfalso; zdiv.
Qed.

Lemma ord2ymd_common (a b c e doy : Z) :
  0 <= a -> 0 <= b < 4 -> 0 <= c < 25 -> 0 <= e < 4 -> 0 <= doy < 365 ->
  DT.ord2ymd (146097*a + 36524*b + 1461*c + 365*e + doy + 1)
  = let '(m, d) := DT.month_day ((e =? 3) && (negb (c =? 24) || (b =? 3))) doy in
    (400*a + 100*b + 4*c + e + 1, m, d).
Proof.
  intros Ha Hb Hc He Hd. unfold DT.ord2ymd.
  replace (146097*a + 36524*b + 1461*c + 365*e + doy + 1 - 1)
    with (146097*a + 36524*b + 1461*c + 365*e + doy) by lia.
  set (N := 146097*a + 36524*b + 1461*c + 365*e + doy).
  assert (H1 : N / 146097 = a) by (unfold N; zdiv).
  assert (H2 : N mod 146097 = 36524*b + 1461*c + 365*e + doy) by (unfold N; zdiv).
  cbv zeta. rewrite !H1, !H2.
  set (N1 := 36524*b + 1461*c + 365*e + doy).
  assert (H3 : N1 / 36524 = b) by (unfold N1; zdiv).
  assert (H4 : N1 mod 36524 = 1461*c + 365*e + doy) by (unfold N1; zdiv).
  rewrite !H3, !H4.
  set (N2 := 1461*c + 365*e + doy).
  assert (H5 : N2 / 1461 = c) by (unfold N2; zdiv).
  assert (H6 : N2 mod 1461 = 365*e + doy) by (unfold N2; zdiv).
  rewrite !H5, !H6.
  set (N3 := 365*e + doy).
  assert (H7 : N3 / 365 = e) by (unfold N3; zdiv).
  assert (H8 : N3 mod 365 = doy) by (unfold N3; zdiv).
  rewrite !H7, !H8.
  replace (e =? 4) with false by (symmetry; apply Z.eqb_neq; lia).
  replace (b =? 4) with false by (symmetry; apply Z.eqb_neq; lia).
  cbn [orb].
  replace (a * 400 + 1 + b * 100 + c * 4 + e) with (400*a + 100*b + 4*c + e + 1) by lia.
  reflexivity.
Qed.

(** The last day of a leap year. *)
Lemma ord2ymd_leap_end (a b c : Z) :
  0 <= a -> 0 <= b < 4 -> 0 <= c < 25 -> (c <> 24 \/ b = 3) ->
  DT.ord2ymd (146097*a + 36524*b + 1461*c + 365*3 + 365 + 1)
  = (400*a + 100*b + 4*c + 3 + 1, 12, 31).
Proof.
  intros Ha Hb Hc Hleap. unfold DT.ord2ymd.
  replace (146097*a + 36524*b + 1461*c + 365*3 + 365 + 1 - 1)
    with (146097*a + 36524*b + 1461*c + 1460) by lia.
  set (N := 146097*a + 36524*b + 1461*c + 1460).
  assert (H1 : N / 146097 = a) by (unfold N; zdiv).
  assert (H2 : N mod 146097 = 36524*b + 1461*c + 1460) by (unfold N; zdiv).
  cbv zeta. rewrite !H1, !H2.
  destruct (Z.eq_dec c 24) as [->|Hc24].
  - assert (b = 3) by lia. subst b.
    change (36524 * 3 + 1461 * 24 + 1460) with 146096.
    change (146096 / 36524) with 4. change (146096 mod 36524) with 0.
    change (0 / 1461) with 0. change (0 mod 1461) with 0.
    change (0 / 365) with 0. change ((0 =? 4) || (4 =? 4)) with true.
    cbv iota. f_equal. f_equal. lia.
  - set (N1 := 36524*b + 1461*c + 1460).
    assert (H3 : N1 / 36524 = b) by (unfold N1; zdiv).
    assert (H4 : N1 mod 36524 = 1461*c + 1460) by (unfold N1; zdiv).
    rewrite !H3, !H4.
    set (N2 := 1461*c + 1460).
    assert (H5 : N2 / 1461 = c) by (unfold N2; zdiv).
    assert (H6 : N2 mod 1461 = 1460) by (unfold N2; zdiv).
    rewrite !H5, !H6.
    change (1460 / 365) with 4. change (4 =? 4) with true. cbn [orb].
    f_equal. f_equal. lia.
Qed.

Lemma month_day_of_date (leap : bool) (m d : Z) :
  1 <= m <= 12 ->
  1 <= d <= (if m =? 2 then (if leap then 29 else 28)
             else if (m =? 4) || (m =? 6) || (m =? 9) || (m =? 11) then 30
             else 31) ->
  DT.month_day leap (DT.DAYS_BEFORE_MONTH m + (if (2 <? m) && leap then 1 else 0) + d - 1)
  = (m, d).
Proof.
  intros Hm Hd.
  assert (Hcases : m = 1 \/ m = 2 \/ m = 3 \/ m = 4 \/ m = 5 \/ m = 6 \/ m = 7
                   \/ m = 8 \/ m = 9 \/ m = 10 \/ m = 11 \/ m = 12) by lia.
  unfold DT.month_day.
  repeat (destruct Hcases as [->|Hcases]); try subst m; destruct leap;
    cbn in Hd; cbn [DT.DAYS_BEFORE_MONTH Z.ltb Z.compare Pos.compare Pos.compare_cont andb];
    match goal with
    | |- context [(?n + 50) / 32] =>
        let doy := fresh "doy" in
        let v := fresh "v" in
        remember n as doy eqn:Hdoy;
        remember ((doy + 50) / 32) as v eqn:Hv;
        assert (Hvc : v = 1 \/ v = 2 \/ v = 3 \/ v = 4 \/ v = 5 \/ v = 6 \/ v = 7
                   \/ v = 8 \/ v = 9 \/ v = 10 \/ v = 11 \/ v = 12 \/ v = 13)
          by (subst v; zdiv);
        repeat (destruct Hvc as [Hvc|Hvc]); try (exfalso; subst v; zdiv);
        rewrite Hvc; cbn;
        match goal with
        | |- context [?x <? ?y] =>
            destruct (Z.ltb_spec x y); try (exfalso; subst v; zdiv)
        end;
        f_equal; lia
    end.
Qed.

Lemma date_of_month_day (leap : bool) (doy m d : Z) :
  0 <= doy < 365 ->
  DT.month_day leap doy = (m, d) ->
  1 <= m <= 12
  /\ 1 <= d <= (if m =? 2 then (if leap then 29 else 28)
                else if (m =? 4) || (m =? 6) || (m =? 9) || (m =? 11) then 30
                else 31)
  /\ DT.DAYS_BEFORE_MONTH m + (if (2 <? m) && leap then 1 else 0) + d - 1 = doy.
Proof.
  intros Hdoy. unfold DT.month_day.
  remember ((doy + 50) / 32) as v eqn:Hv.
  assert (Hvc : v = 1 \/ v = 2 \/ v = 3 \/ v = 4 \/ v = 5 \/ v = 6 \/ v = 7
                \/ v = 8 \/ v = 9 \/ v = 10 \/ v = 11 \/ v = 12)
    by (subst v; zdiv).
  repeat (destruct Hvc as [Hvc|Hvc]); rewrite Hvc in *; destruct leap; cbn;
    match goal with
    | |- context [doy <? ?y] => destruct (Z.ltb_spec doy y)
    end;
    intros Heq; inversion Heq; subst m d;
    cbn [DT.DAYS_BEFORE_MONTH Z.eqb Z.ltb Z.compare Pos.compare Pos.compare_cont
         Pos.eqb andb orb];
    repeat split; try lia; zdiv.
Qed.

Lemma valid_date_bounds (y m d : Z) :
  DT.valid_date y m d = true <->
  1 <= y <= 9999 /\ 1 <= m <= 12 /\ 1 <= d <= DT.days_in_month y m.
Proof.
  unfold DT.valid_date, DT.MINYEAR, DT.MAXYEAR.
  rewrite !andb_true_iff, !Z.leb_le. tauto.
Qed.

Lemma day_of_year_bound (leap : bool) (m d : Z) :
  1 <= m <= 12 ->
  1 <= d <= (if m =? 2 then (if leap then 29 else 28)
             else if (m =? 4) || (m =? 6) || (m =? 9) || (m =? 11) then 30
             else 31) ->
  let doy := DT.DAYS_BEFORE_MONTH m + (if (2 <? m) && leap then 1 else 0) + d - 1 in
  0 <= doy < 365 \/ (doy = 365 /\ leap = true).
Proof.
  intros Hm Hd.
  assert (Hcases : m = 1 \/ m = 2 \/ m = 3 \/ m = 4 \/ m = 5 \/ m = 6 \/ m = 7
                   \/ m = 8 \/ m = 9 \/ m = 10 \/ m = 11 \/ m = 12) by lia.
  repeat (destruct Hcases as [->|Hcases]); try subst m; destruct leap;
    cbn in Hd;
    cbn [DT.DAYS_BEFORE_MONTH Z.eqb Z.ltb Z.compare Pos.compare Pos.compare_cont
         Pos.eqb andb orb];
    lia.
Qed.

(** The date of the ordinal of a date is that date. *)
Lemma ord2ymd_ymd2ord (y m d : Z) :
  1 <= y -> 1 <= m <= 12 -> 1 <= d <= DT.days_in_month y m ->
  DT.ord2ymd (DT.ymd2ord y m d) = (y, m, d).
Proof.
  intros Hy Hm Hd.
  destruct (year_cycles y Hy) as (a & b & c & e & Ha & Hb & Hc & He & ->).
  unfold DT.ymd2ord, DT.days_before_month.
  unfold DT.days_in_month in Hd.
  rewrite days_before_year_cycles by assumption.
  rewrite is_leap_decomp in * by assumption.
  set (leap := (e =? 3) && (negb (c =? 24) || (b =? 3))) in *.
  pose proof (day_of_year_bound leap m d Hm Hd) as Hdoy. cbv zeta in Hdoy.
  destruct Hdoy as [Hdoy|[Hdoy Hleap]].
  - replace (146097*a + 36524*b + 1461*c + 365*e
             + (DT.DAYS_BEFORE_MONTH m + (if (2 <? m) && leap then 1 else 0)) + d)
      with (146097*a + 36524*b + 1461*c + 365*e
            + (DT.DAYS_BEFORE_MONTH m + (if (2 <? m) && leap then 1 else 0) + d - 1) + 1)
      by lia.
    rewrite ord2ymd_common by assumption. fold leap.
    rewrite month_day_of_date by assumption. reflexivity.
  - assert (Hmd : m = 12 /\ d = 31).
    { assert (Hcases : m = 1 \/ m = 2 \/ m = 3 \/ m = 4 \/ m = 5 \/ m = 6 \/ m = 7
                   \/ m = 8 \/ m = 9 \/ m = 10 \/ m = 11 \/ m = 12) by lia.
      rewrite Hleap in *.
      repeat (destruct Hcases as [->|Hcases]); try subst m;
        cbn [DT.DAYS_BEFORE_MONTH Z.eqb Z.ltb Z.compare Pos.compare Pos.compare_cont
             Pos.eqb andb orb] in Hd, Hdoy;
        lia. }
    destruct Hmd as [-> ->].
    unfold leap in Hleap. apply andb_true_iff in Hleap. destruct Hleap as [He3 Hcb].
    apply Z.eqb_eq in He3. subst e.
    assert (Hcb' : c <> 24 \/ b = 3).
    { apply orb_true_iff in Hcb. destruct Hcb as [H|H].
      - left. apply negb_true_iff, Z.eqb_neq in H. exact H.
      - right. apply Z.eqb_eq. exact H. }
    replace (146097*a + 36524*b + 1461*c + 365*3
             + (DT.DAYS_BEFORE_MONTH 12 + (if (2 <? 12) && leap then 1 else 0)) + 31)
      with (146097*a + 36524*b + 1461*c + 365*3 + 365 + 1).
    + apply ord2ymd_leap_end; assumption.
    + unfold leap. change (3 =? 3) with true. rewrite Hcb. cbn. lia.
Qed.

(** The ordinal of the date of an ordinal is that ordinal, and the date is a
    date of the calendar. *)
Lemma ymd2ord_ord2ymd (n y m d : Z) :
  1 <= n -> DT.ord2ymd n = (y, m, d) ->
  1 <= y /\ 1 <= m <= 12 /\ 1 <= d <= DT.days_in_month y m
  /\ DT.ymd2ord y m d = n.
Proof.
  intros Hn.
  remember (n - 1) as N eqn:EN.
  remember (N / 146097) as a eqn:Ea. remember (N mod 146097) as r1 eqn:Er1.
  remember (r1 / 36524) as b eqn:Eb. remember (r1 mod 36524) as r2 eqn:Er2.
  remember (r2 / 1461) as c eqn:Ec. remember (r2 mod 1461) as r3 eqn:Er3.
  remember (r3 / 365) as e eqn:Ee. remember (r3 mod 365) as doy eqn:Edoy.
  assert (Ha : 0 <= a) by zdiv.
  assert (Hb : 0 <= b <= 4) by zdiv.
  assert (Hc : 0 <= c < 25) by zdiv.
  assert (He : 0 <= e <= 4) by zdiv.
  assert (Hdoy : 0 <= doy < 365) by zdiv.
  assert (HN : n = 146097*a + 36524*b + 1461*c + 365*e + doy + 1) by zdiv.
  destruct (Z.eq_dec b 4) as [Hb4|Hb4].
  - assert (Hrest : c = 0 /\ e = 0 /\ doy = 0) by zdiv.
    destruct Hrest as (Hc0 & He0 & Hd0).
    rewrite HN, Hb4, Hc0, He0, Hd0.
    replace (146097*a + 36524*4 + 1461*0 + 365*0 + 0 + 1)
      with (146097*a + 36524*3 + 1461*24 + 365*3 + 365 + 1) by lia.
    rewrite ord2ymd_leap_end by lia.
    intros H; apply pair_equal_spec in H; destruct H as [H <-];
      apply pair_equal_spec in H; destruct H as [<- <-].
    unfold DT.ymd2ord, DT.days_before_month, DT.days_in_month.
    rewrite days_before_year_cycles by lia.
    rewrite is_leap_decomp by lia. tests. lia.
  - destruct (Z.eq_dec e 4) as [He4|He4].
    + assert (Hrest : doy = 0 /\ c <> 24) by zdiv.
      destruct Hrest as (Hd0 & Hc24).
      rewrite HN, He4, Hd0.
      replace (146097*a + 36524*b + 1461*c + 365*4 + 0 + 1)
        with (146097*a + 36524*b + 1461*c + 365*3 + 365 + 1) by lia.
      rewrite ord2ymd_leap_end by lia.
      intros H; apply pair_equal_spec in H; destruct H as [H <-];
      apply pair_equal_spec in H; destruct H as [<- <-].
      unfold DT.ymd2ord, DT.days_before_month, DT.days_in_month.
      rewrite days_before_year_cycles by lia.
      rewrite is_leap_decomp by lia.
      change (3 =? 3) with true.
      replace (c =? 24) with false by (symmetry; apply Z.eqb_neq; exact Hc24).
      tests. lia.
    + rewrite HN. rewrite ord2ymd_common by lia.
      destruct (DT.month_day _ doy) as [m' d'] eqn:Emd.
      intros H; apply pair_equal_spec in H; destruct H as [H <-];
      apply pair_equal_spec in H; destruct H as [<- <-].
      destruct (date_of_month_day _ doy m' d' Hdoy Emd) as (Hm & Hd & Hsum).
      unfold DT.ymd2ord, DT.days_before_month, DT.days_in_month.
      rewrite days_before_year_cycles by lia.
      rewrite is_leap_decomp by lia.
      tests. repeat split; try lia.
Qed.

Lemma ymd2ord_range (y m d : Z) :
  DT.valid_date y m d = true -> 1 <= DT.ymd2ord y m d <= DT.MAXORDINAL.
Proof.
  intros Hv. apply valid_date_bounds in Hv. destruct Hv as (Hy & Hm & Hd).
  destruct (year_cycles y (proj1 Hy)) as (a & b & c & e & Ha & Hb & Hc & He & ->).
  unfold DT.ymd2ord, DT.days_before_month, DT.MAXORDINAL.
  unfold DT.days_in_month in Hd.
  rewrite days_before_year_cycles by assumption.
  rewrite is_leap_decomp in * by assumption.
  pose proof (day_of_year_bound _ m d Hm Hd) as Hdoy. cbv zeta in Hdoy.
  destruct Hdoy as [Hdoy|[Hdoy Hleap]]; [lia|].
  apply andb_true_iff in Hleap. destruct Hleap as [He3 _].
  apply Z.eqb_eq in He3. lia.
Qed.

Lemma time_of_seconds (h mi s : Z) :
  0 <= h < 24 -> 0 <= mi < 60 -> 0 <= s < 60 ->
  let t := h * 3600 + mi * 60 + s in
  t / 3600 = h /\ (t mod 3600) / 60 = mi /\ t mod 60 = s /\ 0 <= t < 86400.
Proof. intros Hh Hmi Hs. cbv zeta. repeat split; zdiv. Qed.

Lemma seconds_of_time (r : Z) :
  0 <= r < 86400 ->
  r / 3600 * 3600 + (r mod 3600) / 60 * 60 + r mod 60 = r.
Proof. intros Hr. zdiv. Qed.

Lemma valid_time_bounds (h mi s us : Z) :
  DT.valid_time h mi s us = true <->
  0 <= h < 24 /\ 0 <= mi < 60 /\ 0 <= s < 60 /\ 0 <= us < 1000000.
Proof.
  unfold DT.valid_time.
  rewrite !andb_true_iff, !Z.leb_le, !Z.ltb_lt. tauto.
Qed.

(** Moving a value by an offset and back gives the value again. *)
Lemma add_seconds_back (d u : DT.datetime) (o : Z) :
  DT.valid d = true ->
  DT.add_seconds d (- o) = Ok u ->
  DT.add_seconds u o = Ok d.
Proof.
  destruct d as [y m dd h mi s us tz].
  unfold DT.valid. cbn [DT.year DT.month DT.day DT.hour DT.minute DT.second DT.microsecond].
  intros Hv. apply andb_true_iff in Hv. destruct Hv as [Hdate Htime].
  pose proof (ymd2ord_range y m dd Hdate) as Hord.
  apply valid_date_bounds in Hdate. destruct Hdate as (Hy & Hm & Hd).
  apply valid_time_bounds in Htime. destruct Htime as (Hh & Hmi & Hs & Hus).
  pose proof (time_of_seconds h mi s Hh Hmi Hs) as Ht. cbv zeta in Ht.
  destruct Ht as (Ht1 & Ht2 & Ht3 & Ht4).
  unfold DT.add_seconds at 1, DT.toordinal.
  cbn [DT.year DT.month DT.day DT.hour DT.minute DT.second DT.microsecond DT.tzinfo].
  remember (h * 3600 + mi * 60 + s) as T eqn:ET.
  remember (DT.ymd2ord y m dd) as ord eqn:Eord.
  remember ((T + - o) / 86400) as q eqn:Eq.
  remember ((T + - o) mod 86400) as r eqn:Er.
  destruct ((0 <? ord + q) && (ord + q <=? DT.MAXORDINAL)) eqn:Erange; [|discriminate].
  apply andb_true_iff in Erange. destruct Erange as [Hlo Hhi].
  apply Z.ltb_lt in Hlo. apply Z.leb_le in Hhi.
  destruct (DT.ord2ymd (ord + q)) as [[y1 m1] d1] eqn:Eymd.
  intros Hu. injection Hu as <-.
  destruct (ymd2ord_ord2ymd (ord + q) y1 m1 d1 ltac:(lia) Eymd) as (_ & _ & _ & Hback).
  unfold DT.add_seconds, DT.toordinal.
  cbn [DT.year DT.month DT.day DT.hour DT.minute DT.second DT.microsecond DT.tzinfo].
  rewrite Hback.
  assert (Hr : 0 <= r < 86400) by zdiv.
  rewrite (seconds_of_time r Hr).
  assert (Hq : (r + o) / 86400 = - q) by zdiv.
  assert (Hr' : (r + o) mod 86400 = T) by zdiv.
  rewrite Hq, Hr'.
  replace (ord + q + - q) with ord by lia.
  unfold DT.MAXORDINAL in *.
  replace ((0 <? ord) && (ord <=? 3652059)) with true
    by (symmetry; apply andb_true_iff; split; [apply Z.ltb_lt|apply Z.leb_le]; lia).
  rewrite Eord, ord2ymd_ymd2ord by lia.
  rewrite Ht1, Ht2, Ht3. reflexivity.
Qed.

(** ** Time conversion *)

Lemma fromisoformat_valid (s : string) (d : DT.datetime) :
  DT.fromisoformat s = Ok d -> DT.valid d = true.
Proof.
  unfold DT.fromisoformat, DT.valid.
  destruct (DT.parse_date s) as [[[[y m] dd] rest]|]; [|discriminate].
  destruct (DT.valid_date y m dd) eqn:Ed; cbn [negb]; [|discriminate].
  destruct rest as [|sep timestr].
  - intros [= <-]. cbn. rewrite Ed. reflexivity.
  - destruct (DT.split_tz timestr) as [t z].
    destruct (DT.parse_hh_mm_ss_ff t) as [[[[h mi] sec] us]|]; [|discriminate].
    destruct (DT.valid_time h mi sec us) eqn:Et; cbn [negb]; [|discriminate].
    destruct z as [[sign ztext]|].
    + destruct (DT.parse_offset sign ztext); [|discriminate].
      intros [= <-]. cbn. rewrite Ed, Et. reflexivity.
    + intros [= <-]. cbn. rewrite Ed, Et. reflexivity.
Qed.

Section ConversionProperties.

Variable pytz_timezone : string -> option Tz.t.
Variable system_utcoffset : DT.datetime -> Z.

Local Abbreviation convert := (convert_event_time_to_user_tz pytz_timezone system_utcoffset).
Local Abbreviation zone_of := (timezone_or_UTC pytz_timezone).

(** A naive time string is read as wall-clock time of the zone: when that
    wall-clock time exists in the zone, it comes back unchanged. *)
Lemma convert_in_zone_naive (tz : Tz.t) (s : string) (naive utc : DT.datetime) :
  has_tz_marker s = false ->
  DT.fromisoformat s = Ok naive ->
  DT.tzinfo naive = None ->
  DT.add_seconds naive (- Tz.utcoffset_local tz naive) = Ok utc ->
  Tz.utcoffset_utc tz utc = Tz.utcoffset_local tz naive ->
  convert_in_zone system_utcoffset tz s
  = Ok (DT.midnight naive, DT.strftime_HM naive).
Proof.
  intros Hmark Hparse Hnaive Hutc Hoff.
  pose proof (fromisoformat_valid s naive Hparse) as Hvalid.
  unfold has_tz_marker in Hmark.
  apply orb_false_iff in Hmark. destruct Hmark as [Hmark H3].
  apply orb_false_iff in Hmark. destruct Hmark as [H1 H2].
  unfold convert_in_zone. rewrite H1, H2, H3. cbn [orb].
  rewrite Hparse. cbn [bind]. unfold Tz.localize. rewrite Hnaive. cbn [bind].
  unfold Tz.astimezone, DT.replace_tzinfo.
  cbn [DT.tzinfo DT.year DT.month DT.day DT.hour DT.minute DT.second DT.microsecond].
  assert (Heta : DT.mk (DT.year naive) (DT.month naive) (DT.day naive) (DT.hour naive)
                   (DT.minute naive) (DT.second naive) (DT.microsecond naive) None
                 = naive).
  { destruct naive; cbn in *; subst; reflexivity. }
  rewrite Heta, Hutc. cbn [bind]. unfold Tz.fromutc. rewrite Hoff.
  rewrite (add_seconds_back naive utc _ Hvalid Hutc). cbn [bind].
  reflexivity.
Qed.

(** C6.  A time string without a zone marker is read as being in the
    user's configured zone: whenever that wall-clock time exists in the
    zone, the conversion returns its own date and its own HH:MM.  For
    "2026-01-09T14:30:00" and America/Denver (UTC-7 in January) the result
    is 2026-01-09 and "14:30", whereas the same text with a "Z" is moved by
    the offset of Denver at that instant, to "07:30".  A zone name that
    [pytz] does not know makes the conversion run in UTC. *)
Theorem C6_naive_time_is_local :
  (forall prefs s naive utc,
      has_tz_marker s = false ->
      DT.fromisoformat s = Ok naive ->
      DT.tzinfo naive = None ->
      let tz := zone_of (get_default (Preferences.timezone prefs) "UTC"%string) in
      DT.add_seconds naive (- Tz.utcoffset_local tz naive) = Ok utc ->
      Tz.utcoffset_utc tz utc = Tz.utcoffset_local tz naive ->
      convert s prefs = Ok (DT.midnight naive, DT.strftime_HM naive))
  /\ (forall denver,
        pytz_timezone "America/Denver" = Some denver ->
        Tz.utcoffset_local denver (DT.mk 2026 1 9 14 30 0 0 None) = -25200 ->
        Tz.utcoffset_utc denver (DT.mk 2026 1 9 21 30 0 0 None) = -25200 ->
        convert "2026-01-09T14:30:00" (Preferences.mk (Val "America/Denver"%string))
        = Ok (DT.mk 2026 1 9 0 0 0 0 None, "14:30"%string))
  /\ (forall denver shifted,
        pytz_timezone "America/Denver" = Some denver ->
        DT.add_seconds (DT.mk 2026 1 9 14 30 0 0 None)
          (Tz.utcoffset_utc denver (DT.mk 2026 1 9 14 30 0 0 None)) = Ok shifted ->
        convert "2026-01-09T14:30:00Z" (Preferences.mk (Val "America/Denver"%string))
        = Ok (DT.midnight shifted, DT.strftime_HM shifted))
  /\ (forall denver,
        pytz_timezone "America/Denver" = Some denver ->
        Tz.utcoffset_utc denver (DT.mk 2026 1 9 14 30 0 0 None) = -25200 ->
        convert "2026-01-09T14:30:00Z" (Preferences.mk (Val "America/Denver"%string))
        = Ok (DT.mk 2026 1 9 0 0 0 0 None, "07:30"%string))
  /\ (forall name s,
        pytz_timezone name = None ->
        convert s (Preferences.mk (Val name)) = convert_in_zone system_utcoffset Tz.UTC s)
  /\ convert_in_zone system_utcoffset Tz.UTC "2026-01-09T14:30:00"
     = Ok (DT.mk 2026 1 9 0 0 0 0 None, "14:30"%string).
Proof.
  assert (Hz : forall denver shifted,
        pytz_timezone "America/Denver" = Some denver ->
        DT.add_seconds (DT.mk 2026 1 9 14 30 0 0 None)
          (Tz.utcoffset_utc denver (DT.mk 2026 1 9 14 30 0 0 None)) = Ok shifted ->
        convert "2026-01-09T14:30:00Z" (Preferences.mk (Val "America/Denver"%string))
        = Ok (DT.midnight shifted, DT.strftime_HM shifted)).
  { intros denver shifted Hd Hs.
    unfold convert_event_time_to_user_tz. cbn [get_default Preferences.timezone].
    unfold timezone_or_UTC. rewrite Hd.
    unfold convert_in_zone.
    change (Str.endswith_char "Z" "2026-01-09T14:30:00Z") with true. cbv iota.
    change (DT.fromisoformat (Str.replace_char "Z" "+00:00" "2026-01-09T14:30:00Z"))
      with (Ok (A := DT.datetime) (DT.mk 2026 1 9 14 30 0 0 (Some 0))).
    cbn [bind]. unfold Tz.astimezone. cbn [DT.tzinfo DT.replace_tzinfo].
    change (DT.add_seconds _ (- 0))
      with (Ok (A := DT.datetime) (DT.mk 2026 1 9 14 30 0 0 None)).
    cbn [bind]. unfold Tz.fromutc. rewrite Hs. reflexivity. }
  split; [|split; [|split; [exact Hz|split; [|split]]]].
  - intros prefs s naive utc Hmark Hparse Hnaive tz Hutc Hoff.
    unfold convert_event_time_to_user_tz.
    apply (convert_in_zone_naive _ s naive utc); assumption.
  - intros denver Hd Hlocal Hutc.
    unfold convert_event_time_to_user_tz. cbn [get_default Preferences.timezone].
    unfold timezone_or_UTC. rewrite Hd.
    apply (convert_in_zone_naive denver "2026-01-09T14:30:00"
             (DT.mk 2026 1 9 14 30 0 0 None) (DT.mk 2026 1 9 21 30 0 0 None)).
    + reflexivity.
    + reflexivity.
    + reflexivity.
    + rewrite Hlocal. reflexivity.
    + rewrite Hlocal. exact Hutc.
  - intros denver Hd Hoff.
    rewrite (Hz denver (DT.mk 2026 1 9 7 30 0 0 None) Hd).
    + reflexivity.
    + rewrite Hoff. reflexivity.
  - intros name s Hnone.
    unfold convert_event_time_to_user_tz. cbn [get_default Preferences.timezone].
    unfold timezone_or_UTC. rewrite Hnone. reflexivity.
  - reflexivity.
Qed.

End ConversionProperties.

(** ** Two runs in a row *)

Section TwoRuns.

Variable pytz_timezone : string -> option Tz.t.
Variable system_utcoffset : DT.datetime -> Z.
Variable creds_expired : User.t -> bool.
Variable creds_refresh : User.t -> result (string * option string).
Variable Remote : Type.
Variable events_list : Remote -> string -> string -> string -> result (list Event.t).
Variable events_insert : Remote -> string -> Body.t -> result Event.t * Remote.
Variable events_update :
  Remote -> option string -> string -> Body.t -> result Event.t * Remote.
Variable utcnow_at : nat -> DT.datetime.

Local Abbreviation build := (build_google_calendar_event pytz_timezone).
Local Abbreviation credentials := (get_credentials_from_user creds_expired creds_refresh).
Local Abbreviation pull_event_ := (pull_event pytz_timezone system_utcoffset Remote utcnow_at).
Local Abbreviation pull_events_ := (pull_events pytz_timezone system_utcoffset Remote utcnow_at).
Local Abbreviation pull_calendar_ :=
  (pull_calendar pytz_timezone system_utcoffset Remote events_list utcnow_at).
Local Abbreviation pull_calendars_ :=
  (pull_calendars pytz_timezone system_utcoffset Remote events_list utcnow_at).
Local Abbreviation pull_window_ := (pull_window Remote utcnow_at).
Local Abbreviation pull := (_pull_from_google pytz_timezone system_utcoffset Remote events_list utcnow_at).
Local Abbreviation push_task_ :=
  (push_task pytz_timezone Remote events_insert events_update utcnow_at).
Local Abbreviation push_loop_ :=
  (push_loop pytz_timezone Remote events_insert events_update utcnow_at).
Local Abbreviation push :=
  (_push_to_google pytz_timezone Remote events_insert events_update utcnow_at).
Local Abbreviation phases :=
  (sync_phases pytz_timezone system_utcoffset Remote events_list events_insert
     events_update utcnow_at).
Local Abbreviation cycle :=
  (_sync_user_calendar pytz_timezone system_utcoffset creds_expired creds_refresh
     Remote events_list events_insert events_update utcnow_at).
Local Abbreviation not_ahead_ := (not_ahead Remote utcnow_at).
Local Abbreviation orderly_ := (orderly Remote utcnow_at).
Local Abbreviation quiet_ := (quiet Remote utcnow_at).
Local Abbreviation pull_step_ := (pull_step Remote utcnow_at).
Local Abbreviation monotone_clock_ := (monotone_clock utcnow_at).
Local Abbreviation answers_with_id_ := (answers_with_id Remote events_insert events_update).

Lemma eqb_opt_some (a : option string) (b : string) :
  Str.eqb_opt a (Some b) = true <-> a = Some b.
Proof.
  destruct a as [x|]; cbn; [|split; discriminate].
  rewrite String.eqb_eq. split; congruence.
Qed.

Lemma pull_event_step (user : User.t) (cal : string) (event : Event.t)
    (w w' : World Remote) (k : Z) :
  pull_event_ user cal event w = Ok (w', k) -> pull_step_ (User._id user) event w w'.
Proof.
  unfold pull_event, utcnow.
  destruct (Event.id event) as [[|c r]|] eqn:Eid;
    try (intros [= <- <-]; apply pull_nothing; reflexivity).
  destruct (event_start _ _ event _) as [[[due_date due_time]|]|m]; cbn [bind];
    try discriminate;
    try (intros [= <- <-]; apply pull_nothing; reflexivity).
  destruct (event_updated_naive event) as [eu|m]; cbn [bind]; try discriminate.
  cbv beta iota zeta.
  destruct (Db.tasks_find_one _ (db w)) as [existing|] eqn:Efind.
  - destruct eu as [eu|], (Task.updatedAt existing) as [tu|];
      try (intros [= <- <-]; apply pull_nothing; reflexivity).
    destruct (DT.gtb eu tu);
      [|intros [= <- <-]; apply pull_nothing; reflexivity].
    apply find_some in Efind. destruct Efind as [Hin Hp].
    apply andb_true_iff in Hp. destruct Hp as [Hu Hg].
    apply N.eqb_eq in Hu. apply eqb_opt_some in Hg.
    intros [= <- <-].
    eapply pull_overwrites; eauto.
    rewrite Hg. reflexivity.
  - intros [= <- <-].
    eapply (pull_creates _ _ _ _ _ _ (String c r)).
    7: reflexivity.
    + exact Eid.
    + discriminate.
    + intros t Ht Hu Hg.
      pose proof (find_none _ _ Efind t Ht) as Hn. cbv beta in Hn.
      rewrite Hu, N.eqb_refl, (proj2 (eqb_opt_some _ _) Hg) in Hn. discriminate.
    + reflexivity.
    + reflexivity.
    + intros oid. exists (S (S (clock w))). cbn. split; [lia|reflexivity].
Qed.

(** A property of the world that every step of the pull phase keeps is kept
    by the pull phase. *)
Section PullInvariant.

Variable user : User.t.
Variable cals : list string.
Variable P : World Remote -> Prop.

Hypothesis P_event :
  forall cal tmin tmax events e w w' k,
    In cal cals ->
    events_list (remote w) cal tmin tmax = Ok events -> In e events ->
    P w -> pull_event_ user cal e w = Ok (w', k) -> P w'.
Hypothesis P_emit :
  forall w e, is_push_call e = false -> P w -> P (emit e w).
Hypothesis P_users :
  forall w f, P w -> P (with_db (Db.users_update_one (User._id user) f (db w)) w).
Hypothesis P_tick :
  forall w, P w -> P (mkWorld (db w) (remote w) (S (clock w)) (trace w)).

Lemma pull_events_keeps (cal tmin tmax : string) (all events : list Event.t)
    (w : World Remote) (c : Z) :
  In cal cals ->
  events_list (remote w) cal tmin tmax = Ok all ->
  incl events all ->
  P w -> P (fst (fst (pull_events_ user cal events w c))).
Proof.
  intros Hcal. revert w c.
  induction events as [|e events IH]; intros w c Hlist Hincl Hw; cbn [pull_events].
  - exact Hw.
  - destruct (pull_event_ user cal e w) as [[w1 k]|m] eqn:E; [|exact Hw].
    destruct (pull_event_frame _ _ _ _ _ _ _ _ _ _ E) as (_ & Hrem & _).
    apply IH.
    + rewrite Hrem. exact Hlist.
    + intros x Hx. apply Hincl. right. exact Hx.
    + apply (P_event cal tmin tmax all e w w1 k Hcal Hlist).
      * apply Hincl. left. reflexivity.
      * exact Hw.
      * exact E.
Qed.

Lemma pull_calendar_keeps (cal tmin tmax : string) (w : World Remote) (c : Z) :
  In cal cals ->
  P w -> P (fst (fst (pull_calendar_ user tmin tmax cal w c))).
Proof.
  intros Hcal Hw. unfold pull_calendar.
  destruct (events_list (remote w) cal tmin tmax) as [events|m] eqn:E.
  - apply (pull_events_keeps cal tmin tmax events events).
    + exact Hcal.
    + exact E.
    + intros x Hx. exact Hx.
    + apply P_emit; [reflexivity|exact Hw].
  - apply P_emit; [reflexivity|exact Hw].
Qed.

Lemma pull_calendars_keeps (tmin tmax : string) (todo : list string)
    (w : World Remote) (c : Z) :
  incl todo cals ->
  P w -> P (fst (fst (pull_calendars_ user tmin tmax todo w c))).
Proof.
  revert w c. induction todo as [|cal todo IH]; intros w c Hincl Hw;
    cbn [pull_calendars]; [exact Hw|].
  assert (Hcal : In cal cals) by (apply Hincl; left; reflexivity).
  assert (Htodo : incl todo cals) by (intros x Hx; apply Hincl; right; exact Hx).
  pose proof (pull_calendar_keeps cal tmin tmax w c Hcal Hw) as H1.
  destruct (pull_calendar_ user tmin tmax cal w c) as [[w1 c1] err].
  cbn [fst] in H1.
  destruct err as [msg|]; [destruct (auth_error msg)|].
  - cbn [fst]. apply P_users. exact H1.
  - apply IH; assumption.
  - apply IH; assumption.
Qed.

Lemma pull_window_keeps (w : World Remote) :
  P w -> P (fst (pull_window_ user w)).
Proof.
  intros Hw. unfold pull_window, utcnow.
  destruct (User.lastCalendarSync user) as [ls|].
  - destruct (DT.add_seconds ls (-3600)); [|exact Hw].
    destruct (DT.add_seconds _ (90 * 86400)); cbn [fst]; apply P_tick, Hw.
  - destruct (DT.add_seconds _ (-86400)); cbn [fst]; [|apply P_tick, Hw].
    destruct (DT.add_seconds _ (90 * 86400)); cbn [fst]; apply P_tick, P_tick, Hw.
Qed.

Lemma pull_keeps (w : World Remote) :
  P w -> P (fst (pull user cals w)).
Proof.
  intros Hw. unfold _pull_from_google.
  pose proof (pull_window_keeps w Hw) as H1.
  destruct (pull_window_ user w) as [w2 [[tmin tmax]|m]]; cbn [fst] in *; [|exact H1].
  pose proof (pull_calendars_keeps tmin tmax cals w2 0 (fun x Hx => Hx) H1) as H2.
  destruct (pull_calendars_ user tmin tmax cals w2 0) as [[w3 cnt] returned].
  cbn [fst] in H2. destruct returned; cbn [fst]; [exact H2|].
  set (w4 := if 0 <? cnt then emit (LogPulled cnt) w3 else w3).
  assert (H4 : P w4).
  { unfold w4. destruct (0 <? cnt); [|exact H2].
    apply P_emit; [reflexivity|exact H2]. }
  unfold utcnow. cbv beta iota zeta. cbn [fst].
  apply (P_users (mkWorld (db w4) (remote w4) (S (clock w4)) (trace w4))).
  apply P_tick. exact H4.
Qed.

End PullInvariant.

(** *** The store under the steps of a run *)

Lemma update_first_ids (p : Task.t -> bool) (f : Task.t -> Task.t) (l : list Task.t) :
  (forall x, Task._id (f x) = Task._id x) ->
  map Task._id (Db.update_first p f l) = map Task._id l.
Proof.
  intros Hf. induction l as [|x l IH]; cbn; [reflexivity|].
  destruct (p x); cbn; [rewrite Hf|rewrite IH]; reflexivity.
Qed.

Lemma In_update_first (p : Task.t -> bool) (f : Task.t -> Task.t) (l : list Task.t)
    (y : Task.t) :
  In y (Db.update_first p f l) -> exists x, In x l /\ (y = x \/ y = f x).
Proof.
  induction l as [|x l IH]; cbn; [contradiction|].
  destruct (p x); cbn.
  - intros [<-|H]; [exists x; auto|exists y; auto].
  - intros [<-|H]; [exists x; auto|].
    destruct (IH H) as (x' & Hx' & Hy). exists x'. auto.
Qed.

Lemma well_keyed_update (oid : ObjectId) (f : Task.t -> Task.t) (d : Db.t) :
  (forall x, Task._id (f x) = Task._id x) ->
  well_keyed d -> well_keyed (Db.tasks_update_one oid f d).
Proof.
  intros Hf [Hnd Hfresh]. split; cbn [Db.tasks_update_one Db.tasks Db.next_oid].
  - rewrite update_first_ids by exact Hf. exact Hnd.
  - intros y Hy. destruct (In_update_first _ _ _ _ Hy) as (x & Hx & [->| ->]).
    + apply Hfresh, Hx.
    + rewrite Hf. apply Hfresh, Hx.
Qed.

Lemma well_keyed_insert (doc : ObjectId -> Task.t) (d : Db.t) :
  (forall oid, Task._id (doc oid) = oid) ->
  well_keyed d -> well_keyed (Db.tasks_insert_one doc d).
Proof.
  intros Hdoc [Hnd Hfresh]. split; cbn [Db.tasks_insert_one Db.tasks Db.next_oid].
  - rewrite map_app. cbn [map]. rewrite Hdoc.
    apply NoDup_app; [exact Hnd|repeat constructor; intros []|].
    intros x Hx [<-|[]]. apply in_map_iff in Hx. destruct Hx as (t & Ht & Hin).
    specialize (Hfresh t Hin). lia.
  - intros y Hy. apply in_app_or in Hy. destruct Hy as [Hy|[<-|[]]].
    + specialize (Hfresh y Hy). lia.
    + rewrite Hdoc. lia.
Qed.

Lemma orderly_step (uid : ObjectId) (e : Event.t) (w w' : World Remote) :
  monotone_clock_ -> orderly_ w -> pull_step_ uid e w w' -> orderly_ w'.
Proof.
  intros Hmono [Hkeys Hclock] [->|existing title description due_date due_time
                                   Hin Hu Hlinked ->
                               |event_id doc Hid Hne Hnone Hdoc Hown Hstamp ->].
  - split; assumption.
  - split; cbn [db with_db].
    + apply well_keyed_update; [reflexivity|exact Hkeys].
    + intros y u n Hy Hupd Hn. cbn [db with_db Db.tasks_update_one Db.tasks clock] in *.
      destruct (In_update_first _ _ _ _ Hy) as (x & Hx & [->| ->]).
      * apply (Hclock x u n Hx Hupd). lia.
      * apply (Hclock x u n Hx Hupd). lia.
  - split; cbn [db].
    + apply well_keyed_insert; assumption.
    + intros y u n Hy Hupd Hn. cbn [db Db.tasks_insert_one Db.tasks clock] in *.
      apply in_app_or in Hy. destruct Hy as [Hy|[<-|[]]].
      * apply (Hclock y u n Hy Hupd). lia.
      * destruct (Hstamp (Db.next_oid (db w))) as (k & Hk & Hstampk).
        rewrite Hstampk in Hupd. injection Hupd as <-.
        apply Hmono. cbn [clock] in Hk. lia.
Qed.

Lemma orderly_frame (w w' : World Remote) :
  Db.tasks (db w') = Db.tasks (db w) -> Db.next_oid (db w') = Db.next_oid (db w) ->
  (clock w <= clock w')%nat ->
  orderly_ w -> orderly_ w'.
Proof.
  intros Ht Hn Hc [[Hnd Hfresh] Hclock]. split; [split|].
  - rewrite Ht. exact Hnd.
  - rewrite Ht, Hn. exact Hfresh.
  - intros y u n Hy Hupd Hle. rewrite Ht in Hy. apply (Hclock y u n Hy Hupd). lia.
Qed.

Lemma pull_keeps_orderly (user : User.t) (cals : list string) (w : World Remote) :
  monotone_clock_ -> orderly_ w -> orderly_ (fst (pull user cals w)).
Proof.
  intros Hmono. apply pull_keeps.
  - intros cal tmin tmax events e w0 w' k _ _ _ H0 E.
    apply (orderly_step _ e w0 w' Hmono H0 (pull_event_step user cal e w0 w' k E)).
  - intros w0 e _. apply orderly_frame; cbn; auto.
  - intros w0 f. apply orderly_frame; cbn; auto.
  - intros w0. apply orderly_frame; cbn; auto.
Qed.

(** The overwritten task of a pull is no candidate for a push. *)
Lemma overwritten_not_candidate (title description : string) (due_date : DT.datetime)
    (due_time : option string) (now : DT.datetime) (t : Task.t) :
  truthy_str (Task.googleEventId t) = true ->
  (forall u, Task.updatedAt t = Some u -> DT.gtb u now = false) ->
  push_candidate (pull_overwrite title description due_date due_time now t) = false.
Proof.
  intros Hlinked Hnow. unfold push_candidate, pull_overwrite.
  cbn [Task.dueDate Task.status Task.syncToCalendar Task.googleEventId
       Task.updatedAt Task.lastSyncedAt].
  rewrite Hlinked. cbn [negb orb].
  destruct (Task.updatedAt t) as [u|].
  - rewrite (Hnow u eq_refl). apply andb_false_r.
  - apply andb_false_r.
Qed.

Lemma quiet_step (uid : ObjectId) (ids : list ObjectId) (calls : list effect)
    (e : Event.t) (w w' : World Remote) :
  monotone_clock_ ->
  quiet_ uid ids calls w -> pull_step_ uid e w w' -> quiet_ uid ids calls w'.
Proof.
  intros Hmono (Hord & Hcalls & old & created & Htasks & Hids & Hold & Hnew) Hstep.
  pose proof (orderly_step uid e w w' Hmono Hord Hstep) as Hord'.
  destruct Hstep as [->|existing title description due_date due_time
                        Hin Hu Hlinked ->
                    |event_id doc Hid Hne Hnone Hdoc Hown Hstamp ->].
  - split; [exact Hord|]. split; [exact Hcalls|].
    exists old, created. repeat split; assumption.
  - destruct Hord as [[Hnd Hfresh] Hclock].
    set (g := fun y => if N.eqb (Task._id y) (Task._id existing)
                       then pull_overwrite title description due_date due_time
                              (utcnow_at (clock w)) y
                       else y).
    split; [exact Hord'|]. split; [exact Hcalls|].
    exists (map g old), (map g created).
    split; [|split; [|split]].
    + cbn [db with_db Db.tasks_update_one Db.tasks].
      rewrite update_first_by_id by exact Hnd. rewrite Htasks. apply map_app.
    + rewrite map_map. rewrite <- Hids. apply map_ext.
      intros y. unfold g. destruct (N.eqb _ _); reflexivity.
    + intros y Hy Hyu. apply in_map_iff in Hy. destruct Hy as (x & <- & Hx).
      assert (Hxin : In x (Db.tasks (db w)))
        by (rewrite Htasks; apply in_or_app; left; exact Hx).
      unfold g in *. destruct (N.eqb (Task._id x) (Task._id existing)) eqn:E.
      * apply N.eqb_eq in E.
        rewrite (nodup_id_inj _ x existing Hnd Hxin Hin E).
        apply overwritten_not_candidate; [exact Hlinked|].
        intros u Hupd. apply (Hclock existing u (clock w) Hin Hupd). lia.
      * apply Hold; assumption.
    + intros y Hy. apply in_map_iff in Hy. destruct Hy as (x & <- & Hx).
      unfold g. destruct (N.eqb _ _); cbn; apply Hnew, Hx.
  - split; [exact Hord'|]. split; [exact Hcalls|].
    exists old, (created ++ [doc (Db.next_oid (db w))]).
    split; [|split; [|split]].
    + cbn [db Db.tasks_insert_one Db.tasks]. rewrite Htasks. symmetry. apply app_assoc.
    + exact Hids.
    + exact Hold.
    + intros y Hy. apply in_app_or in Hy. destruct Hy as [Hy|[<-|[]]].
      * apply Hnew, Hy.
      * apply Hown.
Qed.

(** *** The push phase *)

Lemma bookkeeping_not_candidate (new_id cal : string) (now : DT.datetime) (t : Task.t) :
  new_id <> EmptyString ->
  (forall u, Task.updatedAt t = Some u -> DT.gtb u now = false) ->
  push_candidate (push_bookkeeping new_id cal now t) = false.
Proof.
  intros Hne Hnow. unfold push_candidate, push_bookkeeping.
  cbn [Task.dueDate Task.status Task.syncToCalendar Task.googleEventId
       Task.updatedAt Task.lastSyncedAt].
  destruct new_id as [|c r]; [contradiction|]. cbn [truthy_str negb orb].
  destruct (Task.updatedAt t) as [u|].
  - rewrite (Hnow u eq_refl). apply andb_false_r.
  - apply andb_false_r.
Qed.

Lemma push_task_step (prefs : Preferences.t) (cal : string) (t : Task.t)
    (w : World Remote) :
  answers_with_id_ ->
  snd (push_task_ prefs cal t w) = true ->
  exists new_id,
    new_id <> EmptyString
    /\ db (fst (push_task_ prefs cal t w))
       = Db.tasks_update_one (Task._id t)
           (push_bookkeeping new_id cal (utcnow_at (clock w))) (db w)
    /\ clock (fst (push_task_ prefs cal t w)) = S (clock w).
Proof.
  intros [Hins Hupd]. unfold push_task, utcnow.
  destruct (build t prefs) as [body|m]; [|discriminate].
  destruct (Task.googleEventId t) as [[|c r]|].
  - destruct (events_insert (remote w) cal body) as [[e|m] r'] eqn:E; [|discriminate].
    destruct (Event.id e) as [new_id|] eqn:Eid; [|discriminate].
    intros _. exists new_id. cbn. repeat split.
    intros ->. apply (Hins _ _ _ _ _ E Eid).
  - destruct (events_update (remote w) _ (String c r) body) as [[e|m] r'] eqn:E;
      [|discriminate].
    destruct (Event.id e) as [new_id|] eqn:Eid; [|discriminate].
    intros _. exists new_id. cbn. repeat split.
    intros ->. apply (Hupd _ _ (String c r) _ _ _ ltac:(discriminate) E Eid).
  - destruct (events_insert (remote w) cal body) as [[e|m] r'] eqn:E; [|discriminate].
    destruct (Event.id e) as [new_id|] eqn:Eid; [|discriminate].
    intros _. exists new_id. cbn. repeat split.
    intros ->. apply (Hins _ _ _ _ _ E Eid).
Qed.

Lemma push_loop_settles (prefs : Preferences.t) (cal : string) (uid : ObjectId)
    (l : list Task.t) (w : World Remote) (c : Z) :
  answers_with_id_ -> orderly_ w ->
  (forall oid, ~ In (LogPushError oid) (trace (fst (push_loop_ prefs cal l w c)))) ->
  (forall t, In t (Db.tasks (db w)) -> Task.user t = uid ->
             push_candidate t = false \/ In (Task._id t) (map Task._id l)) ->
  orderly_ (fst (push_loop_ prefs cal l w c))
  /\ settled uid (db (fst (push_loop_ prefs cal l w c))).
Proof.
  intros Hans. revert w c. induction l as [|t rest IH]; intros w c Hord Hlog Hinv.
  - split; [exact Hord|]. intros y Hy Hu.
    destruct (Hinv y Hy Hu) as [H|[]]. exact H.
  - cbn [push_loop] in *.
    pose proof (push_task_step prefs cal t w Hans) as Hstep.
    pose proof (push_task_failure_logged pytz_timezone Remote events_insert
                  events_update utcnow_at prefs cal t w) as Hfail.
    destruct (push_task_ prefs cal t w) as [w1 ok]. cbn [fst snd] in *.
    destruct ok.
    2:{ exfalso. apply (Hlog (Task._id t)).
        apply push_loop_trace_incl. apply Hfail. reflexivity. }
    destruct (Hstep eq_refl) as (new_id & Hne & Hdb & Hclk).
    destruct Hord as [[Hnd Hfresh] Hclock].
    assert (Htasks : Db.tasks (db w1)
      = map (fun y => if N.eqb (Task._id y) (Task._id t)
                      then push_bookkeeping new_id cal (utcnow_at (clock w)) y
                      else y) (Db.tasks (db w))).
    { rewrite Hdb. cbn [Db.tasks_update_one Db.tasks].
      apply update_first_by_id. exact Hnd. }
    apply IH.
    + split.
      * rewrite Hdb. apply well_keyed_update; [reflexivity|]. split; assumption.
      * intros y u n Hy Hupd Hn. rewrite Htasks in Hy. apply in_map_iff in Hy.
        destruct Hy as (x & <- & Hx).
        assert (Hxu : Task.updatedAt x = Some u).
        { destruct (N.eqb (Task._id x) (Task._id t)); exact Hupd. }
        apply (Hclock x u n Hx Hxu). lia.
    + exact Hlog.
    + intros y Hy Hu. rewrite Htasks in Hy. apply in_map_iff in Hy.
      destruct Hy as (x & <- & Hx).
      destruct (N.eqb (Task._id x) (Task._id t)) eqn:E.
      * left. apply bookkeeping_not_candidate; [exact Hne|].
        intros u Hupd. apply (Hclock x u (clock w) Hx Hupd). lia.
      * destruct (Hinv x Hx Hu) as [H|[H|H]].
        -- left. exact H.
        -- apply N.eqb_neq in E. congruence.
        -- right. exact H.
Qed.

Lemma push_settles (user : User.t) (prefs : Preferences.t) (cal : string)
    (w : World Remote) :
  answers_with_id_ -> orderly_ w ->
  (forall oid, ~ In (LogPushError oid) (trace (fst (push user prefs cal w)))) ->
  orderly_ (fst (push user prefs cal w))
  /\ settled (User._id user) (db (fst (push user prefs cal w))).
Proof.
  intros Hans Hord. unfold _push_to_google.
  pose proof (select_tasks_to_push_filter
                (Db.tasks_find (fun t => N.eqb (Task.user t) (User._id user)) (db w)))
    as Hsel.
  destruct (select_tasks_to_push _) as [stats l]. cbn [snd] in Hsel.
  pose proof (push_loop_settles prefs cal (User._id user) l w 0 Hans Hord) as Hloop.
  destruct (push_loop_ prefs cal l w 0) as [w1 n]. cbn [fst] in *.
  intros Hlog.
  assert (Hlog1 : forall oid, ~ In (LogPushError oid) (trace w1)).
  { intros oid Hin. apply (Hlog oid).
    destruct (0 <? n); [|exact Hin]. cbn. apply in_or_app. left. exact Hin. }
  assert (H : orderly_ w1 /\ settled (User._id user) (db w1)).
  { apply Hloop; [exact Hlog1|]. intros t Ht Hu.
    destruct (push_candidate t) eqn:Hc; [right|left; reflexivity].
    apply in_map. rewrite Hsel. apply filter_In. split; [|exact Hc].
    apply filter_In. split; [exact Ht|]. apply N.eqb_eq. exact Hu. }
  destruct (0 <? n); [|exact H].
  destruct H as [Ho Hs]. split; [|exact Hs].
  revert Ho. apply orderly_frame; cbn; auto.
Qed.

Lemma filter_none {A : Type} (p : A -> bool) (l : list A) :
  (forall x, In x l -> p x = false) -> filter p l = [].
Proof.
  induction l as [|x l IH]; intros H; cbn; [reflexivity|].
  rewrite (H x (or_introl eq_refl)). apply IH. intros y Hy. apply H. right. exact Hy.
Qed.

Lemma push_at_rest (user : User.t) (prefs : Preferences.t) (cal : string)
    (w : World Remote) :
  settled (User._id user) (db w) -> push user prefs cal w = (w, 0).
Proof.
  intros Hset. unfold _push_to_google.
  pose proof (select_tasks_to_push_filter
                (Db.tasks_find (fun t => N.eqb (Task.user t) (User._id user)) (db w)))
    as Hsel.
  destruct (select_tasks_to_push _) as [stats l]. cbn [snd] in Hsel.
  assert (Hl : l = []).
  { rewrite Hsel. unfold Db.tasks_find.
    apply filter_none.
    intros t Ht. apply filter_In in Ht. destruct Ht as [Ht Hu].
    apply N.eqb_eq in Hu. apply (Hset t Ht Hu). }
  rewrite Hl. reflexivity.
Qed.

(** *** Credentials leave the tasks alone *)

Lemma credentials_tasks (user : User.t) (d : Db.t) :
  Db.tasks (snd (credentials user d)) = Db.tasks d
  /\ Db.next_oid (snd (credentials user d)) = Db.next_oid d.
Proof.
  unfold get_credentials_from_user.
  destruct (negb _); [split; reflexivity|].
  destruct (_ && _); [|split; reflexivity].
  destruct (creds_refresh user) as [[tok rtok]|m]; split; reflexivity.
Qed.

(** *** The pull phase of the run that follows *)

Lemma quiet_frame (uid : ObjectId) (ids : list ObjectId) (calls : list effect)
    (w w' : World Remote) :
  Db.tasks (db w') = Db.tasks (db w) -> Db.next_oid (db w') = Db.next_oid (db w) ->
  (clock w <= clock w')%nat ->
  filter is_push_call (trace w') = filter is_push_call (trace w) ->
  quiet_ uid ids calls w -> quiet_ uid ids calls w'.
Proof.
  intros Ht Hn Hc Htr (Hord & Hcalls & Hsplit).
  split; [apply (orderly_frame w w' Ht Hn Hc Hord)|].
  split; [rewrite Htr; exact Hcalls|].
  rewrite Ht. exact Hsplit.
Qed.

Lemma pull_keeps_quiet (user : User.t) (cals : list string) (ids : list ObjectId)
    (calls : list effect) (w : World Remote) :
  monotone_clock_ ->
  quiet_ (User._id user) ids calls w ->
  quiet_ (User._id user) ids calls (fst (pull user cals w)).
Proof.
  intros Hmono. apply pull_keeps.
  - intros cal tmin tmax events e w0 w' k _ _ _ H0 E.
    apply (quiet_step _ _ _ e w0 w' Hmono H0 (pull_event_step user cal e w0 w' k E)).
  - intros w0 e He. apply quiet_frame; cbn [db remote clock trace emit]; auto.
    rewrite filter_app. cbn [filter]. rewrite He. apply app_nil_r.
  - intros w0 f. apply quiet_frame; cbn; auto.
  - intros w0. apply quiet_frame; cbn; auto.
Qed.

Lemma firstn_length_app {A : Type} (l1 l2 : list A) :
  firstn (List.length l1) (l1 ++ l2) = l1.
Proof. induction l1 as [|x l1 IH]; cbn; [destruct l2|rewrite IH]; reflexivity. Qed.

Lemma skipn_length_app {A : Type} (l1 l2 : list A) :
  skipn (List.length l1) (l1 ++ l2) = l2.
Proof. induction l1 as [|x l1 IH]; cbn; [reflexivity|exact IH]. Qed.

Lemma candidates_of_created (uid : ObjectId) (old created : list Task.t) :
  (forall t, In t old -> Task.user t = uid -> push_candidate t = false) ->
  (forall t, In t created -> Task.user t = uid) ->
  filter push_candidate (filter (fun t => N.eqb (Task.user t) uid) (old ++ created))
  = filter push_candidate created.
Proof.
  intros Hold Hnew. rewrite !filter_app.
  rewrite (filter_none push_candidate (filter _ old)).
  2:{ intros t Ht. apply filter_In in Ht. destruct Ht as [Ht Hu].
      apply N.eqb_eq in Hu. apply Hold; assumption. }
  cbn [app]. f_equal.
  induction created as [|x l IH]; cbn; [reflexivity|].
  rewrite (proj2 (N.eqb_eq _ _) (Hnew x (or_introl eq_refl))).
  f_equal. apply IH. intros t Ht. apply Hnew. right. exact Ht.
Qed.

(** *** The first run settles the store *)

Lemma cycle_settles (user : User.t) (w : World Remote) :
  monotone_clock_ -> answers_with_id_ -> orderly_ w ->
  snd (cycle user w) = true ->
  (forall oid, ~ In (LogPushError oid) (trace (fst (cycle user w)))) ->
  orderly_ (fst (cycle user w)) /\ settled (User._id user) (db (fst (cycle user w))).
Proof.
  intros Hmono Hans Hord. unfold _sync_user_calendar.
  destruct (credentials_tasks user (db w)) as [Ht Hn].
  destruct (credentials user (db w)) as [creds d1]. cbn [snd] in Ht, Hn.
  assert (H1 : orderly_ (with_db d1 w)).
  { revert Hord. apply orderly_frame; cbn; auto. }
  destruct creds as [creds|].
  2:{ destruct (truthy_str _); discriminate. }
  unfold sync_phases.
  pose proof (pull_keeps_orderly user (selected_or_primary user) (with_db d1 w)
                Hmono H1) as H2.
  destruct (pull user (selected_or_primary user) (with_db d1 w)) as [w2 [n|m]];
    cbn [fst] in *; [|discriminate].
  pose proof (push_settles user (User.preferences user)
                (hd "primary"%string (selected_or_primary user)) w2 Hans H2) as H3.
  destruct (push user (User.preferences user) _ w2) as [w3 k]. cbn [fst snd] in *.
  intros _ Hlog. apply H3, Hlog.
Qed.


End TwoRuns.

(** * Further properties of the engine *)

(** ** The statistics of the push phase *)

Lemma scan_tasks_counts (l : list Task.t) (stats : Stats) (acc : list Task.t) :
  total (fst (scan_tasks l stats acc)) = total stats
  /\ no_due_date (fst (scan_tasks l stats acc))
     + completed_deleted (fst (scan_tasks l stats acc))
     + sync_disabled (fst (scan_tasks l stats acc))
     + already_synced (fst (scan_tasks l stats acc))
     + Z.of_nat (List.length (snd (scan_tasks l stats acc)))
     = no_due_date stats + completed_deleted stats + sync_disabled stats
       + already_synced stats + Z.of_nat (List.length acc)
       + Z.of_nat (List.length l).
Proof.
  revert stats acc. induction l as [|t l IH]; intros stats acc.
  - cbn [scan_tasks fst snd List.length]. split; [reflexivity|lia].
  - cbn [scan_tasks].
    repeat match goal with
           | |- context [if ?b then _ else _] => destruct b
           | |- context [match ?x with Some _ => _ | None => _ end] => destruct x
           end;
      match goal with
      | |- context [scan_tasks l ?s ?a] =>
          destruct (IH s a) as [Ht Hs]; rewrite Ht, Hs
      end;
      cbn [total no_due_date completed_deleted sync_disabled already_synced];
      rewrite ?length_app; cbn [List.length];
      (split; [reflexivity|lia]).
Qed.

(** X1.  The selection loop accounts for every task of the user exactly once:
    the four counters and the number of tasks to push add up to the total,
    which is the number of tasks scanned. *)
Theorem push_stats_partition (all_tasks : list Task.t) :
  let stats := fst (select_tasks_to_push all_tasks) in
  let tasks_to_push := snd (select_tasks_to_push all_tasks) in
  total stats = Z.of_nat (List.length all_tasks)
  /\ no_due_date stats + completed_deleted stats + sync_disabled stats
     + already_synced stats + Z.of_nat (List.length tasks_to_push)
     = total stats.
Proof.
  cbv zeta. unfold select_tasks_to_push.
  destruct (scan_tasks_counts all_tasks
              (mkStats (Z.of_nat (List.length all_tasks)) 0 0 0 0) []) as [Ht Hs].
  rewrite Ht, Hs. cbn. split; [reflexivity|lia].
Qed.

(** ** The cycle of one user *)

Lemma filter_map_if {A : Type} (c g : A -> bool) (f : A -> A) (l : list A) :
  (forall y, In y l -> c y = true -> g y = false /\ g (f y) = false) ->
  filter g (map (fun y => if c y then f y else y) l) = filter g l.
Proof.
  induction l as [|x l IH]; intros H; cbn [map filter]; [reflexivity|].
  rewrite IH by (intros y Hy; apply H; right; exact Hy).
  destruct (c x) eqn:E; [|reflexivity].
  destruct (H x (or_introl eq_refl) E) as [H1 H2]. rewrite H1, H2. reflexivity.
Qed.

Lemma others_update (uid oid : ObjectId) (f : Task.t -> Task.t) (d : Db.t) :
  well_keyed d ->
  (forall x, Task._id (f x) = Task._id x) ->
  (forall x, Task.user (f x) = Task.user x) ->
  (forall y, In y (Db.tasks d) -> Task._id y = oid -> Task.user y = uid) ->
  well_keyed (Db.tasks_update_one oid f d)
  /\ tasks_of_others uid (Db.tasks_update_one oid f d) = tasks_of_others uid d.
Proof.
  intros Hk Hid Hu Hown. split; [apply well_keyed_update; assumption|].
  unfold tasks_of_others. cbn [Db.tasks_update_one Db.tasks].
  rewrite update_first_by_id by apply Hk.
  apply filter_map_if. intros y Hy E. apply N.eqb_eq in E.
  rewrite Hu, (Hown y Hy E), N.eqb_refl. split; reflexivity.
Qed.

Lemma others_insert (uid : ObjectId) (doc : ObjectId -> Task.t) (d : Db.t) :
  well_keyed d ->
  (forall oid, Task._id (doc oid) = oid) ->
  (forall oid, Task.user (doc oid) = uid) ->
  well_keyed (Db.tasks_insert_one doc d)
  /\ tasks_of_others uid (Db.tasks_insert_one doc d) = tasks_of_others uid d.
Proof.
  intros Hk Hid Hu. split; [apply well_keyed_insert; assumption|].
  unfold tasks_of_others. cbn [Db.tasks_insert_one Db.tasks].
  rewrite filter_app. cbn [filter]. rewrite Hu, N.eqb_refl. apply app_nil_r.
Qed.

Section CycleProperties.

Variable pytz_timezone : string -> option Tz.t.
Variable system_utcoffset : DT.datetime -> Z.
Variable creds_expired : User.t -> bool.
Variable creds_refresh : User.t -> result (string * option string).
Variable Remote : Type.
Variable events_list : Remote -> string -> string -> string -> result (list Event.t).
Variable events_insert : Remote -> string -> Body.t -> result Event.t * Remote.
Variable events_update :
  Remote -> option string -> string -> Body.t -> result Event.t * Remote.
Variable utcnow_at : nat -> DT.datetime.

Local Abbreviation build := (build_google_calendar_event pytz_timezone).
Local Abbreviation credentials := (get_credentials_from_user creds_expired creds_refresh).
Local Abbreviation pull_event_ := (pull_event pytz_timezone system_utcoffset Remote utcnow_at).
Local Abbreviation pull_events_ := (pull_events pytz_timezone system_utcoffset Remote utcnow_at).
Local Abbreviation pull_calendar_ :=
  (pull_calendar pytz_timezone system_utcoffset Remote events_list utcnow_at).
Local Abbreviation pull_calendars_ :=
  (pull_calendars pytz_timezone system_utcoffset Remote events_list utcnow_at).
Local Abbreviation pull_window_ := (pull_window Remote utcnow_at).
Local Abbreviation pull :=
  (_pull_from_google pytz_timezone system_utcoffset Remote events_list utcnow_at).
Local Abbreviation push_task_ :=
  (push_task pytz_timezone Remote events_insert events_update utcnow_at).
Local Abbreviation push_loop_ :=
  (push_loop pytz_timezone Remote events_insert events_update utcnow_at).
Local Abbreviation push :=
  (_push_to_google pytz_timezone Remote events_insert events_update utcnow_at).
Local Abbreviation cycle :=
  (_sync_user_calendar pytz_timezone system_utcoffset creds_expired creds_refresh
     Remote events_list events_insert events_update utcnow_at).

(** *** What one event of the pull phase does, in full *)

Lemma pull_event_cases (user : User.t) (cal : string) (event : Event.t)
    (w w' : World Remote) (k : Z) :
  pull_event_ user cal event w = Ok (w', k) ->
  (w' = w /\ k = 0)
  \/ (exists existing f,
        In existing (Db.tasks (db w)) /\ Task.user existing = User._id user
        /\ (forall x, Task._id (f x) = Task._id x)
        /\ (forall x, Task.user (f x) = Task.user x)
        /\ w' = mkWorld (Db.tasks_update_one (Task._id existing) f (db w))
                  (remote w) (S (clock w)) (trace w)
        /\ k = 1)
  \/ (exists doc,
        (forall oid, Task._id (doc oid) = oid)
        /\ (forall oid, Task.user (doc oid) = User._id user)
        /\ w' = mkWorld (Db.tasks_insert_one doc (db w))
                  (remote w) (S (S (S (clock w)))) (trace w)
        /\ k = 1).
Proof.
  unfold pull_event, utcnow.
  destruct (Event.id event) as [[|c r]|] eqn:Eid;
    try (intros [= <- <-]; left; split; reflexivity).
  destruct (event_start _ _ event _) as [[[due_date due_time]|]|m]; cbn [bind];
    try discriminate; try (intros [= <- <-]; left; split; reflexivity).
  destruct (event_updated_naive event) as [eu|m]; cbn [bind]; try discriminate.
  cbv beta iota zeta.
  destruct (Db.tasks_find_one _ (db w)) as [existing|] eqn:Efind.
  - destruct eu as [eu|], (Task.updatedAt existing) as [tu|];
      try (intros [= <- <-]; left; split; reflexivity).
    destruct (DT.gtb eu tu); [|intros [= <- <-]; left; split; reflexivity].
    apply find_some in Efind. destruct Efind as [Hin Hp].
    apply andb_true_iff in Hp. destruct Hp as [Hu _]. apply N.eqb_eq in Hu.
    intros [= <- <-]. right. left.
    exists existing, (pull_overwrite (summary_or_untitled event)
                        (description_or_empty event) due_date due_time
                        (utcnow_at (clock w))).
    repeat split; try assumption; reflexivity.
  - intros [= <- <-]. right. right.
    eexists. repeat split; reflexivity.
Qed.

(** A property of the world that every event of the pull phase keeps is
    kept by the pull phase. *)
Section PullRule.

Variable user : User.t.
Variable P : World Remote -> Prop.

Hypothesis P_event :
  forall cal e w w' k, pull_event_ user cal e w = Ok (w', k) -> P w -> P w'.
Hypothesis P_emit :
  forall w e, is_push_call e = false -> is_push_error e = false -> P w -> P (emit e w).
Hypothesis P_users :
  forall w f, P w -> P (with_db (Db.users_update_one (User._id user) f (db w)) w).
Hypothesis P_tick :
  forall w, P w -> P (mkWorld (db w) (remote w) (S (clock w)) (trace w)).

Lemma pull_events_rule (cal : string) (events : list Event.t)
    (w : World Remote) (c : Z) :
  P w -> P (fst (fst (pull_events_ user cal events w c))).
Proof.
  revert w c. induction events as [|e events IH]; intros w c Hw; cbn [pull_events].
  - exact Hw.
  - destruct (pull_event_ user cal e w) as [[w1 k]|m] eqn:E; [|exact Hw].
    apply IH. apply (P_event cal e w w1 k E Hw).
Qed.

Lemma pull_calendar_rule (cal tmin tmax : string) (w : World Remote) (c : Z) :
  P w -> P (fst (fst (pull_calendar_ user tmin tmax cal w c))).
Proof.
  intros Hw. unfold pull_calendar.
  destruct (events_list (remote w) cal tmin tmax) as [events|m].
  - apply pull_events_rule. apply P_emit; [reflexivity|reflexivity|exact Hw].
  - apply P_emit; [reflexivity|reflexivity|exact Hw].
Qed.

Lemma pull_calendars_rule (tmin tmax : string) (todo : list string)
    (w : World Remote) (c : Z) :
  P w -> P (fst (fst (pull_calendars_ user tmin tmax todo w c))).
Proof.
  revert w c. induction todo as [|cal todo IH]; intros w c Hw;
    cbn [pull_calendars]; [exact Hw|].
  pose proof (pull_calendar_rule cal tmin tmax w c Hw) as H1.
  destruct (pull_calendar_ user tmin tmax cal w c) as [[w1 c1] err].
  cbn [fst] in H1.
  destruct err as [msg|]; [destruct (auth_error msg)|].
  - cbn [fst]. apply P_users. exact H1.
  - apply IH; assumption.
  - apply IH; assumption.
Qed.

Lemma pull_window_rule (w : World Remote) :
  P w -> P (fst (pull_window_ user w)).
Proof.
  intros Hw. unfold pull_window, utcnow.
  destruct (User.lastCalendarSync user) as [ls|].
  - destruct (DT.add_seconds ls (-3600)); [|exact Hw].
    destruct (DT.add_seconds _ (90 * 86400)); cbn [fst]; apply P_tick, Hw.
  - destruct (DT.add_seconds _ (-86400)); cbn [fst]; [|apply P_tick, Hw].
    destruct (DT.add_seconds _ (90 * 86400)); cbn [fst]; apply P_tick, P_tick, Hw.
Qed.

Lemma pull_rule (cals : list string) (w : World Remote) :
  P w -> P (fst (pull user cals w)).
Proof.
  intros Hw. unfold _pull_from_google.
  pose proof (pull_window_rule w Hw) as H1.
  destruct (pull_window_ user w) as [w2 [[tmin tmax]|m]]; cbn [fst] in *; [|exact H1].
  pose proof (pull_calendars_rule tmin tmax cals w2 0 H1) as H2.
  destruct (pull_calendars_ user tmin tmax cals w2 0) as [[w3 cnt] returned].
  cbn [fst] in H2. destruct returned; cbn [fst]; [exact H2|].
  set (w4 := if 0 <? cnt then emit (LogPulled cnt) w3 else w3).
  assert (H4 : P w4).
  { unfold w4. destruct (0 <? cnt); [|exact H2].
    apply P_emit; [reflexivity|reflexivity|exact H2]. }
  unfold utcnow. cbv beta iota zeta. cbn [fst].
  apply (P_users (mkWorld (db w4) (remote w4) (S (clock w4)) (trace w4))).
  apply P_tick. exact H4.
Qed.

End PullRule.

(** X3.  The pull phase reads the remote calendars and writes the store: it
    makes no insert or update call and leaves the remote service as it was;
    it logs no push error; and it removes no task - the identifiers of the
    tasks stay, in order, with those of the created tasks after them. *)
Theorem pull_only_reads_remote (user : User.t) (cals : list string)
    (w : World Remote) :
  remote (fst (pull user cals w)) = remote w
  /\ filter is_push_call (trace (fst (pull user cals w)))
     = filter is_push_call (trace w)
  /\ filter is_push_error (trace (fst (pull user cals w)))
     = filter is_push_error (trace w)
  /\ exists created,
       map Task._id (Db.tasks (db (fst (pull user cals w))))
       = map Task._id (Db.tasks (db w)) ++ created.
Proof.
  apply (pull_rule user
           (fun w' => remote w' = remote w
                      /\ filter is_push_call (trace w') = filter is_push_call (trace w)
                      /\ filter is_push_error (trace w') = filter is_push_error (trace w)
                      /\ exists created,
                           map Task._id (Db.tasks (db w'))
                           = map Task._id (Db.tasks (db w)) ++ created)).
  - intros cal e w0 w' k E (Hr & Hc & He & created & Hids).
    destruct (pull_event_cases user cal e w0 w' k E)
      as [[-> _]|[(existing & f & _ & _ & Hid & _ & -> & _)|(doc & Hid & _ & -> & _)]].
    + repeat split; try assumption. exists created. exact Hids.
    + cbn [remote trace db]. repeat split; try assumption.
      exists created. cbn [Db.tasks_update_one Db.tasks].
      rewrite update_first_ids by exact Hid. exact Hids.
    + cbn [remote trace db]. repeat split; try assumption.
      exists (created ++ [Db.next_oid (db w0)]).
      cbn [Db.tasks_insert_one Db.tasks]. rewrite map_app. cbn [map].
      rewrite Hids, Hid, app_assoc. reflexivity.
  - intros w0 e H1 H2 (Hr & Hc & He & Hids). cbn [emit remote trace db].
    rewrite !filter_app. cbn [filter]. rewrite H1, H2, !app_nil_r.
    repeat split; assumption.
  - intros w0 f H. exact H.
  - intros w0 H. exact H.
  - repeat split. exists []. symmetry. apply app_nil_r.
Qed.

(** *** What one task of the push loop does to the store and the log *)

Lemma push_task_cases (prefs : Preferences.t) (cal : string) (t : Task.t)
    (w : World Remote) :
  (snd (push_task_ prefs cal t w) = false
   /\ db (fst (push_task_ prefs cal t w)) = db w
   /\ filter is_push_error (trace (fst (push_task_ prefs cal t w)))
      = filter is_push_error (trace w) ++ [LogPushError (Task._id t)])
  \/ (snd (push_task_ prefs cal t w) = true
      /\ (exists new_id,
            db (fst (push_task_ prefs cal t w))
            = Db.tasks_update_one (Task._id t)
                (push_bookkeeping new_id cal (utcnow_at (clock w))) (db w))
      /\ filter is_push_error (trace (fst (push_task_ prefs cal t w)))
         = filter is_push_error (trace w)).
Proof.
  unfold push_task, utcnow.
  destruct (build t prefs) as [body|m].
  2:{ left. cbn. rewrite filter_app. repeat split. }
  destruct (Task.googleEventId t) as [[|c r]|].
  - destruct (events_insert (remote w) cal body) as [[e|m] r'].
    + destruct (Event.id e) as [new_id|].
      * right. cbn. rewrite filter_app, app_nil_r. repeat split. exists new_id. reflexivity.
      * left. cbn. rewrite !filter_app. cbn. rewrite app_nil_r. repeat split.
    + left. cbn. rewrite !filter_app. cbn. rewrite app_nil_r. repeat split.
  - destruct (events_update (remote w) _ (String c r) body) as [[e|m] r'].
    + destruct (Event.id e) as [new_id|].
      * right. cbn. rewrite filter_app, app_nil_r. repeat split. exists new_id. reflexivity.
      * left. cbn. rewrite !filter_app. cbn. rewrite app_nil_r. repeat split.
    + left. cbn. rewrite !filter_app. cbn. rewrite app_nil_r. repeat split.
  - destruct (events_insert (remote w) cal body) as [[e|m] r'].
    + destruct (Event.id e) as [new_id|].
      * right. cbn. rewrite filter_app, app_nil_r. repeat split. exists new_id. reflexivity.
      * left. cbn. rewrite !filter_app. cbn. rewrite app_nil_r. repeat split.
    + left. cbn. rewrite !filter_app. cbn. rewrite app_nil_r. repeat split.
Qed.

Lemma push_loop_balance (prefs : Preferences.t) (cal : string) (l : list Task.t)
    (w : World Remote) (c : Z) :
  snd (push_loop_ prefs cal l w c)
  + Z.of_nat (List.length (filter is_push_error (trace (fst (push_loop_ prefs cal l w c)))))
  = c + Z.of_nat (List.length l)
    + Z.of_nat (List.length (filter is_push_error (trace w))).
Proof.
  revert w c. induction l as [|t l IH]; intros w c; cbn [push_loop].
  - cbn [fst snd List.length]. lia.
  - destruct (push_task_cases prefs cal t w) as [(Hok & _ & Herr)|(Hok & _ & Herr)];
      destruct (push_task_ prefs cal t w) as [w1 ok]; cbn [fst snd] in *; subst ok;
      rewrite IH, Herr, ?length_app; cbn [List.length]; lia.
Qed.

(** X2.  Every candidate of the push phase ends as a counted push or as a logged
    push error: the count the phase returns and the errors it logs add up to
    the number of the user's tasks that were selected. *)
Theorem push_count_balance (user : User.t) (prefs : Preferences.t) (cal : string)
    (w : World Remote) :
  snd (push user prefs cal w)
  + Z.of_nat (List.length (filter is_push_error (trace (fst (push user prefs cal w)))))
  = Z.of_nat (List.length
                (filter push_candidate
                   (Db.tasks_find (fun t => N.eqb (Task.user t) (User._id user)) (db w))))
    + Z.of_nat (List.length (filter is_push_error (trace w))).
Proof.
  unfold _push_to_google.
  pose proof (select_tasks_to_push_filter
                (Db.tasks_find (fun t => N.eqb (Task.user t) (User._id user)) (db w)))
    as Hsel.
  destruct (select_tasks_to_push _) as [stats l]. cbn [snd] in Hsel. subst l.
  pose proof (push_loop_balance prefs cal
                (filter push_candidate
                   (Db.tasks_find (fun t => N.eqb (Task.user t) (User._id user)) (db w)))
                w 0) as Hb.
  destruct (push_loop_ prefs cal _ w 0) as [w1 n]. cbn [fst snd] in *.
  destruct (0 <? n); cbn [fst snd trace emit];
    rewrite ?filter_app, ?length_app; cbn [filter is_push_error List.length]; lia.
Qed.

(** *** The tasks of the other users *)

Lemma pull_spares_others (user : User.t) (cals : list string) (w : World Remote) :
  well_keyed (db w) ->
  well_keyed (db (fst (pull user cals w)))
  /\ tasks_of_others (User._id user) (db (fst (pull user cals w)))
     = tasks_of_others (User._id user) (db w).
Proof.
  intros Hk.
  apply (pull_rule user
           (fun w' => well_keyed (db w')
                      /\ tasks_of_others (User._id user) (db w')
                         = tasks_of_others (User._id user) (db w))).
  - intros cal e w0 w' k E [Hk0 Ho].
    destruct (pull_event_cases user cal e w0 w' k E)
      as [[-> _]|[(existing & f & Hin & Hu & Hid & Hus & -> & _)
                 |(doc & Hid & Hus & -> & _)]].
    + split; assumption.
    + cbn [db]. rewrite <- Ho. apply others_update; try assumption.
      intros y Hy Hy'. rewrite <- Hu. f_equal.
      apply (nodup_id_inj (Db.tasks (db w0))); [apply Hk0|assumption|assumption|exact Hy'].
    + cbn [db]. rewrite <- Ho. apply others_insert; assumption.
  - intros w0 e _ _ H. exact H.
  - intros w0 f H. exact H.
  - intros w0 H. exact H.
  - split; [exact Hk|reflexivity].
Qed.

Lemma push_loop_spares_others (prefs : Preferences.t) (cal : string) (uid : ObjectId)
    (l : list Task.t) (w : World Remote) (c : Z) :
  well_keyed (db w) ->
  (forall t, In t l ->
     exists y, In y (Db.tasks (db w)) /\ Task._id y = Task._id t /\ Task.user y = uid) ->
  well_keyed (db (fst (push_loop_ prefs cal l w c)))
  /\ tasks_of_others uid (db (fst (push_loop_ prefs cal l w c)))
     = tasks_of_others uid (db w).
Proof.
  revert w c. induction l as [|t l IH]; intros w c Hk Hl; cbn [push_loop].
  - split; [exact Hk|reflexivity].
  - assert (Hrest : forall t', In t' l ->
              exists y, In y (Db.tasks (db w)) /\ Task._id y = Task._id t'
                        /\ Task.user y = uid)
      by (intros t' Ht'; apply Hl; right; exact Ht').
    destruct (push_task_cases prefs cal t w) as [(_ & Hdb & _)|(_ & [new_id Hdb] & _)];
      destruct (push_task_ prefs cal t w) as [w1 ok]; cbn [fst snd] in *.
    + rewrite <- Hdb in Hk, Hrest. rewrite <- Hdb. apply IH; assumption.
    + destruct (Hl t (or_introl eq_refl)) as (y0 & Hy0 & Hid0 & Hu0).
      destruct (others_update uid (Task._id t)
                  (push_bookkeeping new_id cal (utcnow_at (clock w))) (db w) Hk)
        as [Hk1 Ho1]; try reflexivity.
      { intros y Hy Hy'. rewrite <- Hu0. f_equal.
        apply (nodup_id_inj (Db.tasks (db w))); [apply Hk|assumption|assumption|].
        congruence. }
      rewrite <- Hdb in Hk1, Ho1. rewrite <- Ho1. apply IH; [exact Hk1|].
      intros t' Ht'. destruct (Hrest t' Ht') as (y & Hy & Hid & Hu).
      exists (if N.eqb (Task._id y) (Task._id t)
              then push_bookkeeping new_id cal (utcnow_at (clock w)) y else y).
      split.
      * rewrite Hdb. cbn [Db.tasks_update_one Db.tasks].
        rewrite update_first_by_id by apply Hk.
        apply (in_map (fun y => if N.eqb (Task._id y) (Task._id t)
                                then push_bookkeeping new_id cal (utcnow_at (clock w)) y
                                else y)), Hy.
      * destruct (N.eqb (Task._id y) (Task._id t)); split; assumption.
Qed.

Lemma push_spares_others (user : User.t) (prefs : Preferences.t) (cal : string)
    (w : World Remote) :
  well_keyed (db w) ->
  well_keyed (db (fst (push user prefs cal w)))
  /\ tasks_of_others (User._id user) (db (fst (push user prefs cal w)))
     = tasks_of_others (User._id user) (db w).
Proof.
  intros Hk. unfold _push_to_google.
  pose proof (select_tasks_to_push_filter
                (Db.tasks_find (fun t => N.eqb (Task.user t) (User._id user)) (db w)))
    as Hsel.
  destruct (select_tasks_to_push _) as [stats l]. cbn [snd] in Hsel.
  pose proof (push_loop_spares_others prefs cal (User._id user) l w 0 Hk) as Hloop.
  destruct (push_loop_ prefs cal l w 0) as [w1 n]. cbn [fst] in *.
  assert (H : well_keyed (db w1)
              /\ tasks_of_others (User._id user) (db w1)
                 = tasks_of_others (User._id user) (db w)).
  { apply Hloop. intros t Ht. rewrite Hsel in Ht.
    apply filter_In in Ht. destruct Ht as [Ht _].
    apply filter_In in Ht. destruct Ht as [Ht Hu]. apply N.eqb_eq in Hu.
    exists t. repeat split; assumption. }
  destruct (0 <? n); exact H.
Qed.

Lemma cycle_frame (user : User.t) (w : World Remote) :
  well_keyed (db w) ->
  well_keyed (db (fst (cycle user w)))
  /\ tasks_of_others (User._id user) (db (fst (cycle user w)))
     = tasks_of_others (User._id user) (db w).
Proof.
  intros Hk. unfold _sync_user_calendar.
  destruct (credentials_tasks creds_expired creds_refresh user (db w)) as [Ht Hn].
  destruct (credentials user (db w)) as [creds d1]. cbn [snd] in Ht, Hn.
  assert (Hk1 : well_keyed (db (with_db d1 w))).
  { destruct Hk as [Hnd Hfresh]. split; cbn [db with_db]; rewrite Ht; [exact Hnd|].
    rewrite Hn. exact Hfresh. }
  assert (Ho1 : tasks_of_others (User._id user) (db (with_db d1 w))
                = tasks_of_others (User._id user) (db w)).
  { unfold tasks_of_others. cbn [db with_db]. rewrite Ht. reflexivity. }
  destruct creds as [creds|].
  - unfold sync_phases.
    destruct (pull_spares_others user (selected_or_primary user) (with_db d1 w) Hk1)
      as [Hk2 Ho2].
    destruct (pull user (selected_or_primary user) (with_db d1 w)) as [w2 [n|m]];
      cbn [fst] in *.
    + destruct (push_spares_others user (User.preferences user)
                  (hd "primary"%string (selected_or_primary user)) w2 Hk2) as [Hk3 Ho3].
      destruct (push user (User.preferences user) _ w2) as [w3 k]. cbn [fst] in *.
      split; [exact Hk3|congruence].
    + split; [exact Hk2|congruence].
  - destruct (truthy_str (User.googleAccessToken user)); cbn [fst];
      (split; [exact Hk1|exact Ho1]).
Qed.

(** X4.  A cycle for one user leaves the tasks of every other user as they were,
    in place: it overwrites, creates and stamps only tasks of its own user.
    (Identifiers are taken to be unique, as the store hands them out.) *)
Theorem cycle_spares_other_users (user : User.t) (w : World Remote) :
  well_keyed (db w) ->
  tasks_of_others (User._id user) (db (fst (cycle user w)))
  = tasks_of_others (User._id user) (db w).
Proof. intros Hk. apply cycle_frame, Hk. Qed.

(** *** A pulled event comes back *)

Lemma pull_event_detail (user : User.t) (cal : string) (event : Event.t)
    (w w' : World Remote) (k : Z) :
  pull_event_ user cal event w = Ok (w', k) ->
  w' = w
  \/ (exists existing eu tu f,
        In existing (Db.tasks (db w))
        /\ event_updated_naive event = Ok (Some eu)
        /\ Task.updatedAt existing = Some tu
        /\ DT.gtb eu tu = true
        /\ (forall x, Task._id (f x) = Task._id x)
        /\ w' = mkWorld (Db.tasks_update_one (Task._id existing) f (db w))
                  (remote w) (S (clock w)) (trace w))
  \/ (exists doc,
        (forall oid, Task._id (doc oid) = oid
                     /\ created_from utcnow_at (User._id user) cal event
                          (clock w) (doc oid))
        /\ w' = mkWorld (Db.tasks_insert_one doc (db w))
                  (remote w) (S (S (S (clock w)))) (trace w)).
Proof.
  unfold pull_event, utcnow.
  destruct (Event.id event) as [[|c r]|] eqn:Eid;
    try (intros [= <- <-]; left; reflexivity).
  destruct (event_start _ _ event _) as [[[due_date due_time]|]|m]; cbn [bind];
    try discriminate; try (intros [= <- <-]; left; reflexivity).
  destruct (event_updated_naive event) as [eu|m]; cbn [bind]; try discriminate.
  cbv beta iota zeta.
  destruct (Db.tasks_find_one _ (db w)) as [existing|] eqn:Efind.
  - destruct eu as [eu|], (Task.updatedAt existing) as [tu|] eqn:Etu;
      try (intros [= <- <-]; left; reflexivity).
    destruct (DT.gtb eu tu) eqn:Eg; [|intros [= <- <-]; left; reflexivity].
    apply find_some in Efind. destruct Efind as [Hin _].
    intros [= <- <-]. right. left.
    exists existing, eu, tu,
      (pull_overwrite (summary_or_untitled event) (description_or_empty event)
         due_date due_time (utcnow_at (clock w))).
    repeat split; try assumption; reflexivity.
  - intros [= <- <-]. right. right.
    eexists. split; [|reflexivity].
    intros oid. split; [reflexivity|].
    exists (String c r). cbn.
    repeat split; try reflexivity; try discriminate. exact Eid.
Qed.

Lemma pull_raise_db (user : User.t) (cals : list string) (w : World Remote)
    (msg : string) :
  snd (pull user cals w) = Raise msg -> db (fst (pull user cals w)) = db w.
Proof.
  unfold _pull_from_google.
  pose proof (pull_window_db Remote utcnow_at user w) as Hdb.
  destruct (pull_window_ user w) as [w2 [[tmin tmax]|m]]; cbn [fst] in Hdb.
  - destruct (pull_calendars_ user tmin tmax cals w2 0) as [[w3 cnt] returned].
    destruct returned; cbn; discriminate.
  - intros _. exact Hdb.
Qed.

(** The tasks that the pull phase adds to a store, when no listed event is
    stamped later than the clock shows, are as it created them. *)
Lemma pull_keeps_created (user : User.t) (cals : list string) (w : World Remote) :
  well_keyed (db w) ->
  (forall cal tmin tmax events e eu n,
     In cal cals ->
     events_list (remote w) cal tmin tmax = Ok events -> In e events ->
     event_updated_naive e = Ok (Some eu) -> (clock w <= n)%nat ->
     DT.gtb eu (utcnow_at n) = false) ->
  forall t,
    In t (Db.tasks (db (fst (pull user cals w)))) ->
    (Db.next_oid (db w) <= Task._id t)%N ->
    exists cal tmin tmax events e k,
      In cal cals /\ events_list (remote w) cal tmin tmax = Ok events /\ In e events
      /\ (clock w <= k)%nat
      /\ created_from utcnow_at (User._id user) cal e k t.
Proof.
  intros Hkeys Hpast.
  assert (H : (fun w' =>
            remote w' = remote w /\ (clock w <= clock w')%nat
            /\ well_keyed (db w')
            /\ (Db.next_oid (db w) <= Db.next_oid (db w'))%N
            /\ forall t,
                 In t (Db.tasks (db w')) ->
                 (Db.next_oid (db w) <= Task._id t)%N ->
                 exists cal tmin tmax events e k,
                   In cal cals /\ events_list (remote w) cal tmin tmax = Ok events
                   /\ In e events /\ (clock w <= k)%nat
                   /\ created_from utcnow_at (User._id user) cal e k t)
           (fst (pull user cals w))).
  { apply (pull_keeps pytz_timezone system_utcoffset Remote events_list utcnow_at
             user cals).
    - intros cal tmin tmax events e w0 w' k Hcal Hlist He
             (Hrem & Hclk & Hk0 & Hnext & Hshape) E.
      destruct (pull_event_detail user cal e w0 w' k E)
        as [->|[(existing & eu & tu & f & Hin & Heu & Htu & Hg & Hf & ->)
               |(doc & Hdoc & ->)]].
      + exact (conj Hrem (conj Hclk (conj Hk0 (conj Hnext Hshape)))).
      + cbn [remote clock db].
        split; [exact Hrem|]. split; [lia|].
        split; [apply well_keyed_update; assumption|].
        split; [exact Hnext|].
        intros y Hy Hfresh. cbn [Db.tasks_update_one Db.tasks] in Hy.
        rewrite update_first_by_id in Hy by apply Hk0.
        apply in_map_iff in Hy. destruct Hy as (x & <- & Hx).
        destruct (N.eqb (Task._id x) (Task._id existing)) eqn:Ex;
          [|apply Hshape; assumption].
        exfalso. apply N.eqb_eq in Ex.
        rewrite (nodup_id_inj _ x existing (proj1 Hk0) Hx Hin Ex) in *.
        rewrite Hf in Hfresh.
        destruct (Hshape existing Hin Hfresh)
          as (cal' & tmin' & tmax' & events' & e' & k' & _ & _ & _ & Hk' & eid & Hc).
        destruct Hc as (_ & _ & _ & _ & _ & _ & _ & _ & _ & _ & _ & Hupd).
        rewrite Htu in Hupd. injection Hupd as ->.
        rewrite Hrem in Hlist.
        rewrite (Hpast cal tmin tmax events e eu (S (S k')) Hcal Hlist He Heu) in Hg
          by lia.
        discriminate.
      + cbn [remote clock db].
        split; [exact Hrem|]. split; [lia|].
        split; [apply well_keyed_insert; [intros oid; apply Hdoc|exact Hk0]|].
        split; [cbn [Db.tasks_insert_one Db.next_oid]; lia|].
        intros y Hy Hfresh. cbn [Db.tasks_insert_one Db.tasks] in Hy.
        apply in_app_or in Hy. destruct Hy as [Hy|[<-|[]]].
        * apply Hshape; assumption.
        * exists cal, tmin, tmax, events, e, (clock w0).
          rewrite <- Hrem. repeat split; try assumption. apply Hdoc.
    - intros w0 e _ H. exact H.
    - intros w0 f H. exact H.
    - intros w0 (Hrem & Hclk & H).
      cbn [remote clock db]. split; [exact Hrem|]. split; [lia|exact H].
    - split; [reflexivity|]. split; [lia|]. split; [exact Hkeys|]. split; [lia|].
      intros t Ht Hfresh. destruct Hkeys as [_ Hbelow].
      specialize (Hbelow t Ht). lia. }
  intros t Ht Hfresh. destruct H as (_ & _ & _ & _ & H). apply H; assumption.
Qed.

(** X5.  A task that the pull phase of a run creates from a listed event - a
    task of the store after the phase whose identifier the store had not
    handed out before the run - is stamped with three readings of the clock,
    [lastSyncedAt] first and [updatedAt] last, and - no listed event bearing
    a modification time later than the clock shows - it stays so to the end
    of the phase.  As soon as
    the clock has moved between the first reading and the third, the new
    task counts as edited since its synchronisation: the push phase of the
    same run selects it and, when its event body can be built, sends the
    event back as an update. *)
Theorem pulled_task_is_pushed_back (user : User.t) (w : World Remote) (t : Task.t) :
  let cals := selected_or_primary user in
  let started := with_db (snd (credentials user (db w))) w in
  let pulled := fst (pull user cals started) in
  well_keyed (db w) ->
  fst (credentials user (db w)) <> None ->
  (forall cal tmin tmax events e eu n,
     In cal cals ->
     events_list (remote w) cal tmin tmax = Ok events -> In e events ->
     event_updated_naive e = Ok (Some eu) -> (clock w <= n)%nat ->
     DT.gtb eu (utcnow_at n) = false) ->
  In t (Db.tasks (db pulled)) ->
  (Db.next_oid (db w) <= Task._id t)%N ->
  exists cal tmin tmax events e k,
    In cal cals /\ events_list (remote w) cal tmin tmax = Ok events /\ In e events
    /\ (clock w <= k)%nat
    /\ created_from utcnow_at (User._id user) cal e k t
    /\ (DT.gtb (utcnow_at (S (S k))) (utcnow_at k) = true ->
        In t (snd (select_tasks_to_push
                     (Db.tasks_find (fun x => N.eqb (Task.user x) (User._id user))
                        (db pulled))))
        /\ forall body event_id,
             build t (User.preferences user) = Ok body ->
             Task.googleEventId t = Some event_id ->
             In (EventsUpdate (Some cal) event_id body) (trace (fst (cycle user w)))).
Proof.
  intros cals started pulled Hkeys Hcreds Hpast Ht Hfresh.
  destruct (credentials_tasks creds_expired creds_refresh user (db w)) as [Htasks Hnext].
  assert (Hkeys' : well_keyed (db started)).
  { destruct Hkeys as [Hnd Hbelow]. unfold started.
    split; cbn [db with_db]; rewrite Htasks; [exact Hnd|].
    rewrite Hnext. exact Hbelow. }
  assert (Hfresh' : (Db.next_oid (db started) <= Task._id t)%N).
  { unfold started. cbn [db with_db]. rewrite Hnext. exact Hfresh. }
  destruct (pull_keeps_created user cals started Hkeys' Hpast t Ht Hfresh')
    as (cal & tmin & tmax & events & e & k & Hcal & Hlist & He & Hk & Hc).
  exists cal, tmin, tmax, events, e, k.
  split; [exact Hcal|]. split; [exact Hlist|]. split; [exact He|].
  split; [exact Hk|]. split; [exact Hc|].
  intros Hmoved.
  destruct Hc as (eid & Hid & Hne & Hu & _ & Hg & Hgc & Hsync & Hst & Hdue & Hl
                  & _ & Hupd).
  assert (Hcand : push_candidate t = true).
  { apply push_candidate_spelled. rewrite Hst.
    repeat split; try assumption. right.
    exists (utcnow_at (S (S k))), (utcnow_at k). repeat split; assumption. }
  assert (Hsel : In t (filter push_candidate
                         (Db.tasks_find (fun x => N.eqb (Task.user x) (User._id user))
                            (db pulled)))).
  { apply filter_In. split; [|exact Hcand].
    apply filter_In. split; [exact Ht|]. apply N.eqb_eq. exact Hu. }
  split; [rewrite select_tasks_to_push_filter; exact Hsel|].
  intros body event_id Hbody Hg'.
  rewrite Hg in Hg'. injection Hg' as <-.
  assert (Hcall : In (EventsUpdate (Some cal) eid body)
                    (push_call pytz_timezone (User.preferences user)
                       (hd "primary"%string cals) t)).
  { unfold push_call. rewrite Hbody, Hg, Hgc.
    destruct eid as [|c r]; [contradiction|]. left. reflexivity. }
  unfold _sync_user_calendar. unfold started in *.
  destruct (credentials user (db w)) as [creds d1]. cbn [fst snd] in *.
  destruct creds as [creds|]; [|contradiction].
  unfold sync_phases. fold cals.
  pose proof (pull_raise_db user cals (with_db d1 w)) as Hraise.
  unfold pulled in *.
  destruct (pull user cals (with_db d1 w)) as [wp [n|m]]; cbn [fst snd] in *.
  - pose proof (push_phase_calls pytz_timezone Remote events_insert events_update
                  utcnow_at user (User.preferences user)
                  (hd "primary"%string cals) wp) as Hp.
    destruct (push user (User.preferences user) _ wp) as [w3 c3]. cbn [fst] in *.
    assert (Hin : In (EventsUpdate (Some cal) eid body)
                    (filter is_push_call (trace w3))).
    { rewrite Hp. apply in_or_app. right. apply in_flat_map.
      exists t. split; [exact Hsel|exact Hcall]. }
    apply filter_In in Hin. apply Hin.
  - exfalso. rewrite (Hraise m eq_refl) in Ht.
    destruct Hkeys' as [_ Hbelow]. specialize (Hbelow t Ht). lia.
Qed.

End CycleProperties.

(** ** The reminder check *)

Lemma map_update_first {A B : Type} (g : A -> B) (p : A -> bool) (f : A -> A)
    (l : list A) :
  (forall x, g (f x) = g x) -> map g (Db.update_first p f l) = map g l.
Proof.
  intros H. induction l as [|x l IH]; cbn; [reflexivity|].
  destruct (p x); cbn; [rewrite H|rewrite IH]; reflexivity.
Qed.

Lemma filter_all {A : Type} (l : list A) : filter (fun _ => true) l = l.
Proof. induction l as [|x l IH]; cbn; [reflexivity|]. rewrite IH. reflexivity. Qed.

Lemma scan_reminders_raises (now one : DT.datetime) (l acc : list Task.t)
    (t : Task.t) (m : string) :
  In t l -> reminder_due now one t = Raise m ->
  exists m', scan_reminders now one l acc = Raise m'.
Proof.
  revert acc. induction l as [|x l IH]; intros acc Hin Hr; [contradiction|].
  cbn [scan_reminders].
  destruct (reminder_due now one x) as [due|m'] eqn:E; cbn [bind].
  - destruct Hin as [->|Hin]; [congruence|]. apply IH; assumption.
  - exists m'. reflexivity.
Qed.

Section ReminderProperties.

Variable vapid_private_key : string.
Variable vapid_email : string.
Variable pywebpush_installed : bool.
Variable webpush :
  string -> list (string * string) -> Payload.t -> string -> string -> result unit.
Variable find_subscription : ObjectId -> option Subscription.t.
Variable utcnow_at : nat -> DT.datetime.

Local Abbreviation send_push :=
  (_send_push_notification vapid_private_key vapid_email pywebpush_installed webpush).
Local Abbreviation send_reminder :=
  (_send_reminder vapid_private_key vapid_email pywebpush_installed webpush
     find_subscription utcnow_at).
Local Abbreviation check_reminders :=
  (_check_reminders vapid_private_key vapid_email pywebpush_installed webpush
     find_subscription utcnow_at).

Lemma send_push_store (sub : Subscription.t) (payload : Payload.t) (d : Desk) :
  store (fst (send_push sub payload d)) = store d
  /\ reading (fst (send_push sub payload d)) = reading d.
Proof.
  unfold _send_push_notification.
  destruct vapid_private_key; [split; reflexivity|].
  destruct pywebpush_installed; cbn [negb]; [|split; reflexivity].
  destruct (Subscription.endpoint sub); [|split; reflexivity].
  destruct (Subscription.keys sub); split; reflexivity.
Qed.

Lemma send_reminder_frame (task : Task.t) (d : Desk) :
  map without_lastSent (Db.tasks (store (send_reminder task d)))
  = map without_lastSent (Db.tasks (store d))
  /\ Db.users (store (send_reminder task d)) = Db.users (store d)
  /\ Db.lists (store (send_reminder task d)) = Db.lists (store d)
  /\ Db.next_oid (store (send_reminder task d)) = Db.next_oid (store d).
Proof.
  unfold _send_reminder.
  destruct (find_subscription (Task.user task)) as [sub|]; [|repeat split].
  destruct (send_push_store sub (reminder_payload task) d) as [Hs _].
  destruct (send_push sub (reminder_payload task) d) as [d1 [u|m]]; cbn [fst] in Hs;
    cbn [store]; rewrite <- Hs; [|repeat split].
  cbn [Db.tasks_update_one Db.tasks Db.users Db.lists Db.next_oid].
  repeat split. apply map_update_first. reflexivity.
Qed.

(** X7.  The reminder check writes nothing but the stamp [reminder.lastSent]:
    apart from that stamp every task is as it was, none is added or removed,
    and the users and the lists are untouched. *)
Theorem check_reminders_only_stamps (d : Desk) :
  map without_lastSent (Db.tasks (store (fst (check_reminders d))))
  = map without_lastSent (Db.tasks (store d))
  /\ Db.users (store (fst (check_reminders d))) = Db.users (store d)
  /\ Db.lists (store (fst (check_reminders d))) = Db.lists (store d).
Proof.
  unfold _check_reminders.
  destruct (DT.add_seconds _ 60) as [one|m]; [|repeat split].
  destruct (scan_reminders _ one _ []) as [todo|m]; [|repeat split].
  cbn [fst].
  change (Db.tasks (store d)) with
    (Db.tasks (store (mkDesk (store d) (S (reading d)) (pushes d)))).
  change (Db.users (store d)) with
    (Db.users (store (mkDesk (store d) (S (reading d)) (pushes d)))).
  change (Db.lists (store d)) with
    (Db.lists (store (mkDesk (store d) (S (reading d)) (pushes d)))).
  generalize (mkDesk (store d) (S (reading d)) (pushes d)). clear d.
  induction todo as [|t todo IH]; intros d; cbn [fold_left]; [repeat split|].
  destruct (IH (send_reminder t d)) as (H1 & H2 & H3).
  destruct (send_reminder_frame t d) as (F1 & F2 & F3 & _).
  rewrite H1, H2, H3. repeat split; assumption.
Qed.

(** X9.  One task whose reminder time cannot be worked out stops the whole
    check: the exception leaves the selection loop, so no notification is
    sent and no task is stamped in that round, whichever tasks are due. *)
Theorem one_bad_reminder_blocks_all (d : Desk) (t : Task.t)
    (one_minute_from_now : DT.datetime) (msg : string) :
  In t (Db.tasks (store d)) ->
  DT.add_seconds (utcnow_at (reading d)) 60 = Ok one_minute_from_now ->
  reminder_due (utcnow_at (reading d)) one_minute_from_now t = Raise msg ->
  exists msg',
    check_reminders d = (mkDesk (store d) (S (reading d)) (pushes d), Raise msg').
Proof.
  intros Hin Hone Hr. unfold _check_reminders. rewrite Hone.
  unfold Db.tasks_find. cbn [store].
  rewrite filter_all.
  destruct (scan_reminders_raises _ _ (Db.tasks (store d)) [] t msg Hin Hr) as [m' E].
  rewrite E. exists m'. reflexivity.
Qed.

(** A lead time beyond what [timedelta] can hold is such a case, and so is
    a [minutesBefore] stored as [None]. *)
Lemma huge_lead_time_raises (now one : DT.datetime) (t : Task.t)
    (due_date : DT.datetime) :
  Reminder.enabled (get_reminder t) = Some true ->
  get_default (Reminder.notifyDesktop (get_reminder t)) true = Some true ->
  Reminder.lastSent (get_reminder t) = None ->
  Task.dueDate t = Some due_date ->
  (Reminder.minutesBefore (get_reminder t) = Null
   \/ exists minutes, Reminder.minutesBefore (get_reminder t) = Val minutes
                      /\ 999999999 < Z.abs (minutes * 60 / 86400)) ->
  exists msg, reminder_due now one t = Raise msg.
Proof.
  intros He Hd Hl Hdue Hm. unfold reminder_due.
  rewrite He, Hd, Hl, Hdue. cbn [truthy_bool negb bind].
  destruct Hm as [Hm|(minutes & Hm & Hbig)]; rewrite Hm;
    cbn [get_default lead_time bind]; [eexists; reflexivity|].
  unfold timedelta_minutes. cbv zeta.
  destruct (Z.leb_spec (Z.abs (minutes * 60 / 86400)) 999999999);
    try lia; cbn [bind]; eexists; reflexivity.
Qed.

(** X10.  A reminder that was sent is not selected again for five minutes: the
    stamp that [_send_reminder] writes is the one the check reads. *)
Theorem sent_reminder_is_not_repeated (task : Task.t) (d : Desk)
    (sub : Subscription.t) :
  NoDup (map Task._id (Db.tasks (store d))) ->
  In task (Db.tasks (store d)) ->
  find_subscription (Task.user task) = Some sub ->
  snd (send_push sub (reminder_payload task) d) = Ok tt ->
  DT.tzinfo (utcnow_at (reading d)) = None ->
  task_by_id (Task._id task) (store (send_reminder task d))
  = Some (set_lastSent (utcnow_at (reading d)) task)
  /\ forall now one_minute_from_now,
       microseconds_of now - microseconds_of (utcnow_at (reading d)) < 300 * 1000000 ->
       reminder_due now one_minute_from_now
         (set_lastSent (utcnow_at (reading d)) task) = Ok false.
Proof.
  intros Hnd Hin Hsub Hok Hnaive. split.
  - unfold _send_reminder. rewrite Hsub.
    destruct (send_push_store sub (reminder_payload task) d) as [Hs Hr].
    destruct (send_push sub (reminder_payload task) d) as [d1 [u|m]];
      cbn [fst snd] in *; [|discriminate].
    cbn [store]. rewrite Hs, Hr, task_by_id_update by reflexivity.
    rewrite (task_by_id_of_In task (store d) Hnd Hin). reflexivity.
  - intros now one Hlt. unfold reminder_due.
    cbn [get_reminder set_lastSent Task.reminder Reminder.enabled
         Reminder.notifyDesktop Reminder.lastSent].
    destruct (truthy_bool _); cbn [negb]; [|reflexivity].
    destruct (truthy_bool (get_default _ true)); cbn [negb]; [|reflexivity].
    unfold since. rewrite Hnaive. cbn [bind].
    destruct (Z.ltb_spec (microseconds_of now - microseconds_of (utcnow_at (reading d)))
                (300 * 1000000)); [reflexivity|lia].
Qed.

(** X11.  Without a VAPID key, or without the [pywebpush] library, no notification
    goes out - and yet the reminder is stamped as sent, which keeps it from
    being selected for the next five minutes. *)
Theorem reminder_stamped_without_push (task : Task.t) (d : Desk)
    (sub : Subscription.t) :
  vapid_private_key = EmptyString \/ pywebpush_installed = false ->
  find_subscription (Task.user task) = Some sub ->
  pushes (send_reminder task d) = pushes d
  /\ store (send_reminder task d)
     = Db.tasks_update_one (Task._id task)
         (set_lastSent (utcnow_at (reading d))) (store d).
Proof.
  intros Hno Hsub. unfold _send_reminder, _send_push_notification. rewrite Hsub.
  destruct Hno as [-> | ->].
  - split; reflexivity.
  - destruct vapid_private_key; split; reflexivity.
Qed.

(** X12.  When the user has no push subscription, or the push raises, the task is
    not stamped: the store stays as it was, so the reminder is selected
    again by the next check while its time is in the window. *)
Theorem failed_reminder_is_not_stamped (task : Task.t) (d : Desk) :
  (find_subscription (Task.user task) = None
   \/ exists sub msg,
        find_subscription (Task.user task) = Some sub
        /\ snd (send_push sub (reminder_payload task) d) = Raise msg) ->
  store (send_reminder task d) = store d
  /\ reading (send_reminder task d) = reading d.
Proof.
  intros [Hnone|(sub & msg & Hsub & Hraise)]; unfold _send_reminder.
  - rewrite Hnone. split; reflexivity.
  - rewrite Hsub.
    destruct (send_push_store sub (reminder_payload task) d) as [Hs Hr].
    destruct (send_push sub (reminder_payload task) d) as [d1 [u|m]];
      cbn [fst snd] in *; [discriminate|]. split; assumption.
Qed.

End ReminderProperties.

(** ** A due time that does not read as hours and minutes *)

Section DueTime.

Variable pytz_timezone : string -> option Tz.t.


End DueTime.

(** ** Widening the calendar selection *)

(** X14.  A new selection that keeps every calendar of the previous one deletes
    nothing: no task is removed and the count of deleted events is zero.
    (The previous selection is ["primary"] when none is stored, or when the
    stored one is empty.) *)
Theorem widening_selection_deletes_nothing (calendar_ids : list string)
    (current_user : User.t) (d : Db.t) :
  (forall c, In c (selected_or_primary current_user) -> In c calendar_ids) ->
  fst (select_calendars calendar_ids current_user d) = 0
  /\ Db.tasks (snd (select_calendars calendar_ids current_user d)) = Db.tasks d.
Proof.
  intros Hkeep. unfold select_calendars.
  assert (Hnone : deselected_calendars (selected_or_primary current_user) calendar_ids
                  = []).
  { unfold deselected_calendars. apply filter_none. intros c Hc.
    rewrite (proj2 (mem_In c calendar_ids) (Hkeep c Hc)). reflexivity. }
  rewrite Hnone. split; reflexivity.
Qed.

(** ** The loop over the users *)

Lemma filter_of_others (uid other : ObjectId) (l : list Task.t) :
  other <> uid ->
  filter (fun t => N.eqb (Task.user t) uid) l
  = filter (fun t => N.eqb (Task.user t) uid)
      (filter (fun t => negb (N.eqb (Task.user t) other)) l).
Proof.
  intros Hne. rewrite filter_filter_and. apply filter_ext. intros t.
  destruct (N.eqb (Task.user t) uid) eqn:E; [|symmetry; apply andb_false_r].
  apply N.eqb_eq in E. rewrite E.
  destruct (N.eqb_spec uid other); [congruence|reflexivity].
Qed.

Section RequestProperties.

Variable pytz_timezone : string -> option Tz.t.
Variable system_utcoffset : DT.datetime -> Z.
Variable creds_expired : User.t -> bool.
Variable creds_refresh : User.t -> result (string * option string).
Variable Remote : Type.
Variable events_list : Remote -> string -> string -> string -> result (list Event.t).
Variable events_insert : Remote -> string -> Body.t -> result Event.t * Remote.
Variable events_update :
  Remote -> option string -> string -> Body.t -> result Event.t * Remote.
Variable utcnow_at : nat -> DT.datetime.

Local Abbreviation build := (build_google_calendar_event pytz_timezone).
Local Abbreviation credentials := (get_credentials_from_user creds_expired creds_refresh).
Local Abbreviation cycle :=
  (_sync_user_calendar pytz_timezone system_utcoffset creds_expired creds_refresh
     Remote events_list events_insert events_update utcnow_at).
Local Abbreviation sync_users_ :=
  (sync_users pytz_timezone system_utcoffset creds_expired creds_refresh
     Remote events_list events_insert events_update utcnow_at).
Local Abbreviation sync_all :=
  (_bidirectional_sync_all_users pytz_timezone system_utcoffset creds_expired
     creds_refresh Remote events_list events_insert events_update utcnow_at).
Local Abbreviation manual_push :=
  (push_task_to_calendar pytz_timezone creds_expired creds_refresh Remote
     events_insert events_update utcnow_at).
Local Abbreviation push_all_task_ :=
  (push_all_task pytz_timezone Remote events_insert utcnow_at).
Local Abbreviation push_all_loop_ :=
  (push_all_loop pytz_timezone Remote events_insert utcnow_at).
Local Abbreviation push_all :=
  (push_all_tasks_to_calendar pytz_timezone creds_expired creds_refresh Remote
     events_insert utcnow_at).

Lemma sync_users_frame (uid : ObjectId) (users : list User.t) (w : World Remote)
    (c : Z) :
  well_keyed (db w) ->
  (forall u, In u users -> User._id u <> uid) ->
  well_keyed (db (fst (sync_users_ users w c)))
  /\ filter (fun t => N.eqb (Task.user t) uid) (Db.tasks (db (fst (sync_users_ users w c))))
     = filter (fun t => N.eqb (Task.user t) uid) (Db.tasks (db w)).
Proof.
  revert w c. induction users as [|u users IH]; intros w c Hk Hu; cbn [sync_users].
  - split; [exact Hk|reflexivity].
  - destruct (cycle_frame pytz_timezone system_utcoffset creds_expired creds_refresh
                Remote events_list events_insert events_update utcnow_at u w Hk)
      as [Hk1 Ho].
    destruct (cycle u w) as [w1 result]. cbn [fst] in *.
    destruct (IH w1 (if result then c + 1 else c) Hk1) as [Hk2 Hf].
    { intros u' Hu'. apply Hu. right. exact Hu'. }
    split; [exact Hk2|]. rewrite Hf.
    assert (Hne : User._id u <> uid) by (apply Hu; left; reflexivity).
    rewrite (filter_of_others uid (User._id u) (Db.tasks (db w1)) Hne).
    rewrite (filter_of_others uid (User._id u) (Db.tasks (db w)) Hne).
    unfold tasks_of_others in Ho. rewrite Ho. reflexivity.
Qed.

(** X6.  The loop over the users runs a cycle only for the users that have an
    access token stored, and a cycle touches the tasks of its own user
    only: the tasks of a user without a token come out of the loop as they
    went in.  (Identifiers are taken to be unique.) *)
Theorem all_users_sync_spares_unconnected (uid : ObjectId) (w : World Remote) :
  well_keyed (db w) ->
  (forall u, In u (Db.users (db w)) -> User._id u = uid ->
             truthy_str (User.googleAccessToken u) = false) ->
  filter (fun t => N.eqb (Task.user t) uid) (Db.tasks (db (fst (sync_all w))))
  = filter (fun t => N.eqb (Task.user t) uid) (Db.tasks (db w)).
Proof.
  intros Hk Hoff. unfold _bidirectional_sync_all_users.
  set (users := filter (fun u => truthy_str (User.googleAccessToken u))
                  (Db.users (db w))).
  assert (Hu : forall u, In u users -> User._id u <> uid).
  { intros u Hin E. unfold users in Hin. apply filter_In in Hin.
    destruct Hin as [Hin Ht]. rewrite (Hoff u Hin E) in Ht. discriminate. }
  destruct (sync_users_frame uid users w 0 Hk Hu) as [_ Hf].
  destruct users as [|u0 rest]; [reflexivity|].
  destruct (sync_users_ (u0 :: rest) w 0) as [w1 n]. cbn [fst] in *. exact Hf.
Qed.

(** *** A push on request *)

Lemma find_by_id_and_user (oid uid : ObjectId) (d : Db.t) (task : Task.t) :
  NoDup (map Task._id (Db.tasks d)) ->
  Db.tasks_find_one (fun t => N.eqb (Task._id t) oid && N.eqb (Task.user t) uid) d
  = Some task ->
  task_by_id oid d = Some task /\ Task.user task = uid.
Proof.
  intros Hnd Hf. unfold Db.tasks_find_one in Hf. apply find_some in Hf.
  destruct Hf as [Hin Hp]. apply andb_true_iff in Hp. destruct Hp as [Hi Hu].
  apply N.eqb_eq in Hi, Hu. subst oid. split; [|exact Hu].
  apply task_by_id_of_In; assumption.
Qed.

(** X15.  A push on request stamps the task with two readings of the clock,
    [lastSyncedAt] first and [updatedAt] second.  So when the clock moves
    between two readings, the task it has just synchronised counts as edited
    since: if the task has [syncToCalendar] on and is not closed, the push
    phase of the scheduler selects it again. *)
Theorem manual_push_is_pushed_again (task_oid : ObjectId) (calendar_id : string)
    (current_user : User.t) (w w' : World Remote) (new_id : string) :
  NoDup (map Task._id (Db.tasks (db w))) ->
  (forall n, DT.gtb (utcnow_at (S n)) (utcnow_at n) = true) ->
  manual_push (Some task_oid) calendar_id current_user w = (w', Returns new_id) ->
  exists task,
    task_by_id task_oid (db w') = Some task
    /\ Task.user task = User._id current_user
    /\ Task.googleEventId task = Some new_id
    /\ Task.googleCalendarId task = Val calendar_id
    /\ (Task.syncToCalendar task = Some true ->
        terminal_status (Task.status task) = false ->
        push_candidate task = true).
Proof.
  intros Hnd Hclock. unfold push_task_to_calendar, utcnow.
  destruct (credentials_tasks creds_expired creds_refresh current_user (db w))
    as [Ht _].
  destruct (credentials current_user (db w)) as [creds d1]. cbn [snd] in Ht.
  destruct creds as [creds|]; [|discriminate].
  cbn [db with_db].
  destruct (Db.tasks_find_one _ d1) as [task|] eqn:Ef; [|discriminate].
  rewrite <- Ht in Hnd.
  destruct (find_by_id_and_user _ _ _ _ Hnd Ef) as [Hby Hu].
  destruct (truthy_some (Task.dueDate task)) eqn:Edue; cbn [negb]; [|discriminate].
  destruct (build task (User.preferences current_user)) as [body|m]; [|discriminate].
  assert (Hgoal : forall r k,
            exists task0,
              task_by_id task_oid
                (Db.tasks_update_one task_oid
                   (manual_bookkeeping r calendar_id (utcnow_at k) (utcnow_at (S k)))
                   d1) = Some task0
              /\ Task.user task0 = User._id current_user
              /\ Task.googleEventId task0 = Some r
              /\ Task.googleCalendarId task0 = Val calendar_id
              /\ (Task.syncToCalendar task0 = Some true ->
                  terminal_status (Task.status task0) = false ->
                  push_candidate task0 = true)).
  { intros r k.
    exists (manual_bookkeeping r calendar_id (utcnow_at k) (utcnow_at (S k)) task).
    rewrite task_by_id_update by reflexivity. rewrite Hby.
    repeat split; try assumption.
    cbn [manual_bookkeeping Task.syncToCalendar Task.status].
    intros Hs Hterm. unfold push_candidate.
    cbn [manual_bookkeeping Task.dueDate Task.status Task.syncToCalendar
         Task.googleEventId Task.updatedAt Task.lastSyncedAt].
    rewrite Edue, Hterm, Hs, Hclock. cbn. apply orb_true_r. }
  destruct (Task.googleEventId task) as [[|c r]|];
    [destruct (events_insert _ calendar_id body) as [[e|m] rem]
    |destruct (events_update _ (Some calendar_id) (String c r) body) as [[e|m] rem]
    |destruct (events_insert _ calendar_id body) as [[e|m] rem]];
    try destruct (Event.id e) as [r0|]; try discriminate;
    cbv beta iota zeta; cbn [db remote clock trace with_db with_remote emit];
    intros [= <- <-]; cbn [db]; apply Hgoal.
Qed.

(** X16.  A push on request that is refused leaves every task as it was; when
    it is refused with status 400 or 404 - no connection, no such task of
    this user, no due date - no call to the remote service has been made
    either. *)
Theorem refused_manual_push_changes_no_task (task_id : option ObjectId)
    (calendar_id : string) (current_user : User.t) (w w' : World Remote)
    (status_code : Z) (detail : string) :
  manual_push task_id calendar_id current_user w
  = (w', HTTPException status_code detail) ->
  Db.tasks (db w') = Db.tasks (db w)
  /\ (status_code = 400 \/ status_code = 404 \/ status_code = 500)
  /\ (status_code <> 500 -> trace w' = trace w /\ remote w' = remote w).
Proof.
  unfold push_task_to_calendar, utcnow.
  destruct (credentials_tasks creds_expired creds_refresh current_user (db w))
    as [Ht _].
  destruct (credentials current_user (db w)) as [creds d1]. cbn [snd] in Ht.
  destruct creds as [creds|].
  2:{ intros [= <- <- <-]. cbn. rewrite Ht. repeat split; auto. }
  destruct task_id as [task_oid|].
  2:{ intros [= <- <- <-]. cbn. rewrite Ht. repeat split; auto. }
  cbn [db with_db].
  destruct (Db.tasks_find_one _ d1) as [task|].
  2:{ intros [= <- <- <-]. cbn. rewrite Ht. repeat split; auto. }
  destruct (truthy_some (Task.dueDate task)); cbn [negb].
  2:{ intros [= <- <- <-]. cbn. rewrite Ht. repeat split; auto. }
  destruct (build task (User.preferences current_user)) as [body|m].
  2:{ intros [= <- <- <-]. cbn. rewrite Ht. repeat split; auto. }
  destruct (Task.googleEventId task) as [[|c r]|];
    [destruct (events_insert _ calendar_id body) as [[e|m] rem]
    |destruct (events_update _ (Some calendar_id) (String c r) body) as [[e|m] rem]
    |destruct (events_insert _ calendar_id body) as [[e|m] rem]];
    try destruct (Event.id e) as [r0|]; try discriminate;
    intros [= <- <- <-]; cbn; rewrite Ht; repeat split; auto; congruence.
Qed.

(** *** Pushing all tasks on request *)

Lemma push_all_loop_balance (prefs : Preferences.t) (cal : string) (l : list Task.t)
    (w : World Remote) (c : Z) (errors : list (ObjectId * string * string)) :
  snd (fst (push_all_loop_ prefs cal l w c errors))
  + Z.of_nat (List.length (snd (push_all_loop_ prefs cal l w c errors)))
  = c + Z.of_nat (List.length errors) + Z.of_nat (List.length l).
Proof.
  revert w c errors. induction l as [|t l IH]; intros w c errors; cbn [push_all_loop].
  - cbn [fst snd List.length]. lia.
  - destruct (push_all_task_ prefs cal t w) as [w1 [u|m]]; rewrite IH;
      rewrite ?length_app; cbn [List.length]; lia.
Qed.

(** X17.  Every eligible task of a push of all tasks ends in the count of pushed
    tasks or in the list of errors: the two add up to the number of tasks
    of the user that have a due date, no event yet and an open status -
    whether or not [syncToCalendar] is set on them. *)
Theorem push_all_balance (calendar_id : string) (current_user : User.t)
    (w w' : World Remote) (pushed_count : Z)
    (errors : option (list (ObjectId * string * string))) :
  push_all calendar_id current_user w = (w', Returns (pushed_count, errors)) ->
  pushed_count
  + Z.of_nat (List.length (match errors with Some l => l | None => [] end))
  = Z.of_nat (List.length
                (filter (fun t => N.eqb (Task.user t) (User._id current_user)
                                  && truthy_some (Task.dueDate t)
                                  && negb (truthy_str (Task.googleEventId t))
                                  && negb (terminal_status (Task.status t)))
                   (Db.tasks (db w)))).
Proof.
  unfold push_all_tasks_to_calendar.
  destruct (credentials_tasks creds_expired creds_refresh current_user (db w))
    as [Ht _].
  destruct (credentials current_user (db w)) as [creds d1]. cbn [snd] in Ht.
  destruct creds as [creds|]; [|discriminate].
  unfold Db.tasks_find. cbn [db with_db]. rewrite Ht, filter_filter_and.
  match goal with
  | |- context [push_all_loop_ ?p ?c ?l ?w0 0 []] =>
      pose proof (push_all_loop_balance p c l w0 0 []) as Hb;
      destruct (push_all_loop_ p c l w0 0 []) as [[w2 n] errs]
  end.
  cbn [fst snd List.length] in Hb. intros [= <- <- <-].
  assert (He : List.length (match match errs with [] => None | _ :: _ => Some errs end with
                            | Some l => l
                            | None => []
                            end) = List.length errs) by (destruct errs; reflexivity).
  rewrite He, Hb. cbn [Z.of_nat Z.add].
  f_equal. f_equal. apply filter_ext. intros t. unfold push_all_eligible.
  rewrite !andb_assoc. reflexivity.
Qed.

Lemma push_all_task_cases (prefs : Preferences.t) (cal : string) (t : Task.t)
    (w : World Remote) :
  (exists msg, snd (push_all_task_ prefs cal t w) = Raise msg)
  \/ (snd (push_all_task_ prefs cal t w) = Ok tt
      /\ exists body e rem new_id,
           events_insert (remote w) cal body = (Ok e, rem)
           /\ Event.id e = Some new_id
           /\ db (fst (push_all_task_ prefs cal t w))
              = Db.tasks_update_one (Task._id t)
                  (push_bookkeeping new_id cal (utcnow_at (clock w))) (db w)).
Proof.
  unfold push_all_task, utcnow.
  destruct (build t prefs) as [body|m]; [|left; eexists; reflexivity].
  destruct (events_insert (remote w) cal body) as [[e|m] rem] eqn:E;
    [|left; eexists; reflexivity].
  destruct (Event.id e) as [new_id|] eqn:Eid; [|left; eexists; reflexivity].
  right. split; [reflexivity|]. exists body, e, rem, new_id. repeat split; assumption.
Qed.

Lemma push_all_loop_errors (prefs : Preferences.t) (cal : string) (l : list Task.t)
    (w : World Remote) (c : Z) (errors : list (ObjectId * string * string)) :
  (List.length errors <= List.length (snd (push_all_loop_ prefs cal l w c errors)))%nat.
Proof.
  revert w c errors. induction l as [|t l IH]; intros w c errors; cbn [push_all_loop].
  - cbn [snd]. lia.
  - destruct (push_all_task_ prefs cal t w) as [w1 [u|m]].
    + apply IH.
    + eapply Nat.le_trans; [|apply IH]. rewrite length_app. cbn [List.length]. lia.
Qed.

Lemma push_all_loop_settles (prefs : Preferences.t) (cal : string) (uid : ObjectId)
    (l : list Task.t) (w : World Remote) (c : Z)
    (errors : list (ObjectId * string * string)) :
  (forall r cal body e r',
      events_insert r cal body = (Ok e, r') -> Event.id e <> Some EmptyString) ->
  NoDup (map Task._id (Db.tasks (db w))) ->
  List.length (snd (push_all_loop_ prefs cal l w c errors)) = List.length errors ->
  (forall t, In t (Db.tasks (db w)) -> Task.user t = uid ->
             push_all_eligible t = false \/ In (Task._id t) (map Task._id l)) ->
  forall t, In t (Db.tasks (db (fst (fst (push_all_loop_ prefs cal l w c errors))))) ->
            Task.user t = uid -> push_all_eligible t = false.
Proof.
  intros Hans. revert w c errors.
  induction l as [|t l IH]; intros w c errors Hnd Herr Hinv; cbn [push_all_loop] in *.
  - cbn [fst]. intros y Hy Hu. destruct (Hinv y Hy Hu) as [H|[]]. exact H.
  - destruct (push_all_task_cases prefs cal t w)
      as [[msg Hr]|(Hok & body & e & rem & new_id & Hins & Hid & Hdb)];
      destruct (push_all_task_ prefs cal t w) as [w1 r]; cbn [fst snd] in *; subst r.
    + exfalso.
      pose proof (push_all_loop_errors prefs cal l w1 c
                    (errors ++ [(Task._id t, Task.title t, msg)])) as Hle.
      rewrite Herr, length_app in Hle. cbn [List.length] in Hle. lia.
    + assert (Hne : new_id <> EmptyString).
      { intros ->. apply (Hans _ _ _ _ _ Hins Hid). }
      assert (Htasks : Db.tasks (db w1)
        = map (fun y => if N.eqb (Task._id y) (Task._id t)
                        then push_bookkeeping new_id cal (utcnow_at (clock w)) y
                        else y) (Db.tasks (db w))).
      { rewrite Hdb. cbn [Db.tasks_update_one Db.tasks].
        apply update_first_by_id. exact Hnd. }
      apply IH.
      * rewrite Hdb. cbn [Db.tasks_update_one Db.tasks].
        rewrite update_first_ids by reflexivity. exact Hnd.
      * exact Herr.
      * intros y Hy Hu. rewrite Htasks in Hy. apply in_map_iff in Hy.
        destruct Hy as (x & <- & Hx).
        destruct (N.eqb (Task._id x) (Task._id t)) eqn:E.
        -- left. unfold push_all_eligible, push_bookkeeping.
           cbn [Task.dueDate Task.googleEventId Task.status].
           destruct new_id as [|a b]; [contradiction|]. cbn [truthy_str negb].
           rewrite andb_false_r. reflexivity.
        -- destruct (Hinv x Hx Hu) as [H|[H|H]].
           ++ left. exact H.
           ++ apply N.eqb_neq in E. congruence.
           ++ right. exact H.
Qed.

(** X18.  A push of all tasks that reported no error leaves nothing to push: a
    second request right after it, for the same user, makes no call to the
    remote service and changes no task.  (Identifiers are taken to be
    unique, and the service to answer an insert with an event identifier
    that is not empty.) *)
Theorem push_all_twice (calendar_id calendar_id' : string)
    (current_user current_user' : User.t) (w w1 : World Remote) (pushed_count : Z) :
  (forall r cal body e r',
      events_insert r cal body = (Ok e, r') -> Event.id e <> Some EmptyString) ->
  NoDup (map Task._id (Db.tasks (db w))) ->
  push_all calendar_id current_user w = (w1, Returns (pushed_count, None)) ->
  User._id current_user' = User._id current_user ->
  trace (fst (push_all calendar_id' current_user' w1)) = trace w1
  /\ remote (fst (push_all calendar_id' current_user' w1)) = remote w1
  /\ Db.tasks (db (fst (push_all calendar_id' current_user' w1))) = Db.tasks (db w1).
Proof.
  intros Hans Hnd Hrun Hsame.
  assert (Hsettled : forall t, In t (Db.tasks (db w1)) ->
            Task.user t = User._id current_user -> push_all_eligible t = false).
  { revert Hrun. unfold push_all_tasks_to_calendar.
    destruct (credentials_tasks creds_expired creds_refresh current_user (db w))
      as [Ht _].
    destruct (credentials current_user (db w)) as [creds d1]. cbn [snd] in Ht.
    destruct creds as [creds|]; [|discriminate].
    match goal with
    | |- context [push_all_loop_ ?p ?c ?l ?w0 0 []] =>
        pose proof (push_all_loop_settles p c (User._id current_user) l w0 0 []
                      Hans) as Hs;
        destruct (push_all_loop_ p c l w0 0 []) as [[w2 n] errs] eqn:El
    end.
    cbn [fst snd] in Hs. intros [= <- <- Herrs].
    apply Hs.
    - cbn [db with_db]. rewrite Ht. exact Hnd.
    - destruct errs; [reflexivity|discriminate].
    - intros t Hin Hu.
      destruct (push_all_eligible t) eqn:E; [right|left; reflexivity].
      apply in_map. apply filter_In. split; [|exact E].
      unfold Db.tasks_find. apply filter_In. split; [exact Hin|].
      apply N.eqb_eq. exact Hu. }
  unfold push_all_tasks_to_calendar.
  destruct (credentials_tasks creds_expired creds_refresh current_user' (db w1))
    as [Ht _].
  destruct (credentials current_user' (db w1)) as [creds d1]. cbn [snd] in Ht.
  destruct creds as [creds|].
  - assert (Hnil : filter push_all_eligible
                     (Db.tasks_find
                        (fun t => N.eqb (Task.user t) (User._id current_user'))
                        (db (with_db d1 w1))) = []).
    { apply filter_none. intros t Hin. unfold Db.tasks_find in Hin.
      apply filter_In in Hin. destruct Hin as [Hin Hu]. apply N.eqb_eq in Hu.
      cbn [db with_db] in Hin. rewrite Ht in Hin. apply Hsettled; congruence. }
    rewrite Hnil. cbn [push_all_loop fst trace remote db with_db].
    rewrite Ht. repeat split.
  - cbn [fst trace remote db with_db]. rewrite Ht. repeat split.
Qed.

(** *** Disconnecting *)

Lemma fold_delete_each (l : list Task.t) (n : Z) (d : Db.t) :
  NoDup (map Task._id (Db.tasks d)) ->
  let r := fold_left (fun acc task =>
                        (fst acc + 1, Db.tasks_delete_one (Task._id task) (snd acc)))
             l (n, d) in
  Db.tasks (snd r)
  = filter (fun t => negb (existsb (fun x => N.eqb (Task._id x) (Task._id t)) l))
      (Db.tasks d)
  /\ fst r = n + Z.of_nat (List.length l)
  /\ Db.users (snd r) = Db.users d.
Proof.
  revert n d. induction l as [|x l IH]; intros n d Hnd; cbn [fold_left].
  - cbn. split; [|split; [lia|reflexivity]].
    symmetry. apply filter_all.
  - cbn [fst snd].
    assert (Hnd' : NoDup (map Task._id (Db.tasks (Db.tasks_delete_one (Task._id x) d)))).
    { cbn. rewrite delete_first_by_id by exact Hnd. apply nodup_ids_filter, Hnd. }
    destruct (IH (n + 1) (Db.tasks_delete_one (Task._id x) d) Hnd') as (H1 & H2 & H3).
    cbn zeta in *. rewrite H1, H2, H3. split; [|split].
    + cbn [Db.tasks_delete_one Db.tasks].
      rewrite delete_first_by_id by exact Hnd. rewrite filter_filter_and.
      apply filter_ext. intros t. cbn [existsb].
      rewrite negb_orb, (N.eqb_sym (Task._id x)). reflexivity.
    + cbn [List.length]. lia.
    + reflexivity.
Qed.

(** X19.  Disconnecting deletes exactly the tasks of the user that are linked to
    an event and reports their number; every other task stays as it was, in
    place; the stored tokens, the calendar selection and the watermark are
    cleared.  (Identifiers are taken to be unique.) *)
Theorem disconnect_removes_linked_tasks (current_user : User.t) (d : Db.t) :
  NoDup (map Task._id (Db.tasks d)) ->
  let linked (t : Task.t) :=
    N.eqb (Task.user t) (User._id current_user) && truthy_str (Task.googleEventId t) in
  let result := disconnect_google current_user d in
  Db.tasks (snd result) = filter (fun t => negb (linked t)) (Db.tasks d)
  /\ fst result = Z.of_nat (List.length (filter linked (Db.tasks d)))
  /\ (forall u, user_by_id (User._id current_user) d = Some u ->
        user_by_id (User._id current_user) (snd result) = Some (clear_connection u))
  /\ (forall u, user_by_id (User._id current_user) (snd result) = Some u ->
        User.googleAccessToken u = None /\ User.googleRefreshToken u = None
        /\ User.googleSelectedCalendars u = None /\ User.lastCalendarSync u = None).
Proof.
  intros Hnd linked result. unfold result, disconnect_google.
  set (synced := filter (fun t => truthy_str (Task.googleEventId t))
                   (Db.tasks_find (fun t => N.eqb (Task.user t) (User._id current_user)) d)).
  pose proof (fold_delete_each synced 0 d Hnd) as Hfold. cbn zeta in Hfold.
  destruct (fold_left _ synced (0, d)) as [n d1]. cbn [fst snd] in *.
  destruct Hfold as (H1 & H2 & H3).
  assert (Hsynced : synced = filter linked (Db.tasks d)).
  { unfold synced, Db.tasks_find. rewrite filter_filter_and. reflexivity. }
  assert (Hby : forall u, user_by_id (User._id current_user) d = Some u ->
            user_by_id (User._id current_user)
              (Db.users_update_one (User._id current_user) clear_connection d1)
            = Some (clear_connection u)).
  { intros u Hu. unfold user_by_id. cbn [Db.users_update_one Db.users].
    rewrite H3, find_update_first by reflexivity.
    unfold user_by_id in Hu. rewrite Hu. reflexivity. }
  split; [|split; [|split]].
  - cbn [Db.users_update_one Db.tasks]. rewrite H1.
    apply filter_ext_in. intros t Ht. f_equal.
    apply eq_true_iff_eq. rewrite existsb_exists. split.
    + intros (x & Hx & E). apply N.eqb_eq in E.
      rewrite Hsynced in Hx. apply filter_In in Hx. destruct Hx as [Hx Hl].
      rewrite <- (nodup_id_inj _ x t Hnd Hx Ht E). exact Hl.
    + intros Hl. exists t. split; [|apply N.eqb_refl].
      rewrite Hsynced. apply filter_In. split; assumption.
  - rewrite H2, Hsynced. lia.
  - exact Hby.
  - intros u Hu. unfold user_by_id in Hu.
    cbn [Db.users_update_one Db.users] in Hu.
    rewrite H3, find_update_first in Hu by reflexivity.
    destruct (find _ (Db.users d)) as [u0|]; [|discriminate].
    cbn [option_map] in Hu. injection Hu as <-. repeat split.
Qed.

(** X20.  A user whose record holds no access token - as after disconnecting - is
    passed over by the scheduler: a cycle for that record returns [False]
    and changes neither the store nor the remote service. *)
Theorem disconnected_user_is_idle (current_user u : User.t) (d : Db.t)
    (rem : Remote) (c : nat) (tr : list effect) :
  user_by_id (User._id current_user) (snd (disconnect_google current_user d)) = Some u ->
  cycle u (mkWorld (snd (disconnect_google current_user d)) rem c tr)
  = (mkWorld (snd (disconnect_google current_user d)) rem c tr, false)
  /\ ~ In u (filter (fun x => truthy_str (User.googleAccessToken x))
               (Db.users (snd (disconnect_google current_user d)))).
Proof.
  intros Hu.
  assert (Htok : User.googleAccessToken u = None).
  { revert Hu. unfold disconnect_google.
    destruct (fold_left _ _ (0, d)) as [n d1]. cbn [snd].
    unfold user_by_id. cbn [Db.users_update_one Db.users].
    rewrite find_update_first by reflexivity.
    destruct (find _ (Db.users d1)) as [u0|]; [|discriminate].
    cbn [option_map]. intros [= <-]. reflexivity. }
  split.
  - unfold _sync_user_calendar, get_credentials_from_user.
    rewrite Htok. reflexivity.
  - intros Hin. apply filter_In in Hin. destruct Hin as [_ Ht].
    rewrite Htok in Ht. discriminate.
Qed.

End RequestProperties.

(** ** Texts of dates and times: printing, then reading *)

Lemma digit_char_cases (n : Z) :
  exists k, (k < 10)%nat /\ Str.digit_char n = ascii_of_nat (k + 48)
            /\ Z.of_nat k = n mod 10.
Proof.
  exists (Z.to_nat (n mod 10)). unfold Str.digit_char.
  assert (0 <= n mod 10 < 10) by (apply Z.mod_pos_bound; lia).
  repeat split; lia.
Qed.

Ltac digit_cases n :=
  let k := fresh "k" in
  let Hk := fresh "Hk" in
  let Hc := fresh "Hc" in
  let Hv := fresh "Hv" in
  destruct (digit_char_cases n) as (k & Hk & Hc & Hv); rewrite Hc;
  do 10 (destruct k as [|k]; [try reflexivity|]); try lia.

Lemma digit_char_is_digit (n : Z) : Str.is_digit (Str.digit_char n) = true.
Proof. digit_cases n. Qed.

Lemma digit_char_val (n : Z) : Str.digit_val (Str.digit_char n) = n mod 10.
Proof.
  destruct (digit_char_cases n) as (k & Hk & Hc & Hv). rewrite Hc, <- Hv.
  do 10 (destruct k as [|k]; [reflexivity|]). lia.
Qed.

Lemma digit_char_no_mark (n : Z) (c : ascii) :
  is_mark c -> Ascii.eqb (Str.digit_char n) c = false.
Proof.
  intros [-> |[-> |[-> |[-> |[-> |[-> | ->]]]]]]; digit_cases n.
Qed.

Lemma pad_append (w : nat) (k : Z) (acc rest : string) :
  String.append (Str.pad_digits w k acc) rest
  = Str.pad_digits w k (String.append acc rest).
Proof.
  revert k acc. induction w as [|w IH]; intros k acc; cbn [Str.pad_digits];
    [reflexivity|].
  rewrite IH. reflexivity.
Qed.

Lemma zfill_append (w : nat) (k : Z) (rest : string) :
  String.append (Str.zfill w k) rest = Str.pad_digits w k rest.
Proof. unfold Str.zfill. rewrite pad_append. reflexivity. Qed.

Lemma take_pad (w n : nat) (k a : Z) (acc : string) :
  0 <= k < 10 ^ Z.of_nat w ->
  DT.take_digits (w + n) a (Str.pad_digits w k acc)
  = DT.take_digits n (a * 10 ^ Z.of_nat w + k) acc.
Proof.
  revert n k a acc. induction w as [|w IH]; intros n k a acc Hk.
  - cbn [Str.pad_digits Nat.add]. change (10 ^ Z.of_nat 0) with 1 in *.
    f_equal. lia.
  - cbn [Str.pad_digits].
    rewrite Nat2Z.inj_succ, Z.pow_succ_r in * by lia.
    replace (S w + n)%nat with (w + S n)%nat by lia.
    rewrite IH by zdiv.
    cbn [DT.take_digits]. rewrite digit_char_is_digit, digit_char_val.
    f_equal. remember (10 ^ Z.of_nat w) as p. zdiv.
Qed.

Lemma take_zfill (w : nat) (k : Z) (rest : string) :
  0 <= k < 10 ^ Z.of_nat w ->
  DT.take_digits w 0 (Str.pad_digits w k rest) = Some (k, rest).
Proof.
  intros Hk. pose proof (take_pad w 0 k 0 rest Hk) as H.
  rewrite Nat.add_0_r in H. rewrite H. cbn [DT.take_digits]. f_equal.
Qed.

Lemma split_tz_pad (w : nat) (k : Z) (acc : string) :
  DT.split_tz (Str.pad_digits w k acc)
  = (Str.pad_digits w k (fst (DT.split_tz acc)), snd (DT.split_tz acc)).
Proof.
  revert k acc. induction w as [|w IH]; intros k acc; cbn [Str.pad_digits].
  - destruct (DT.split_tz acc). reflexivity.
  - rewrite IH. cbn [DT.split_tz].
    rewrite !digit_char_no_mark by (unfold is_mark; auto).
    destruct (DT.split_tz acc). reflexivity.
Qed.

Lemma has_char_pad (c : ascii) (w : nat) (k : Z) (acc : string) :
  is_mark c -> Str.has_char c (Str.pad_digits w k acc) = Str.has_char c acc.
Proof.
  intros Hc. revert k acc. induction w as [|w IH]; intros k acc; cbn [Str.pad_digits];
    [reflexivity|].
  rewrite IH. cbn [Str.has_char]. rewrite digit_char_no_mark by exact Hc. reflexivity.
Qed.

Lemma count_char_pad (c : ascii) (w : nat) (k : Z) (acc : string) :
  is_mark c -> Str.count_char c (Str.pad_digits w k acc) = Str.count_char c acc.
Proof.
  intros Hc. revert k acc. induction w as [|w IH]; intros k acc; cbn [Str.pad_digits];
    [reflexivity|].
  rewrite IH. cbn [Str.count_char]. rewrite digit_char_no_mark by exact Hc. reflexivity.
Qed.

Lemma endswith_pad (c a : ascii) (w : nat) (k : Z) (acc : string) :
  Str.endswith_char c (Str.pad_digits w k (String a acc))
  = Str.endswith_char c (String a acc).
Proof.
  revert k a acc. induction w as [|w IH]; intros k a acc; cbn [Str.pad_digits];
    [reflexivity|].
  rewrite IH. reflexivity.
Qed.

Lemma endswith_pad_end (c : ascii) (w : nat) (k : Z) :
  is_mark c -> Str.endswith_char c (Str.pad_digits (S w) k EmptyString) = false.
Proof.
  intros Hc. cbn [Str.pad_digits]. rewrite endswith_pad.
  cbn [Str.endswith_char]. apply digit_char_no_mark, Hc.
Qed.

Lemma append_assoc (a b c : string) :
  String.append (String.append a b) c = String.append a (String.append b c).
Proof. induction a as [|x a IH]; cbn; [reflexivity|]. rewrite IH. reflexivity. Qed.

Lemma isoformat_text (d : DT.datetime) :
  DT.isoformat d
  = Str.pad_digits 4 (DT.year d)
      (String "-" (Str.pad_digits 2 (DT.month d)
         (String "-" (Str.pad_digits 2 (DT.day d)
            (String "T" (time_text (DT.hour d) (DT.minute d) (DT.second d)
                           (String.append (fraction_text (DT.microsecond d))
                              (offset_text (DT.tzinfo d))))))))).
Proof.
  unfold DT.isoformat, DT.date_isoformat, time_text, fraction_text, offset_text.
  repeat (rewrite ?append_assoc, ?zfill_append; cbn [String.append]).
  reflexivity.
Qed.

Lemma strftime_Ymd_text (d : DT.datetime) :
  1000 <= DT.year d ->
  DT.strftime_Ymd d
  = Str.pad_digits 4 (DT.year d)
      (String "-" (Str.pad_digits 2 (DT.month d)
         (String "-" (Str.pad_digits 2 (DT.day d) EmptyString)))).
Proof.
  intros Hy. unfold DT.strftime_Ymd, DT.strftime_Y.
  destruct (Z.ltb_spec (DT.year d) 10); [lia|].
  destruct (Z.ltb_spec (DT.year d) 100); [lia|].
  destruct (Z.ltb_spec (DT.year d) 1000); [lia|].
  repeat (rewrite ?append_assoc, ?zfill_append; cbn [String.append]).
  reflexivity.
Qed.

Lemma valid_date_digits (y m d : Z) :
  DT.valid_date y m d = true ->
  0 <= y < 10 ^ Z.of_nat 4 /\ 0 <= m < 10 ^ Z.of_nat 2 /\ 0 <= d < 10 ^ Z.of_nat 2.
Proof.
  intros H. apply valid_date_bounds in H. destruct H as (Hy & Hm & Hd).
  change (10 ^ Z.of_nat 4) with 10000. change (10 ^ Z.of_nat 2) with 100.
  assert (DT.days_in_month y m <= 31).
  { unfold DT.days_in_month.
    repeat match goal with |- context [if ?b then _ else _] => destruct b end; lia. }
  lia.
Qed.

Lemma parse_date_text (y m d : Z) (rest : string) :
  DT.valid_date y m d = true ->
  DT.parse_date
    (Str.pad_digits 4 y (String "-" (Str.pad_digits 2 m
       (String "-" (Str.pad_digits 2 d rest)))))
  = Some (y, m, d, rest).
Proof.
  intros H. destruct (valid_date_digits y m d H) as (Hy & Hm & Hd).
  unfold DT.parse_date.
  rewrite (take_zfill 4 y _ Hy). cbn [DT.expect Ascii.eqb Bool.eqb].
  rewrite (take_zfill 2 m _ Hm). cbn [DT.expect Ascii.eqb Bool.eqb].
  rewrite (take_zfill 2 d _ Hd). reflexivity.
Qed.

Lemma parse_time_text (h mi s us : Z) :
  DT.valid_time h mi s us = true ->
  DT.parse_hh_mm_ss_ff (time_text h mi s (fraction_text us)) = Some (h, mi, s, us).
Proof.
  intros H. apply valid_time_bounds in H. destruct H as (Hh & Hmi & Hs & Hus).
  unfold DT.parse_hh_mm_ss_ff, time_text, fraction_text.
  rewrite (take_zfill 2 h) by (change (10 ^ Z.of_nat 2) with 100; lia).
  rewrite (take_zfill 2 mi) by (change (10 ^ Z.of_nat 2) with 100; lia).
  rewrite (take_zfill 2 s) by (change (10 ^ Z.of_nat 2) with 100; lia).
  destruct (Z.eqb_spec us 0) as [->|Hne]; [reflexivity|].
  unfold DT.parse_fraction, Str.zfill.
  rewrite (take_zfill 6 us) by (change (10 ^ Z.of_nat 6) with 1000000; lia).
  reflexivity.
Qed.

Lemma split_tz_time_text (h mi s us : Z) (tz : option Z) :
  DT.split_tz (time_text h mi s
                 (String.append (fraction_text us) (offset_text tz)))
  = (time_text h mi s (fraction_text us),
     match tz with
     | Some o =>
         Some (if o <? 0 then -1 else 1,
               match DT.format_offset o with
               | String _ text => text
               | EmptyString => EmptyString
               end)
     | None => None
     end).
Proof.
  assert (Hoff : DT.split_tz (offset_text tz)
                 = (EmptyString,
                    match tz with
                    | Some o =>
                        Some (if o <? 0 then -1 else 1,
                              match DT.format_offset o with
                              | String _ text => text
                              | EmptyString => EmptyString
                              end)
                    | None => None
                    end)).
  { destruct tz as [o|]; [|reflexivity].
    unfold offset_text, DT.format_offset. destruct (o <? 0); reflexivity. }
  unfold time_text, fraction_text.
  rewrite split_tz_pad. cbn [DT.split_tz Ascii.eqb Bool.eqb fst snd].
  rewrite split_tz_pad. cbn [DT.split_tz Ascii.eqb Bool.eqb fst snd].
  rewrite split_tz_pad.
  destruct (us =? 0).
  - cbn [String.append]. rewrite Hoff. reflexivity.
  - unfold Str.zfill. cbn [String.append]. rewrite pad_append.
    cbn [DT.split_tz Ascii.eqb Bool.eqb fst snd String.append].
    rewrite split_tz_pad, Hoff. reflexivity.
Qed.

Lemma parse_offset_text (o : Z) :
  -86400 < o < 86400 ->
  DT.parse_offset (if o <? 0 then -1 else 1)
    (match DT.format_offset o with
     | String _ text => text
     | EmptyString => EmptyString
     end) = Some o.
Proof.
  intros Ho. unfold DT.format_offset, DT.parse_offset. cbv zeta.
  remember (Z.abs o) as a eqn:Ea.
  assert (Ha : 0 <= a < 86400) by lia.
  assert (Hsign : (if o <? 0 then -1 else 1) * a = o).
  { destruct (Z.ltb_spec o 0); lia. }
  assert (H1 : 0 <= a / 3600 < 10 ^ Z.of_nat 2)
    by (change (10 ^ Z.of_nat 2) with 100; zdiv).
  assert (H2 : 0 <= a mod 3600 / 60 < 10 ^ Z.of_nat 2)
    by (change (10 ^ Z.of_nat 2) with 100; zdiv).
  assert (H3 : 0 <= a mod 60 < 10 ^ Z.of_nat 2)
    by (change (10 ^ Z.of_nat 2) with 100; zdiv).
  destruct (Z.eqb_spec (a mod 60) 0) as [E|E].
  - rewrite zfill_append, (take_zfill 2 _ _ H1).
    unfold Str.zfill. rewrite (take_zfill 2 _ _ H2).
    assert (Hsum : a / 3600 * 3600 + a mod 3600 / 60 * 60 = a) by zdiv.
    rewrite Hsum. destruct (Z.ltb_spec a 86400); [|lia]. rewrite Hsign. reflexivity.
  - rewrite append_assoc, zfill_append. cbn [String.append]. rewrite zfill_append.
    rewrite (take_zfill 2 _ _ H1), (take_zfill 2 _ _ H2).
    unfold Str.zfill. rewrite (take_zfill 2 _ _ H3).
    assert (Hsum : a / 3600 * 3600 + a mod 3600 / 60 * 60 + a mod 60 = a) by zdiv.
    rewrite Hsum. destruct (Z.ltb_spec a 86400); [|lia]. rewrite Hsign. reflexivity.
Qed.

(** Reading back the text that [isoformat] prints gives the value that was
    printed, for a value with valid fields and an offset of less than a
    day. *)
Lemma fromisoformat_isoformat (d : DT.datetime) :
  DT.valid d = true ->
  (forall o, DT.tzinfo d = Some o -> -86400 < o < 86400) ->
  DT.fromisoformat (DT.isoformat d) = Ok d.
Proof.
  intros Hv Ho. unfold DT.valid in Hv. apply andb_true_iff in Hv.
  destruct Hv as [Hd Ht].
  rewrite isoformat_text. unfold DT.fromisoformat. cbv zeta.
  rewrite (parse_date_text _ _ _ _ Hd), Hd. cbn [negb].
  rewrite split_tz_time_text, (parse_time_text _ _ _ _ Ht), Ht. cbn [negb].
  destruct d as [y m dd h mi s us tz]. cbn [DT.tzinfo] in *.
  destruct tz as [o|]; [|reflexivity].
  rewrite (parse_offset_text o (Ho o eq_refl)). reflexivity.
Qed.

Lemma count_char_nonneg (c : ascii) (s : string) : 0 <= Str.count_char c s.
Proof.
  induction s as [|a s IH]; cbn [Str.count_char]; [lia|].
  destruct (Ascii.eqb a c); lia.
Qed.

Lemma isoformat_ends_with_digit (d : DT.datetime) :
  (forall o, DT.tzinfo d = Some o -> -86400 < o < 86400) ->
  Str.endswith_char "Z" (DT.isoformat d) = false.
Proof.
  intros Ho. rewrite isoformat_text. unfold time_text, fraction_text, offset_text.
  assert (Hz : is_mark "Z") by (unfold is_mark; auto).
  rewrite endswith_pad. cbn [Str.endswith_char Str.pad_digits].
  destruct (DT.tzinfo d) as [o|].
  - unfold DT.format_offset. cbv zeta. unfold Str.zfill.
    destruct (DT.microsecond d =? 0), (Z.abs o mod 60 =? 0);
      cbn [String.append Str.pad_digits Str.endswith_char];
      apply digit_char_no_mark, Hz.
  - destruct (DT.microsecond d =? 0); unfold Str.zfill;
      cbn [String.append Str.pad_digits Str.endswith_char];
      apply digit_char_no_mark, Hz.
Qed.

Lemma isoformat_aware_has_marker (d : DT.datetime) (o : Z) :
  DT.tzinfo d = Some o ->
  Str.has_char "+" (DT.isoformat d)
  || ((2 <? Str.count_char "-" (DT.isoformat d)) && Str.has_char "T" (DT.isoformat d))
  = true.
Proof.
  intros Htz. rewrite isoformat_text. unfold time_text, fraction_text, offset_text.
  rewrite Htz.
  assert (Hp : is_mark "+") by (unfold is_mark; auto).
  assert (Hm : is_mark "-") by (unfold is_mark; auto).
  assert (Ht : is_mark "T") by (unfold is_mark; auto).
  repeat (rewrite ?has_char_pad, ?count_char_pad by assumption;
          cbn [Str.has_char Str.count_char Ascii.eqb Bool.eqb orb]).
  unfold DT.format_offset. cbv zeta.
  destruct (o <? 0).
  - destruct (DT.microsecond d =? 0); unfold Str.zfill;
      cbn [String.append Str.has_char Str.count_char Ascii.eqb Bool.eqb orb];
      rewrite ?pad_append, ?count_char_pad, ?has_char_pad by assumption;
      cbn [String.append Str.has_char Str.count_char Ascii.eqb Bool.eqb orb];
      match goal with
      | |- context [Str.count_char "-" ?s] =>
          pose proof (count_char_nonneg "-" s)
      end;
      match goal with
      | |- _ || (?b && true) = true =>
          assert (Hb : b = true) by (apply Z.ltb_lt; lia); rewrite Hb
      end; apply orb_true_r.
  - destruct (DT.microsecond d =? 0); unfold Str.zfill;
      cbn [String.append Str.has_char Str.count_char Ascii.eqb Bool.eqb orb];
      rewrite ?pad_append, ?count_char_pad, ?has_char_pad by assumption;
      cbn [String.append Str.has_char Str.count_char Ascii.eqb Bool.eqb orb];
      reflexivity.
Qed.

Section RoundTrips.

Variable pytz_timezone : string -> option Tz.t.
Variable system_utcoffset : DT.datetime -> Z.

Local Abbreviation convert := (convert_event_time_to_user_tz pytz_timezone system_utcoffset).
Local Abbreviation zone_of := (timezone_or_UTC pytz_timezone).
Local Abbreviation build := (build_google_calendar_event pytz_timezone).

Lemma convert_in_zone_aware (tz : Tz.t) (naive utc : DT.datetime) (off : Z) :
  DT.valid naive = true ->
  DT.tzinfo naive = None ->
  -86400 < off < 86400 ->
  DT.add_seconds naive (- off) = Ok utc ->
  Tz.utcoffset_utc tz utc = off ->
  convert_in_zone system_utcoffset tz
    (DT.isoformat (DT.replace_tzinfo (Some off) naive))
  = Ok (DT.midnight naive, DT.strftime_HM naive).
Proof.
  intros Hvalid Hnaive Hoff Hutc Hzone.
  set (aware := DT.replace_tzinfo (Some off) naive).
  assert (Hrange : forall o, DT.tzinfo aware = Some o -> -86400 < o < 86400).
  { intros o [= <-]. exact Hoff. }
  unfold convert_in_zone.
  rewrite (isoformat_ends_with_digit aware Hrange).
  rewrite (isoformat_aware_has_marker aware off eq_refl).
  rewrite (fromisoformat_isoformat aware Hvalid Hrange). cbn [bind].
  unfold Tz.astimezone, aware, DT.replace_tzinfo.
  cbn [DT.tzinfo DT.year DT.month DT.day DT.hour DT.minute DT.second DT.microsecond].
  assert (Heta : DT.mk (DT.year naive) (DT.month naive) (DT.day naive) (DT.hour naive)
                   (DT.minute naive) (DT.second naive) (DT.microsecond naive) None
                 = naive).
  { destruct naive; cbn in *; subst; reflexivity. }
  rewrite Heta, Hutc. cbn [bind]. unfold Tz.fromutc. rewrite Hzone.
  rewrite (add_seconds_back naive utc _ Hvalid Hutc). cbn [bind].
  reflexivity.
Qed.

(** X21.  A timed task that is pushed and pulled back keeps its date and its
    time: converting the start text of the event built from a task, under
    the same preferences, gives the task's own date at midnight and its own
    hour and minute - whenever that wall-clock time exists in the user's
    zone. *)
Theorem pushed_time_reads_back (task : Task.t) (prefs : Preferences.t)
    (body : Body.t) (due_date utc : DT.datetime) (due_time : string) (h mi : Z) :
  build task prefs = Ok body ->
  Task.dueDate task = Some due_date ->
  Task.dueTime task = Some due_time -> due_time <> EmptyString ->
  parse_due_time due_time = Ok (h, mi) ->
  let tz := zone_of (get_default (Preferences.timezone prefs) "UTC"%string) in
  let naive := DT.mk (DT.year due_date) (DT.month due_date) (DT.day due_date)
                 h mi 0 0 None in
  -86400 < Tz.utcoffset_local tz naive < 86400 ->
  DT.add_seconds naive (- Tz.utcoffset_local tz naive) = Ok utc ->
  Tz.utcoffset_utc tz utc = Tz.utcoffset_local tz naive ->
  exists text zone,
    Body.start body = Body.DateTime text zone
    /\ convert text prefs
       = Ok (DT.mk (DT.year due_date) (DT.month due_date) (DT.day due_date)
               0 0 0 0 None,
             DT.strftime_HM naive).
Proof.
  intros Hbuild Hdate Htime Hne Hparse tz naive Hoff Hutc Hzone.
  unfold build_google_calendar_event in Hbuild.
  rewrite Hdate, Htime in Hbuild. destruct due_time as [|c r]; [contradiction|].
  rewrite Hparse in Hbuild. cbn [bind fst snd] in Hbuild.
  unfold DT.make in Hbuild.
  destruct (DT.valid_date _ _ _ && DT.valid_time h mi 0 0) eqn:Ev;
    [|discriminate].
  cbn [bind] in Hbuild. fold naive in Hbuild. fold tz in Hbuild.
  unfold Tz.localize in Hbuild. cbn [DT.tzinfo naive bind] in Hbuild.
  fold naive in Hbuild.
  destruct (DT.add_seconds (DT.replace_tzinfo _ naive) 3600) as [e|m];
    [|discriminate].
  cbn [bind fst snd] in Hbuild. injection Hbuild as <-.
  eexists _, _. split; [reflexivity|].
  unfold convert_event_time_to_user_tz. fold tz.
  apply (convert_in_zone_aware tz naive utc); try assumption; reflexivity.
Qed.

(** X22.  An all-day task due in the year 1000 or later that is pushed and
    pulled back keeps its date: the pull phase reads the date text of the
    event built from a task without a [dueTime] as the task's own date, with
    no time.  (Below the year 1000 the date text has fewer than four year
    digits where [%Y] is printed without padding, and [strptime] needs
    four.) *)
Theorem pushed_date_reads_back (task : Task.t) (prefs : Preferences.t)
    (due_date : DT.datetime) (event : Event.t) :
  Task.dueDate task = Some due_date ->
  truthy_str (Task.dueTime task) = false ->
  DT.valid_date (DT.year due_date) (DT.month due_date) (DT.day due_date) = true ->
  1000 <= DT.year due_date ->
  exists body text,
    build task prefs = Ok body
    /\ Body.start body = Body.Date text /\ Body.end_ body = Body.Date text
    /\ (Event.start_dateTime event = None -> Event.start_date event = Some text ->
        event_start pytz_timezone system_utcoffset event prefs
        = Ok (Some (DT.mk (DT.year due_date) (DT.month due_date) (DT.day due_date)
                      0 0 0 0 None, None))).
Proof.
  intros Hdate Htime Hvalid Hyear.
  assert (Hbuild : exists body,
            build task prefs = Ok body
            /\ Body.start body = Body.Date (DT.strftime_Ymd due_date)
            /\ Body.end_ body = Body.Date (DT.strftime_Ymd due_date)).
  { unfold build_google_calendar_event. rewrite Hdate.
    destruct (Task.dueTime task) as [[|c r]|]; try discriminate;
      cbn [bind fst snd]; eexists; repeat split. }
  destruct Hbuild as (body & Hb & Hs & He).
  exists body, (DT.strftime_Ymd due_date). repeat split; try assumption.
  intros Hdt Hd. unfold event_start. rewrite Hdt, Hd.
  destruct (valid_date_digits _ _ _ Hvalid) as (Hy & Hm & Hdd).
  rewrite (strftime_Ymd_text _ Hyear).
  assert (Hparse : DT.strptime_Ymd
            (Str.pad_digits 4 (DT.year due_date)
               (String "-" (Str.pad_digits 2 (DT.month due_date)
                  (String "-" (Str.pad_digits 2 (DT.day due_date) EmptyString)))))
          = Ok (DT.mk (DT.year due_date) (DT.month due_date) (DT.day due_date)
                  0 0 0 0 None)).
  { unfold DT.strptime_Ymd. cbv zeta.
    rewrite (take_zfill 4 _ _ Hy). cbn [DT.expect Ascii.eqb Bool.eqb].
    change (10 ^ Z.of_nat 2) with 100 in *.
    assert (Hp : forall k rest, 0 <= k < 100 -> forall blank,
              DT.parse_1_or_2 blank (Str.pad_digits 2 k rest) = Some (k, rest)).
    { intros k rest Hk blank. cbn [Str.pad_digits DT.parse_1_or_2].
      rewrite !digit_char_is_digit, !digit_char_val. cbn [andb].
      f_equal. f_equal. zdiv. }
    rewrite (Hp _ _ Hm). cbn [DT.expect Ascii.eqb Bool.eqb].
    rewrite (Hp _ _ Hdd). rewrite Hvalid. reflexivity. }
  cbn [Str.pad_digits] in *. rewrite Hparse. reflexivity.
Qed.

End RoundTrips.

(** ** The time line *)

Lemma days_before_year_step (y : Z) :
  DT.days_before_year (y + 1)
  = DT.days_before_year y + 365 + (if DT.is_leap y then 1 else 0).
Proof.
  unfold DT.days_before_year, DT.is_leap. cbv zeta.
  replace (y + 1 - 1) with y by lia.
  destruct (Z.eqb_spec (y mod 4) 0), (Z.eqb_spec (y mod 100) 0),
    (Z.eqb_spec (y mod 400) 0); cbn [negb andb orb]; zdiv.
Qed.

Lemma days_before_year_mono (y1 y2 : Z) :
  y1 <= y2 -> DT.days_before_year y1 <= DT.days_before_year y2.
Proof.
  intros H. replace y2 with (y1 + (y2 - y1)) by lia.
  assert (Hk : 0 <= y2 - y1) by lia. revert Hk.
  generalize (y2 - y1). apply natlike_ind.
  - rewrite Z.add_0_r. lia.
  - intros k Hk IH. replace (y1 + Z.succ k) with (y1 + k + 1) by lia.
    rewrite days_before_year_step. destruct (DT.is_leap (y1 + k)); lia.
Qed.

Lemma days_in_month_cases (y m : Z) :
  DT.days_in_month y m
  = if m =? 2 then (if DT.is_leap y then 29 else 28)
    else if (m =? 4) || (m =? 6) || (m =? 9) || (m =? 11) then 30 else 31.
Proof. reflexivity. Qed.

Ltac month_cases m H :=
  assert (m = 1 \/ m = 2 \/ m = 3 \/ m = 4 \/ m = 5 \/ m = 6 \/ m = 7 \/ m = 8
          \/ m = 9 \/ m = 10 \/ m = 11 \/ m = 12) as H by lia;
  destruct H as [H|[H|[H|[H|[H|[H|[H|[H|[H|[H|[H|H]]]]]]]]]]]; subst m.

Lemma month_end (y m : Z) :
  1 <= m <= 12 ->
  DT.days_before_month y m + DT.days_in_month y m
  = if m =? 12 then 365 + (if DT.is_leap y then 1 else 0)
    else DT.days_before_month y (m + 1).
Proof.
  intros Hm. unfold DT.days_before_month, DT.days_in_month.
  month_cases m H; destruct (DT.is_leap y); reflexivity.
Qed.

Lemma days_before_month_mono (y m1 m2 : Z) :
  1 <= m1 -> m1 <= m2 -> m2 <= 12 ->
  DT.days_before_month y m1 <= DT.days_before_month y m2.
Proof.
  intros H1 H12 H2. unfold DT.days_before_month.
  assert (Hm1 : 1 <= m1 <= 12) by lia. assert (Hm2 : 1 <= m2 <= 12) by lia.
  month_cases m1 Ha; month_cases m2 Hb; try lia;
    destruct (DT.is_leap y); cbn; lia.
Qed.

(** The ordinal of a date grows with the date. *)
Lemma ymd2ord_lt (y1 m1 d1 y2 m2 d2 : Z) :
  DT.valid_date y1 m1 d1 = true -> DT.valid_date y2 m2 d2 = true ->
  y1 < y2 \/ (y1 = y2 /\ (m1 < m2 \/ (m1 = m2 /\ d1 < d2))) ->
  DT.ymd2ord y1 m1 d1 < DT.ymd2ord y2 m2 d2.
Proof.
  intros V1 V2 Hlt.
  apply valid_date_bounds in V1, V2.
  destruct V1 as (Hy1 & Hm1 & Hd1), V2 as (Hy2 & Hm2 & Hd2).
  unfold DT.ymd2ord.
  assert (Hend : forall y m d, 1 <= m <= 12 -> 1 <= d <= DT.days_in_month y m ->
            DT.days_before_month y m + d
            <= 365 + (if DT.is_leap y then 1 else 0)).
  { intros y m d Hm Hd.
    assert (DT.days_before_month y m + DT.days_in_month y m
            <= 365 + (if DT.is_leap y then 1 else 0)).
    { unfold DT.days_before_month, DT.days_in_month.
      month_cases m H; destruct (DT.is_leap y); cbn; lia. }
    lia. }
  assert (Hpos : forall y m, 1 <= m <= 12 -> 0 <= DT.days_before_month y m).
  { intros y m Hm. unfold DT.days_before_month.
    month_cases m H; destruct (DT.is_leap y); cbn; lia. }
  destruct Hlt as [Hy|[-> [Hm|[-> Hd]]]].
  - pose proof (Hend y1 m1 d1 Hm1 Hd1).
    pose proof (days_before_year_step y1).
    pose proof (days_before_year_mono (y1 + 1) y2 ltac:(lia)).
    pose proof (Hpos y2 m2 Hm2). lia.
  - pose proof (month_end y2 m1 Hm1) as He.
    destruct (Z.eqb_spec m1 12); [lia|].
    pose proof (days_before_month_mono y2 (m1 + 1) m2 ltac:(lia) ltac:(lia) ltac:(lia)).
    lia.
  - lia.
Qed.

Lemma microseconds_order (a b : DT.datetime) :
  DT.valid a = true -> DT.valid b = true ->
  DT.ltb a b = (microseconds_of a <? microseconds_of b).
Proof.
  intros Va Vb. unfold DT.valid in Va, Vb.
  apply andb_true_iff in Va, Vb. destruct Va as [Da Ta], Vb as [Db Tb].
  pose proof (ymd2ord_lt _ _ _ _ _ _ Da Db) as Hab.
  pose proof (ymd2ord_lt _ _ _ _ _ _ Db Da) as Hba.
  apply valid_time_bounds in Ta, Tb.
  unfold DT.ltb, DT.key, microseconds_of, DT.toordinal. cbn [DT.lex_ltb].
  remember (DT.ymd2ord (DT.year a) (DT.month a) (DT.day a)) as oa.
  remember (DT.ymd2ord (DT.year b) (DT.month b) (DT.day b)) as ob.
  assert (Heq : DT.year a = DT.year b -> DT.month a = DT.month b ->
                DT.day a = DT.day b -> oa = ob) by (intros; subst; congruence).
  clear Heqoa Heqob Da Db.
  destruct (Z.ltb_spec (DT.year a) (DT.year b)) as [H1|H1]; cbn [orb].
  { symmetry. apply Z.ltb_lt. assert (oa < ob) by (apply Hab; lia). lia. }
  destruct (Z.eqb_spec (DT.year a) (DT.year b)) as [E1|E1]; cbn [andb].
  2:{ symmetry. apply Z.ltb_ge. assert (ob < oa) by (apply Hba; lia). lia. }
  destruct (Z.ltb_spec (DT.month a) (DT.month b)) as [H2|H2]; cbn [orb].
  { symmetry. apply Z.ltb_lt. assert (oa < ob) by (apply Hab; lia). lia. }
  destruct (Z.eqb_spec (DT.month a) (DT.month b)) as [E2|E2]; cbn [andb].
  2:{ symmetry. apply Z.ltb_ge. assert (ob < oa) by (apply Hba; lia). lia. }
  destruct (Z.ltb_spec (DT.day a) (DT.day b)) as [H3|H3]; cbn [orb].
  { symmetry. apply Z.ltb_lt. assert (oa < ob) by (apply Hab; lia). lia. }
  destruct (Z.eqb_spec (DT.day a) (DT.day b)) as [E3|E3]; cbn [andb].
  2:{ symmetry. apply Z.ltb_ge. assert (ob < oa) by (apply Hba; lia). lia. }
  specialize (Heq E1 E2 E3). subst ob. clear Hab Hba.
  destruct (Z.ltb_spec (DT.hour a) (DT.hour b)) as [H4|H4]; cbn [orb].
  { symmetry. apply Z.ltb_lt. lia. }
  destruct (Z.eqb_spec (DT.hour a) (DT.hour b)) as [E4|E4]; cbn [andb].
  2:{ symmetry. apply Z.ltb_ge. lia. }
  destruct (Z.ltb_spec (DT.minute a) (DT.minute b)) as [H5|H5]; cbn [orb].
  { symmetry. apply Z.ltb_lt. lia. }
  destruct (Z.eqb_spec (DT.minute a) (DT.minute b)) as [E5|E5]; cbn [andb].
  2:{ symmetry. apply Z.ltb_ge. lia. }
  destruct (Z.ltb_spec (DT.second a) (DT.second b)) as [H6|H6]; cbn [orb].
  { symmetry. apply Z.ltb_lt. lia. }
  destruct (Z.eqb_spec (DT.second a) (DT.second b)) as [E6|E6]; cbn [andb].
  2:{ symmetry. apply Z.ltb_ge. lia. }
  destruct (Z.ltb_spec (DT.microsecond a) (DT.microsecond b)) as [H7|H7]; cbn [orb].
  { symmetry. apply Z.ltb_lt. lia. }
  destruct (Z.eqb_spec (DT.microsecond a) (DT.microsecond b)) as [E7|E7]; cbn [andb].
  - symmetry. apply Z.ltb_ge. lia.
  - symmetry. apply Z.ltb_ge. lia.
Qed.

Lemma ymd2ord_year_bound (y m d : Z) :
  1 <= y -> 1 <= m <= 12 -> 1 <= d ->
  DT.ymd2ord y m d <= DT.MAXORDINAL -> y <= 9999.
Proof.
  intros Hy Hm Hd Hmax.
  destruct (Z.le_gt_cases y 9999) as [H|H]; [exact H|exfalso].
  pose proof (days_before_year_mono 10000 y ltac:(lia)) as Hmono.
  change (DT.days_before_year 10000) with 3652059 in Hmono.
  unfold DT.ymd2ord, DT.MAXORDINAL in Hmax.
  assert (0 <= DT.days_before_month y m).
  { unfold DT.days_before_month. month_cases m H0; destruct (DT.is_leap y); cbn; lia. }
  lia.
Qed.

(** Adding seconds moves a value along the time line by as much, and keeps
    its fields valid. *)
Lemma add_seconds_microseconds (d u : DT.datetime) (s : Z) :
  DT.valid d = true -> DT.add_seconds d s = Ok u ->
  DT.valid u = true
  /\ DT.tzinfo u = DT.tzinfo d
  /\ microseconds_of u = microseconds_of d + s * 1000000.
Proof.
  intros Hv. unfold DT.valid in Hv. apply andb_true_iff in Hv. destruct Hv as [Hd Ht].
  apply valid_time_bounds in Ht. destruct Ht as (Hh & Hmi & Hs & Hus).
  unfold DT.add_seconds. cbv zeta.
  remember (DT.hour d * 3600 + DT.minute d * 60 + DT.second d + s) as total.
  remember (DT.toordinal d + total / 86400) as days.
  destruct (Z.ltb_spec 0 days) as [Hlo|]; cbn [andb]; [|discriminate].
  destruct (Z.leb_spec days DT.MAXORDINAL) as [Hhi|]; [|discriminate].
  destruct (DT.ord2ymd days) as [[y m] dd] eqn:E.
  destruct (ymd2ord_ord2ymd days y m dd ltac:(lia) E) as (Hy & Hm & Hdd & Hord).
  intros [= <-].
  assert (Hrem : 0 <= total mod 86400 < 86400) by (apply Z.mod_pos_bound; lia).
  split; [|split; [reflexivity|]].
  - unfold DT.valid.
    cbn [DT.year DT.month DT.day DT.hour DT.minute DT.second DT.microsecond].
    apply andb_true_iff. split.
    + apply valid_date_bounds. repeat split; try lia.
      apply (ymd2ord_year_bound y m dd); try lia.
    + apply valid_time_bounds. remember (total mod 86400) as r. repeat split; zdiv.
  - unfold microseconds_of, DT.toordinal.
    cbn [DT.year DT.month DT.day DT.hour DT.minute DT.second DT.microsecond].
    rewrite Hord. pose proof (seconds_of_time (total mod 86400) Hrem) as Hsec.
    unfold DT.toordinal in Heqdays.
    remember (DT.ymd2ord (DT.year d) (DT.month d) (DT.day d)) as od.
    remember (total mod 86400) as r.
    assert (Htot : total = 86400 * (total / 86400) + r)
      by (subst r; apply Z.div_mod; lia).
    remember (total / 86400) as q. lia.
Qed.

Lemma task_due_valid (due_date : DT.datetime) (due_time : option string) :
  DT.valid due_date = true ->
  DT.valid (task_due due_date due_time) = true
  /\ DT.tzinfo (task_due due_date due_time) = DT.tzinfo due_date.
Proof.
  intros Hv. unfold task_due.
  destruct due_time as [[|c r]|]; try (split; [exact Hv|reflexivity]).
  destruct (parse_due_time (String c r)) as [[h m]|msg]; cbn [bind fst snd];
    [|split; [exact Hv|reflexivity]].
  unfold replace_hour_minute.
  destruct ((0 <=? h) && (h <? 24) && (0 <=? m) && (m <? 60)) eqn:E;
    [|split; [exact Hv|reflexivity]].
  split; [|reflexivity].
  unfold DT.valid in *. apply andb_true_iff in Hv. destruct Hv as [Hd Ht].
  cbn [DT.year DT.month DT.day DT.hour DT.minute DT.second DT.microsecond].
  rewrite Hd. cbn [andb]. unfold DT.valid_time in *.
  apply andb_true_iff in Ht. destruct Ht as [Ht H8].
  apply andb_true_iff in Ht. destruct Ht as [Ht H7].
  apply andb_true_iff in Ht. destruct Ht as [Ht H6].
  apply andb_true_iff in Ht. destruct Ht as [Ht H5].
  rewrite E, H5, H6, H7, H8. reflexivity.
Qed.

(** X8.  A task that the reminder check selects has its reminder time - the due
    moment less the lead time - in the minute that starts now: between [now]
    and sixty seconds later, both included, on the time line.  Its reminder
    is enabled, not switched off for the desktop, and not stamped within
    the last five minutes. *)
Theorem selected_reminder_is_due_within_a_minute (now one_minute_from_now : DT.datetime)
    (task : Task.t) (due_date : DT.datetime) :
  DT.valid now = true ->
  DT.add_seconds now 60 = Ok one_minute_from_now ->
  Task.dueDate task = Some due_date ->
  DT.valid due_date = true ->
  reminder_due now one_minute_from_now task = Ok true ->
  let due := task_due due_date (Task.dueTime task) in
  (exists lead,
     get_default (Reminder.minutesBefore (get_reminder task)) 30 = Some lead
     /\ 0 <= microseconds_of due - lead * 60 * 1000000 - microseconds_of now
          <= 60 * 1000000)
  /\ Reminder.enabled (get_reminder task) = Some true
  /\ get_default (Reminder.notifyDesktop (get_reminder task)) true = Some true
  /\ (forall last_sent, Reminder.lastSent (get_reminder task) = Some last_sent ->
        300 * 1000000 <= microseconds_of now - microseconds_of last_sent).
Proof.
  intros Hnow Hone Hdate Hdue Hsel due.
  destruct (add_seconds_microseconds now one_minute_from_now 60 Hnow Hone)
    as (Hvone & Htzone & Husone).
  destruct (task_due_valid due_date (Task.dueTime task) Hdue) as [Hvdue Htzdue].
  fold due in Hvdue, Htzdue.
  unfold reminder_due in Hsel. rewrite Hdate in Hsel.
  fold due in Hsel.
  destruct (Reminder.enabled (get_reminder task)) as [[|]|]; try discriminate.
  cbn [truthy_bool negb] in Hsel.
  assert (Hdesk : get_default (Reminder.notifyDesktop (get_reminder task)) true
                  = Some true).
  { destruct (get_default (Reminder.notifyDesktop (get_reminder task)) true)
      as [[|]|]; [reflexivity|discriminate|discriminate]. }
  rewrite Hdesk in Hsel. cbn [truthy_bool negb] in Hsel.
  destruct (get_default (Reminder.minutesBefore (get_reminder task)) 30)
    as [lead|] eqn:Elead.
  2:{ destruct (Reminder.lastSent (get_reminder task)) as [last_sent|];
        cbn [bind lead_time] in Hsel; [|discriminate].
      destruct (since now last_sent) as [e|m]; cbn [bind] in Hsel; [|discriminate].
      destruct (e <? 300 * 1000000); discriminate. }
  cbn [lead_time] in Hsel.
  assert (Hlast : forall last_sent,
            Reminder.lastSent (get_reminder task) = Some last_sent ->
            300 * 1000000 <= microseconds_of now - microseconds_of last_sent).
  { intros last_sent E. rewrite E in Hsel. unfold since in Hsel.
    destruct (DT.tzinfo last_sent); [discriminate|]. cbn [bind] in Hsel.
    destruct (Z.ltb_spec (microseconds_of now - microseconds_of last_sent)
                (300 * 1000000)); [discriminate|assumption]. }
  assert (Hrest :
    (delta <- timedelta_minutes lead ;;
     reminder_time <- DT.add_seconds due (- delta) ;;
     lower <- naive_le now reminder_time ;;
     (if lower then naive_le reminder_time one_minute_from_now else Ok false))
    = Ok true).
  { destruct (Reminder.lastSent (get_reminder task)) as [last_sent|];
      cbn [bind] in Hsel.
    - destruct (since now last_sent) as [e|m]; cbn [bind] in Hsel; [|discriminate].
      destruct (e <? 300 * 1000000); [discriminate|exact Hsel].
    - exact Hsel. }
  split; [exists lead; split; [reflexivity|]|repeat split; assumption].
  unfold timedelta_minutes in Hrest. cbv zeta in Hrest.
  destruct (Z.abs (lead * 60 / 86400) <=? 999999999); [|discriminate].
  cbn [bind] in Hrest.
  destruct (DT.add_seconds due (- (lead * 60))) as [rt|m] eqn:Ert; [|discriminate].
  cbn [bind] in Hrest.
  destruct (add_seconds_microseconds due rt _ Hvdue Ert) as (Hvrt & Htzrt & Husrt).
  unfold naive_le in Hrest.
  destruct (DT.tzinfo now); [discriminate|].
  destruct (DT.tzinfo rt); [discriminate|]. cbn [bind] in Hrest.
  rewrite (microseconds_order rt now Hvrt Hnow) in Hrest.
  destruct (Z.ltb_spec (microseconds_of rt) (microseconds_of now)) as [|Hlo];
    cbn [negb] in Hrest; [discriminate|].
  destruct (DT.tzinfo one_minute_from_now); [discriminate|].
  rewrite (microseconds_order one_minute_from_now rt Hvone Hvrt) in Hrest.
  destruct (Z.ltb_spec (microseconds_of one_minute_from_now) (microseconds_of rt))
    as [|Hhi]; cbn [negb] in Hrest; [discriminate|].
  lia.
Qed.

(** * The statements at concrete inputs *)

(** C1, as stated, fails: a linked task without [lastSyncedAt] counts as
    needing a push in the words of the specification, yet the push phase
    makes no remote call for it. *)
Lemma C1_counterexample :
  Spec.needs_push Sample.task_linked_unstamped = true
  /\ In Sample.task_linked_unstamped (Db.tasks (db Sample.unstamped_world))
  /\ Task.user Sample.task_linked_unstamped = User._id Sample.ana
  /\ snd (select_tasks_to_push (Db.tasks (db Sample.unstamped_world))) = []
  /\ trace (fst (Sample.push Sample.ana Sample.prefs_denver "primary"
                   Sample.unstamped_world)) = [].
Proof. repeat split; try reflexivity. left. reflexivity. Qed.

(** C2, as stated, fails: the remote last-modified time equals the task's
    [updatedAt], so nothing is pulled, yet the same cycle pushes the task
    (its [updatedAt] is later than its [lastSyncedAt]) and rewrites its
    record. *)
Lemma C2_counterexample :
  event_updated_naive Sample.remote_equal = Ok (Task.updatedAt Sample.task_edited)
  /\ trace Sample.tie_after
     = [EventsList "primary";
        EventsUpdate (Some "primary"%string) "ev1" (Sample.body_of Sample.task_edited);
        LogPushed 1]
  /\ task_by_id 8%N (db Sample.tie_world) = Some Sample.task_edited
  /\ task_by_id 8%N (db Sample.tie_after) <> Some Sample.task_edited.
Proof.
  repeat split; try reflexivity.
  vm_compute. discriminate.
Qed.


(** C4, as stated, fails: the calendar selection and the watermark of the
    stored user survive the clearing of the tokens. *)
Lemma C4_counterexample :
  fst (get_credentials_from_user Sample.creds_stale Sample.creds_refresh_fails
         Sample.bob (db Sample.bob_world)) = None
  /\ truthy_str (User.googleAccessToken Sample.bob) = true
  /\ option_map User.googleAccessToken (user_by_id Sample.uid (db Sample.bob_after))
     = Some None
  /\ option_map User.googleSelectedCalendars
       (user_by_id Sample.uid (db Sample.bob_after))
     = Some (Some ["work"%string])
  /\ option_map User.lastCalendarSync (user_by_id Sample.uid (db Sample.bob_after))
     = Some (Some (Sample.at_ 2026 1 9 8 0 0)).
Proof. repeat split; reflexivity. Qed.

(** C5, as stated, fails: when the listing is refused with the revocation
    signature the pull phase returns without setting the watermark. *)
Lemma C5_counterexample :
  snd (Sample.pull Sample.events_list_revoked Sample.ana ["primary"%string]
         Sample.revoked_world) = Ok 0
  /\ trace Sample.revoked_after = [EventsList "primary"]
  /\ option_map User.googleAccessToken
       (user_by_id Sample.uid (db Sample.revoked_after)) = Some None
  /\ option_map User.lastCalendarSync
       (user_by_id Sample.uid (db Sample.revoked_after)) = Some None.
Proof. repeat split; reflexivity. Qed.

(** ** The theorems at work *)

Lemma nodup_sample_ids (l : list N) : 
  (fix distinct (l : list N) : bool :=
     match l with
     | [] => true
     | x :: rest => negb (existsb (N.eqb x) rest) && distinct rest
     end) l = true -> NoDup l.
Proof.
  induction l as [|x l IH]; intros H; [constructor|].
  apply andb_true_iff in H. destruct H as [Hx Hl].
  constructor; [|apply IH; exact Hl].
  intros Hin. apply negb_true_iff in Hx.
  assert (existsb (N.eqb x) l = true).
  { apply existsb_exists. exists x. split; [exact Hin|apply N.eqb_refl]. }
  congruence.
Defined.

Lemma C2_witness :
  DT.gtb (Sample.at_ 2026 1 6 10 0 0) (Sample.at_ 2026 1 5 9 0 0) = true
  /\ exists w',
       pull_event Sample.pytz_timezone Sample.system_utcoffset Sample.Remote
         Sample.utcnow_at Sample.ana "primary" Sample.remote_newer Sample.newer_world
       = Ok (w', 1).
Proof.
  split; [reflexivity|].
  destruct (C2_pull_conflict Sample.pytz_timezone Sample.system_utcoffset
              Sample.Remote Sample.utcnow_at Sample.ana "primary"
              Sample.remote_newer Sample.newer_world Sample.task_in_sync "ev1"
              (Sample.at_ 2026 1 20 0 0 0) None
              (Sample.at_ 2026 1 6 10 0 0) (Sample.at_ 2026 1 5 9 0 0))
    as [H _].
  - reflexivity.
  - discriminate.
  - reflexivity.
  - apply nodup_sample_ids. reflexivity.
  - reflexivity.
  - reflexivity.
  - reflexivity.
  - destruct (H eq_refl) as (w' & Hw & _). exists w'. exact Hw.
Defined.

(** The sample clock does not run backwards. *)
Lemma sample_clock_monotone : monotone_clock Sample.utcnow_at.
Proof.
  intros m n Hmn. unfold DT.gtb, DT.ltb, DT.key, Sample.utcnow_at.
  cbn [DT.year DT.month DT.day DT.hour DT.minute DT.second DT.microsecond DT.lex_ltb].
  rewrite !Z.ltb_irrefl, !Z.eqb_refl. cbn [orb andb].
  rewrite andb_false_r, orb_false_r. apply Z.ltb_ge. lia.
Qed.

(** The sample service answers with identifiers that are not empty. *)
Lemma sample_answers_with_id :
  answers_with_id Sample.Remote Sample.events_insert Sample.events_update.
Proof.
  split.
  - intros r cal body e r'. unfold Sample.events_insert.
    destruct (String.eqb _ _); [discriminate|].
    intros H. injection H as <- _. discriminate.
  - intros r cal eid body e r' Hne. unfold Sample.events_update.
    intros H. injection H as <- _. cbn. congruence.
Qed.


Lemma C4_witness :
  snd (Sample.cycle (Sample.events_list []) Sample.creds_stale Sample.bob
         Sample.bob_world) = false
  /\ Db.tasks (db Sample.bob_after) = Db.tasks (db Sample.bob_world).
Proof.
  destruct (C4_tokens_cleared Sample.pytz_timezone Sample.system_utcoffset
              Sample.creds_stale Sample.creds_refresh_fails Sample.Remote
              (Sample.events_list []) Sample.events_insert Sample.events_update
              Sample.utcnow_at Sample.bob Sample.bob_world)
    as (H1 & H2 & _).
  - reflexivity.
  - reflexivity.
  - split; [exact H1|exact H2].
Defined.

Lemma C5_witness :
  (snd (Sample.pull Sample.events_list_work_down Sample.carla
          ["work"; "primary"]%string Sample.carla_world) = Ok 0
   /\ exists u',
        user_by_id Sample.uid
          (db (fst (Sample.pull Sample.events_list_work_down Sample.carla
                      ["work"; "primary"]%string Sample.carla_world))) = Some u'
        /\ User.lastCalendarSync u' = Some (Sample.utcnow_at 2))
  /\ (exists u',
        user_by_id Sample.uid (db Sample.revoked_after) = Some u'
        /\ User.lastCalendarSync u' = User.lastCalendarSync Sample.ana
        /\ User.googleAccessToken u' = None
        /\ User.googleSelectedCalendars u' = None).
Proof.
  split.
  2:{ destruct (C5_watermark Sample.pytz_timezone Sample.system_utcoffset Sample.Remote
                  Sample.events_list_revoked Sample.utcnow_at Sample.ana
                  ["primary"%string] Sample.revoked_world
                  (fst (pull_window Sample.Remote Sample.utcnow_at Sample.ana
                          Sample.revoked_world))
                  (fst (fst (pull_calendars Sample.pytz_timezone Sample.system_utcoffset
                               Sample.Remote Sample.events_list_revoked
                               Sample.utcnow_at Sample.ana
                               "2026-01-09T12:00:00Z" "2026-04-10T12:00:00.000001Z"
                               ["primary"%string]
                               (fst (pull_window Sample.Remote Sample.utcnow_at
                                       Sample.ana Sample.revoked_world)) 0)))
                  "2026-01-09T12:00:00Z" "2026-04-10T12:00:00.000001Z" 0 true)
        as (_ & _ & H3 & _ & _ & H6 & _).
      - reflexivity.
      - reflexivity.
      - destruct (H3 (H6 "primary"%string _ (or_introl eq_refl) eq_refl eq_refl)
                     Sample.ana eq_refl)
          as (u' & Hu & Hw & Ha & _ & _ & Hs).
        exists u'. repeat split; assumption. }
  destruct (C5_watermark Sample.pytz_timezone Sample.system_utcoffset Sample.Remote
              Sample.events_list_work_down Sample.utcnow_at Sample.carla
              ["work"; "primary"]%string Sample.carla_world
              (fst (pull_window Sample.Remote Sample.utcnow_at Sample.carla
                      Sample.carla_world))
              (fst (fst (pull_calendars Sample.pytz_timezone Sample.system_utcoffset
                           Sample.Remote Sample.events_list_work_down
                           Sample.utcnow_at Sample.carla
                           "2026-01-09T12:00:00Z" "2026-04-10T12:00:00.000001Z"
                           ["work"; "primary"]%string
                           (fst (pull_window Sample.Remote Sample.utcnow_at
                                   Sample.carla Sample.carla_world)) 0)))
              "2026-01-09T12:00:00Z" "2026-04-10T12:00:00.000001Z" 0 false)
    as (H1 & H2 & _).
  - reflexivity.
  - reflexivity.
  - split; [exact H1|].
    destruct (H2 eq_refl Sample.carla eq_refl) as (u' & Hu & Hw & _).
    exists u'. split; [exact Hu|exact Hw].
Defined.

Lemma C6_witness :
  convert_event_time_to_user_tz Sample.pytz_timezone Sample.system_utcoffset
    "2026-01-09T14:30:00" Sample.prefs_denver
  = Ok (Sample.at_ 2026 1 9 0 0 0, "14:30"%string)
  /\ convert_event_time_to_user_tz Sample.pytz_timezone Sample.system_utcoffset
       "2026-01-09T14:30:00Z" Sample.prefs_denver
     = Ok (Sample.at_ 2026 1 9 0 0 0, "07:30"%string)
  /\ convert_event_time_to_user_tz Sample.pytz_timezone Sample.system_utcoffset
       "2026-01-09T14:30:00" Sample.prefs_unknown
     = Ok (Sample.at_ 2026 1 9 0 0 0, "14:30"%string).
Proof.
  destruct (C6_naive_time_is_local Sample.pytz_timezone Sample.system_utcoffset)
    as (_ & Hnaive & _ & Hz & Hunknown & Hutc).
  split; [|split].
  - apply (Hnaive Sample.denver); reflexivity.
  - apply (Hz Sample.denver); reflexivity.
  - unfold Sample.prefs_unknown. rewrite Hunknown by reflexivity. exact Hutc.
Defined.

Lemma C7_witness :
  snd (push_loop Sample.pytz_timezone Sample.Remote Sample.events_insert
         Sample.events_update Sample.utcnow_at Sample.prefs_denver "primary"
         (Sample.batch_before ++ Sample.batch_failing :: Sample.batch_after)
         Sample.batch_world 0) = 3 - 1.
Proof.
  destruct (C7_push_isolation Sample.pytz_timezone Sample.Remote Sample.events_insert
              Sample.events_update Sample.utcnow_at Sample.prefs_denver "primary"
              Sample.batch_before Sample.batch_after Sample.batch_failing
              Sample.batch_world)
    as (_ & H & _).
  - reflexivity.
  - reflexivity.
  - reflexivity.
  - exact H.
Defined.

Lemma C8_witness :
  Db.tasks (snd (select_calendars ["A"%string] Sample.dana Sample.dana_db))
  = [Sample.task_a; Sample.task_local]
  /\ fst (select_calendars ["A"%string] Sample.dana Sample.dana_db) = 2.
Proof.
  destruct (C8_deselection_cleanup ["A"%string] Sample.dana Sample.dana_db)
    as (_ & _ & H1 & H2 & _).
  - apply (nodup_sample_ids (map Task._id (Db.tasks Sample.dana_db))). reflexivity.
  - split; [exact H1|exact H2].
Defined.


Lemma C10_witness :
  filter is_push_call
    (trace (fst (push_task Sample.pytz_timezone Sample.Remote Sample.events_insert
                   Sample.events_update Sample.utcnow_at Sample.prefs_denver
                   "primary" Sample.task_on_work Sample.work_world)))
  = [EventsUpdate (Some "work"%string) "ev9" (Sample.body_of Sample.task_on_work)]
  /\ exists t',
       task_by_id 9%N
         (db (fst (push_task Sample.pytz_timezone Sample.Remote Sample.events_insert
                     Sample.events_update Sample.utcnow_at Sample.prefs_denver
                     "primary" Sample.task_on_work Sample.work_world))) = Some t'
       /\ Task.googleCalendarId t' = Val "primary"%string.
Proof.
  destruct (C10_recorded_calendar_overwritten Sample.pytz_timezone Sample.Remote
              Sample.events_insert Sample.events_update Sample.utcnow_at
              Sample.prefs_denver "primary" Sample.task_on_work Sample.work_world
              "ev9" "work" (Sample.body_of Sample.task_on_work))
    as [H1 H2].
  - reflexivity.
  - discriminate.
  - reflexivity.
  - reflexivity.
  - reflexivity.
  - split; [exact H1|].
    destruct (H2 (Event.mk (Some "ev9"%string) (Some "Write report"%string)
                    (Some (Body.description (Sample.body_of Sample.task_on_work)))
                    None None None None) tt "ev9"%string eq_refl eq_refl)
      as (_ & t' & Ht & _ & Hc & _).
    exists t'. split; [exact Ht|exact Hc].
Defined.

(** ** The further properties at work *)

(** The sample clock moves at every reading. *)
Lemma sample_clock_moves (n : nat) :
  DT.gtb (Sample.utcnow_at (S n)) (Sample.utcnow_at n) = true.
Proof.
  unfold DT.gtb, DT.ltb, DT.key, Sample.utcnow_at.
  cbn [DT.year DT.month DT.day DT.hour DT.minute DT.second DT.microsecond DT.lex_ltb].
  rewrite !Z.ltb_irrefl, !Z.eqb_refl. cbn [orb andb].
  rewrite andb_false_r, orb_false_r. apply Z.ltb_lt. lia.
Qed.

(** Two users share a store, and the event listed for the one bears the
    identifier that a task of the other is linked to. *)
Lemma cycle_spares_other_users_witness :
  tasks_of_others (User._id Sample.ana)
    (db (fst (Sample.cycle Sample.tie_listing Sample.creds_fresh Sample.ana
                Cases.shared_world)))
  = [Cases.eve_task].
Proof.
  refine (eq_trans
            (cycle_spares_other_users Sample.pytz_timezone Sample.system_utcoffset
               Sample.creds_fresh Sample.creds_refresh_fails Sample.Remote
               Sample.tie_listing Sample.events_insert Sample.events_update
               Sample.utcnow_at Sample.ana Cases.shared_world _) eq_refl).
  split.
  - apply nodup_sample_ids. reflexivity.
  - intros t [<-|[<-|[]]]; reflexivity.
Defined.

(** An event listed to an empty store. *)
Lemma pulled_task_is_pushed_back_witness :
  In Cases.task_pulled
    (snd (select_tasks_to_push
            (Db.tasks_find (fun x => N.eqb (Task.user x) Sample.uid)
               (db (fst (Sample.pull Sample.newer_listing Sample.ana
                           ["primary"%string] Sample.revoked_world))))))
  /\ In (EventsUpdate (Some "primary"%string) "ev1" (Sample.body_of Cases.task_pulled))
       (trace (fst (Sample.cycle Sample.newer_listing Sample.creds_fresh Sample.ana
                      Sample.revoked_world))).
Proof.
  destruct (pulled_task_is_pushed_back Sample.pytz_timezone Sample.system_utcoffset
              Sample.creds_fresh Sample.creds_refresh_fails Sample.Remote
              Sample.newer_listing Sample.events_insert Sample.events_update
              Sample.utcnow_at Sample.ana Sample.revoked_world Cases.task_pulled)
    as (cal & tmin & tmax & events & e & k & _ & _ & _ & _ & Hc & Hpush).
  - split; [constructor|intros t []].
  - discriminate.
  - intros cal tmin tmax events e eu n _ [= <-] [<-|[]] [= <-] _. reflexivity.
  - left. reflexivity.
  - reflexivity.
  - destruct Hc as (eid & _ & _ & _ & _ & _ & Hgc & _).
    injection Hgc as <-.
    assert (Hmoved : DT.gtb (Sample.utcnow_at (S (S k))) (Sample.utcnow_at k) = true).
    { unfold DT.gtb, DT.ltb, DT.key, Sample.utcnow_at.
      cbn [DT.year DT.month DT.day DT.hour DT.minute DT.second DT.microsecond
           DT.lex_ltb].
      rewrite !Z.ltb_irrefl, !Z.eqb_refl. cbn [orb andb].
      rewrite andb_false_r, orb_false_r. apply Z.ltb_lt. lia. }
    destruct (Hpush Hmoved) as [Hsel Hcall].
    split; [exact Hsel|].
    apply Hcall; reflexivity.
Defined.

(** A reminder due now, followed in the store by one whose lead time is
    beyond what a [timedelta] holds. *)
Lemma one_bad_reminder_blocks_all_witness :
  reminder_due (Sample.utcnow_at 0) (DT.mk 2026 1 10 12 1 0 0 None)
    (Cases.task_reminding 51%N 30) = Ok true
  /\ exists msg,
       Cases.check_reminders
         (Cases.desk [Cases.task_reminding 51%N 30;
                      Cases.task_reminding 52%N 2000000000000])
       = (mkDesk (Db.mk [Sample.ana]
                    [Cases.task_reminding 51%N 30;
                     Cases.task_reminding 52%N 2000000000000] [] 100%N) 1 [],
          Raise msg).
Proof.
  split; [reflexivity|].
  apply (one_bad_reminder_blocks_all "vapid-key" "mailto:admin@novado.app" true
           Cases.webpush_ok Cases.subscribed Sample.utcnow_at
           (Cases.desk [Cases.task_reminding 51%N 30;
                        Cases.task_reminding 52%N 2000000000000])
           (Cases.task_reminding 52%N 2000000000000)
           (DT.mk 2026 1 10 12 1 0 0 None)
           "OverflowError: days; must have magnitude <= 999999999").
  - right. left. reflexivity.
  - reflexivity.
  - reflexivity.
Defined.

(** The reminder that is due now is not due any more once it is stamped. *)
Lemma sent_reminder_is_not_repeated_witness :
  reminder_due (Sample.utcnow_at 0) (DT.mk 2026 1 10 12 1 0 0 None)
    (Cases.task_reminding 51%N 30) = Ok true
  /\ reminder_due (Sample.utcnow_at 0) (DT.mk 2026 1 10 12 1 0 0 None)
       (set_lastSent (Sample.utcnow_at 0) (Cases.task_reminding 51%N 30)) = Ok false.
Proof.
  split; [reflexivity|].
  destruct (sent_reminder_is_not_repeated "vapid-key" "mailto:admin@novado.app" true
              Cases.webpush_ok Cases.subscribed Sample.utcnow_at
              (Cases.task_reminding 51%N 30)
              (Cases.desk [Cases.task_reminding 51%N 30]) Cases.subscription)
    as [_ H].
  - apply nodup_sample_ids. reflexivity.
  - left. reflexivity.
  - reflexivity.
  - reflexivity.
  - reflexivity.
  - apply H. reflexivity.
Defined.

(** No VAPID key is configured. *)
Lemma reminder_stamped_without_push_witness :
  pushes (_send_reminder "" "mailto:admin@novado.app" true Cases.webpush_ok
            Cases.subscribed Sample.utcnow_at (Cases.task_reminding 51%N 30)
            (Cases.desk [Cases.task_reminding 51%N 30])) = []
  /\ store (_send_reminder "" "mailto:admin@novado.app" true Cases.webpush_ok
              Cases.subscribed Sample.utcnow_at (Cases.task_reminding 51%N 30)
              (Cases.desk [Cases.task_reminding 51%N 30]))
     = Db.tasks_update_one 51%N (set_lastSent (Sample.utcnow_at 0))
         (store (Cases.desk [Cases.task_reminding 51%N 30])).
Proof.
  apply (reminder_stamped_without_push "" "mailto:admin@novado.app" true
           Cases.webpush_ok Cases.subscribed Sample.utcnow_at
           (Cases.task_reminding 51%N 30)
           (Cases.desk [Cases.task_reminding 51%N 30]) Cases.subscription).
  - left. reflexivity.
  - reflexivity.
Defined.

(** The user has no subscription. *)
Lemma failed_reminder_is_not_stamped_witness :
  store (_send_reminder "vapid-key" "mailto:admin@novado.app" true Cases.webpush_ok
           Cases.unsubscribed Sample.utcnow_at (Cases.task_reminding 51%N 30)
           (Cases.desk [Cases.task_reminding 51%N 30]))
  = store (Cases.desk [Cases.task_reminding 51%N 30])
  /\ reading (_send_reminder "vapid-key" "mailto:admin@novado.app" true
                Cases.webpush_ok Cases.unsubscribed Sample.utcnow_at
                (Cases.task_reminding 51%N 30)
                (Cases.desk [Cases.task_reminding 51%N 30])) = 0%nat.
Proof.
  apply (failed_reminder_is_not_stamped "vapid-key" "mailto:admin@novado.app" true
           Cases.webpush_ok Cases.unsubscribed Sample.utcnow_at
           (Cases.task_reminding 51%N 30)
           (Cases.desk [Cases.task_reminding 51%N 30])).
  left. reflexivity.
Defined.

(** A task due at 12:30 with a lead time of 30 minutes, checked at 12:00. *)
Lemma selected_reminder_is_due_within_a_minute_witness :
  0 <= microseconds_of (DT.mk 2026 1 10 12 30 0 0 None) - 30 * 60 * 1000000
       - microseconds_of (Sample.utcnow_at 0) <= 60 * 1000000.
Proof.
  destruct (selected_reminder_is_due_within_a_minute (Sample.utcnow_at 0)
              (DT.mk 2026 1 10 12 1 0 0 None) (Cases.task_reminding 51%N 30)
              (Sample.at_ 2026 1 10 0 0 0))
    as [(lead & E & H) _].
  - reflexivity.
  - reflexivity.
  - reflexivity.
  - reflexivity.
  - reflexivity.
  - cbn in E. injection E as <-. exact H.
Defined.


(** The calendar "C" is added to the selection of "A" and "B". *)
Lemma widening_selection_deletes_nothing_witness :
  fst (select_calendars ["A"; "B"; "C"]%string Sample.dana Sample.dana_db) = 0
  /\ Db.tasks (snd (select_calendars ["A"; "B"; "C"]%string Sample.dana Sample.dana_db))
     = [Sample.task_a; Sample.task_b; Sample.task_local; Sample.task_b'].
Proof.
  apply (widening_selection_deletes_nothing ["A"; "B"; "C"]%string Sample.dana
           Sample.dana_db).
  intros c [<-|[<-|[]]]; [left|right; left]; reflexivity.
Defined.

(** The second user of the shared store is not connected. *)
Lemma all_users_sync_spares_unconnected_witness :
  filter (fun t => N.eqb (Task.user t) Cases.eve_id)
    (Db.tasks (db (fst (Cases.sync_all Cases.shared_world))))
  = [Cases.eve_task].
Proof.
  refine (eq_trans
            (all_users_sync_spares_unconnected Sample.pytz_timezone
               Sample.system_utcoffset Sample.creds_fresh Sample.creds_refresh_fails
               Sample.Remote Sample.tie_listing Sample.events_insert
               Sample.events_update Sample.utcnow_at Cases.eve_id Cases.shared_world
               _ _) eq_refl).
  - split.
    + apply nodup_sample_ids. reflexivity.
    + intros t [<-|[<-|[]]]; reflexivity.
  - intros u [<-|[<-|[]]] H; [discriminate H|reflexivity].
Defined.

(** A linked task pushed on request. *)
Lemma manual_push_is_pushed_again_witness :
  exists task,
    task_by_id 8%N
      (db (fst (Cases.manual_push (Some 8%N) "primary" Sample.ana Sample.tie_world)))
    = Some task
    /\ push_candidate task = true.
Proof.
  destruct (manual_push_is_pushed_again Sample.pytz_timezone Sample.creds_fresh
              Sample.creds_refresh_fails Sample.Remote Sample.events_insert
              Sample.events_update Sample.utcnow_at 8%N "primary" Sample.ana
              Sample.tie_world
              (fst (Cases.manual_push (Some 8%N) "primary" Sample.ana Sample.tie_world))
              "ev1")
    as (task & H1 & _ & _ & _ & H5).
  - apply nodup_sample_ids. reflexivity.
  - exact sample_clock_moves.
  - reflexivity.
  - exists task. split; [exact H1|].
    vm_compute in H1. injection H1 as <-. apply H5; reflexivity.
Defined.

(** The first user asks for a task of the second. *)
Lemma refused_manual_push_changes_no_task_witness :
  snd (Cases.manual_push (Some 31%N) "primary" Sample.ana Cases.shared_world)
  = HTTPException 404 "Task not found"
  /\ Db.tasks (db (fst (Cases.manual_push (Some 31%N) "primary" Sample.ana
                          Cases.shared_world)))
     = [Sample.task_edited; Cases.eve_task]
  /\ trace (fst (Cases.manual_push (Some 31%N) "primary" Sample.ana
                   Cases.shared_world)) = [].
Proof.
  split; [reflexivity|].
  destruct (refused_manual_push_changes_no_task Sample.pytz_timezone Sample.creds_fresh
              Sample.creds_refresh_fails Sample.Remote Sample.events_insert
              Sample.events_update Sample.utcnow_at (Some 31%N) "primary" Sample.ana
              Cases.shared_world
              (fst (Cases.manual_push (Some 31%N) "primary" Sample.ana
                      Cases.shared_world))
              404 "Task not found")
    as (H1 & _ & H3).
  - reflexivity.
  - split; [exact H1|]. apply H3. discriminate.
Defined.

(** Three eligible tasks, one of which the service refuses. *)
Lemma push_all_balance_witness :
  2 + Z.of_nat (List.length [(12%N, "Refused"%string, "HttpError 403: forbidden"%string)])
  = Z.of_nat (List.length
                (filter (fun t => N.eqb (Task.user t) (User._id Sample.ana)
                                  && truthy_some (Task.dueDate t)
                                  && negb (truthy_str (Task.googleEventId t))
                                  && negb (terminal_status (Task.status t)))
                   (Db.tasks (db Sample.batch_world)))).
Proof.
  apply (push_all_balance Sample.pytz_timezone Sample.creds_fresh
           Sample.creds_refresh_fails Sample.Remote Sample.events_insert
           Sample.utcnow_at "primary" Sample.ana Sample.batch_world
           (fst (Cases.push_all "primary" Sample.ana Sample.batch_world)) 2
           (Some [(12%N, "Refused"%string, "HttpError 403: forbidden"%string)])).
  reflexivity.
Defined.

(** Two tasks that the service accepts, pushed twice. *)
Lemma push_all_twice_witness :
  snd (Cases.push_all "primary" Sample.ana Cases.plain_world) = Returns (2, None)
  /\ trace (fst (Cases.push_all "primary" Sample.ana
                   (fst (Cases.push_all "primary" Sample.ana Cases.plain_world))))
     = trace (fst (Cases.push_all "primary" Sample.ana Cases.plain_world))
  /\ Db.tasks (db (fst (Cases.push_all "primary" Sample.ana
                          (fst (Cases.push_all "primary" Sample.ana Cases.plain_world)))))
     = Db.tasks (db (fst (Cases.push_all "primary" Sample.ana Cases.plain_world))).
Proof.
  split; [reflexivity|].
  destruct (push_all_twice Sample.pytz_timezone Sample.creds_fresh
              Sample.creds_refresh_fails Sample.Remote Sample.events_insert
              Sample.utcnow_at "primary" "primary" Sample.ana Sample.ana
              Cases.plain_world
              (fst (Cases.push_all "primary" Sample.ana Cases.plain_world)) 2)
    as (H1 & _ & H3).
  - exact (proj1 sample_answers_with_id).
  - apply nodup_sample_ids. reflexivity.
  - reflexivity.
  - reflexivity.
  - split; [exact H1|exact H3].
Defined.

(** Three linked tasks and a local one. *)
Lemma disconnect_removes_linked_tasks_witness :
  Db.tasks (snd (disconnect_google Sample.dana Sample.dana_db)) = [Sample.task_local]
  /\ fst (disconnect_google Sample.dana Sample.dana_db) = 3.
Proof.
  pose proof (disconnect_removes_linked_tasks Sample.dana Sample.dana_db) as H.
  cbv zeta in H. destruct H as (H1 & H2 & _).
  - apply nodup_sample_ids. reflexivity.
  - split; [exact H1|exact H2].
Defined.

(** The user after disconnecting. *)
Lemma disconnected_user_is_idle_witness :
  Sample.cycle Sample.tie_listing Sample.creds_fresh (clear_connection Sample.dana)
    (mkWorld (snd (disconnect_google Sample.dana Sample.dana_db)) tt 0 [])
  = (mkWorld (snd (disconnect_google Sample.dana Sample.dana_db)) tt 0 [], false).
Proof.
  destruct (disconnected_user_is_idle Sample.pytz_timezone Sample.system_utcoffset
              Sample.creds_fresh Sample.creds_refresh_fails Sample.Remote
              Sample.tie_listing Sample.events_insert Sample.events_update
              Sample.utcnow_at Sample.dana (clear_connection Sample.dana)
              Sample.dana_db tt 0%nat [])
    as [H _].
  - reflexivity.
  - exact H.
Defined.

(** A task due on 2026-01-20 at 14:30, in Denver. *)
Lemma pushed_time_reads_back_witness :
  Body.start (Sample.body_of Cases.task_timed)
  = Body.DateTime "2026-01-20T14:30:00-07:00" (Some "America/Denver"%string)
  /\ convert_event_time_to_user_tz Sample.pytz_timezone Sample.system_utcoffset
       "2026-01-20T14:30:00-07:00" Sample.prefs_denver
     = Ok (Sample.at_ 2026 1 20 0 0 0, "14:30"%string).
Proof.
  split; [reflexivity|].
  destruct (pushed_time_reads_back Sample.pytz_timezone Sample.system_utcoffset
              Cases.task_timed Sample.prefs_denver (Sample.body_of Cases.task_timed)
              (Sample.at_ 2026 1 20 0 0 0) (Sample.at_ 2026 1 20 21 30 0)
              "14:30" 14 30)
    as (text & zone & H1 & H2).
  - reflexivity.
  - reflexivity.
  - reflexivity.
  - discriminate.
  - reflexivity.
  - split; reflexivity.
  - reflexivity.
  - reflexivity.
  - vm_compute in H1. injection H1 as <- _. exact H2.
Defined.

(** An all-day task and the event that bears its date. *)
Lemma pushed_date_reads_back_witness :
  event_start Sample.pytz_timezone Sample.system_utcoffset Sample.remote_newer
    Sample.prefs_denver
  = Ok (Some (Sample.at_ 2026 1 20 0 0 0, None)).
Proof.
  destruct (pushed_date_reads_back Sample.pytz_timezone Sample.system_utcoffset
              (Sample.task_new 11%N "Plan") Sample.prefs_denver
              (Sample.at_ 2026 1 20 0 0 0) Sample.remote_newer)
    as (body & text & Hb & Hs & _ & H).
  - reflexivity.
  - reflexivity.
  - reflexivity.
  - discriminate.
  - vm_compute in Hb. injection Hb as <-. vm_compute in Hs. injection Hs as <-.
    apply H; reflexivity.
Defined.
